(* ===== verification/_CoqProject ===== *)
-Q . S2P
Prelude.v
Py.v
Session.v
Prompts.v
Instructions.v
Agents.v
InitState.v
Orchestrator.v
Csv.v
Utf8.v
Artifacts.v
ArtifactService.v
ArtifactConfig.v
Imports.v
Scripts.v
Tests.v
