(* ===== verification/Prelude.v ===== *)
(** * A verification development for the no-match analysis agent

    The repository (src/) is a Python program built on Google's Agent
    Development Kit (ADK).  A root agent, [NoMatchAnalysisAgent] in
    src/agent.py, runs four language-model sub-agents one after the other
    over a shared session state (a Python dict kept by the ADK runtime):

    - conversation_data_retrieval_agent (writes "conversation_data_output"),
    - no_match_analysis_agent (writes "no_match_analysis_output"),
    - dialogflow_cx_parser_agent (writes "dialogflow_analysis_output"),
      run only when "dialogflow_bot_json" is truthy,
    - csv_generation_agent (writes "csv_generation_output"),

    relaying every event they yield and stopping early when a gated output
    is empty.  Before it runs, the ADK runtime calls its
    [before_agent_callback], [initialize_state_var] in
    src/tools/initialize_state.py, which fills the session with the
    environment configuration, the BigQuery schema metadata and empty
    outputs.  Around the workflow sit helpers that model no agent
    behaviour but are plain code: CSV rendering and artifact storage in
    src/artifact_utils.py, the choice of artifact backend in
    src/artifact_config.py and the BigQuery tools in src/tools, and four
    scripts: src/run_agent.py, which starts the ADK web runner, and
    src/verify_implementation.py, src/test_agent.py and
    src/test_integration.py, which check the installation by importing
    the modules and calling the CSV helpers.

    ** Layout (one file per component, in dependency order)

    - [Prelude] (this file): the [result] error type and its notation
      scope [nm_scope], the development's tactics, the hint database [nm]
      and the generic list lemmas the components share.
    - [Py]: the Python values the program manipulates: [str] as a list of
      code points ([pystr]), [None]/[bool]/[int]/[list]/[dict] values
      ([pyval]), Python truthiness ([truthy], the [if not x] tests), [len]
      with its [TypeError], f-string rendering of [None], and the string
      predicates [in], [endswith] and the ordering [sorted] uses;
      [bytes] values; the exceptions the code raises or catches.
    - [Session]: the ADK session state as a [gmap string pyval], events
      with their [state_delta], and how the runtime applies the deltas of
      the events an agent yields ([apply_events]); [dict.get] with a
      default.
    - [Prompts]: the four instruction strings of
      src/sub_agents/*/prompts.py, character for character.
    - [Instructions]: what the ADK does with an instruction before each
      model call ([inject_session_state]): the [re.finditer] match search
      as a scanner over code points, valid state names, optional and
      artifact placeholders, [str()] of session values, [KeyError] for a
      missing key; and the keys a template reads ([template_keys]).
    - [Agents]: the four [LlmAgent] configurations of
      src/sub_agents/*/agent.py (name, model, tools, [output_key],
      instruction), a run of one of them (injection, then the model) and
      the ADK rule that copies a final response's text to [output_key].  The contract one
      step promises the orchestrator is the class [StepAgent]: every
      state write of its events goes to its own output key and is a
      string.  Language-model replies are an arbitrary oracle, so every
      theorem holds for every possible model output.
    - [InitState]: [initialize_state_var] and the metadata query built by
      [bigquery_metdata_extraction_tool] (src/tools/bigquery_tools.py),
      with the BigQuery client as a fallible oracle.
    - [Orchestrator]: [_run_async_impl] as a function on the session
      state returning the relayed events, the final state and how the run
      ended; the same control flow as a small-step machine, one step per
      sub-agent, to state invariants of every intermediate state (every
      run of the function is a run of the machine); the whole ADK
      invocation (callback, then workflow).
    - [Csv]: [create_csv_content_from_data] with Python's [csv.DictWriter]
      (excel dialect: QUOTE_MINIMAL, doubled quotes, CRLF, the quoted
      single empty field) written out, [generate_sample_csv], a reference
      reader, and the round trip.
    - [Utf8]: [str.encode('utf-8')] with its shifts and masks and its
      [UnicodeEncodeError] on lone surrogates, and a reference decoder.
    - [Artifacts]: the helpers of src/artifact_utils.py
      ([list_available_artifacts], [get_latest_csv_artifact],
      [get_csv_artifact_by_version], [save_csv_artifact],
      [get_artifact_metadata]) with their [try]/[except] paths, over the
      class [ArtifactContext] (the three context methods the code calls,
      each fallible); the store is explicit state, [datetime.now()] is a
      clock indexed by the number of calls so far, and the time stamps
      ([strftime], [isoformat]) are written out.  [InMemory] is one
      session's view of ADK's in-memory artifact service: versions
      appended per name, the last one loaded by default, names listed in
      sorted order.
    - [ArtifactService]: ADK's [InMemoryArtifactService] itself ([Service]):
      one dict over all applications, users and sessions, keyed by the
      path [app/user/session/name] ([app/user/user/name] for [user:]
      names), with its save, load, delete, version listing and sorted
      key listing, and the context a session's invocation sees
      ([scoped_context]).
    - [ArtifactConfig]: [get_artifact_service] of src/artifact_config.py
      (environment, placeholder bucket, fallible cloud constructor) and the
      runner field [configure_artifact_service_for_runner] sets.
    - [Imports]: the import statements of every module of src/ and the
      names each defines ([modules]), and Python's import of a module
      ([import_ok], with fuel: one unit per nested import), with the
      installed third-party distributions as the oracle class
      [Packages].
    - [Scripts]: the six checks of src/verify_implementation.py and its
      [main] (count and exit status), with the file system as the oracle
      class [Machine]; [main] of
      src/run_agent.py with the ADK [Runner] as the oracle class
      [AdkRunner] and its two [except] clauses.
    - [Tests]: every test function of src/test_agent.py and
      src/test_integration.py and their [main]s ([run_tests]: the count,
      and an exception that escapes a test), with the environment
      ([Environ]) and the [.env] text as further oracles.

    ** What the theorems show

    - Orchestrator: each early exit returns exactly the events of the
      agents run so far and stops every later step; the structure-parsing
      step's output opens no gate (unlike the spec), and when the step is
      skipped the parser agent does not matter; the outcome is
      [Completed] only when all gated outputs are non-empty; the
      invariant "every output key holds a string" is established by the
      callback and preserved by every step, so the [len()] calls of the
      logging never raise and every exception that ends a run comes from
      a sub-agent.  Over a whole invocation: the structure-parsing step
      never runs, whatever the caller put in the session (the callback
      resets "dialogflow_bot_json"), and stale outputs of an earlier
      invocation never open a gate; every session the machine reaches
      from the callback's state is well typed ([session_typed]).
    - Instructions and Agents: the scanner loses no text; a template
      whose brace groups are not state names (JSON, code) is injected
      unchanged; running one of the four agents is equivalent to
      raising [KeyError] of the first of its keys the state lacks and
      otherwise relaying the model's reply; after the callback no key is
      ever missing (InitState).
    - Csv: for uniform records with at least one column, rendering
      succeeds and reading the text back gives the header (the first
      record's keys in order) and the records; a record with a key not in
      the header raises [ValueError]; the sample CSV is given byte for
      byte.
    - Artifacts: saving hands the context the text's UTF-8 bytes, which
      decode back to it and number one to four per character, and changes
      the store by that one call or not at all; text with a lone surrogate
      is not saved; generated names are the prefix, eight digits, [_], six
      digits (not the fourteen digits the spec says) and sort as their
      times do.  On the in-memory store: saving keeps the store sorted,
      and a save followed by a load returns the saved bytes at the new
      version with the earlier versions kept; the latest artifact is the
      greatest matching name; metadata reports the latest version's size.
    - ArtifactService: a session's [view] of the multi-session service is
      such an in-memory store and the helpers give the same results on
      both (a lemma), so the theorems above hold of the real service;
      [get_latest_csv_artifact] run in one session returns a [user:] CSV
      another session of the same user saved whenever its name sorts
      last, even when the session saved a later file of its own.
    - ArtifactConfig: the decision table of the backend choice, with the
      spec's scenarios (bucket unset, placeholder bucket) as examples.
    - Scripts: every check of verify_implementation.py that inspects the
      code holds of it, so [main]'s verdict depends only on the files
      present and the packages installed; run_agent.py exits with status
      1 exactly when the runner or its web interface raises something
      other than [KeyboardInterrupt], which the ADK [Runner] does when
      built with [agent=] alone.
    - Imports: a module imports exactly when the distributions its imports reach are
      installed (google-adk, typing_extensions, google-cloud-bigquery):
      every name imported between modules of src/ is defined there.
    - Tests: the verdict of each test script as a function of the files,
      packages and environment; test_agent.py can never pass on src/ as
      shipped (it requires [__init__.py] files the namespace packages do
      not need); when the integration test's environment check passes,
      [get_artifact_service] picks the Cloud Storage bucket it checked.

    ** Bounds and fuel

    One definition uses fuel, [import_ok]: a nested import costs one
    unit, and [importable] gives one unit per module (fourteen), more
    than the longest chain of nested imports of src/ (four; the import
    graph has no cycle), so no import runs out of fuel.  Every other
    function is structurally recursive, so totality is by construction;
    [_run_async_impl] has no loop.  Time stamps
    assume a four-digit year ([valid_datetime]), where [%Y] and
    [isoformat] agree; code points are bounded by 0x10FFFF, the range of a
    Python [str].

    ** Not modelled

    The language-model calls (an oracle here), the ADK runtime beyond the
    rules above, the BigQuery and Cloud Storage clients (fallible
    oracles), logging and [print] text, [str(e)] of exceptions (a
    parameter), the Cloud Storage artifact service, the ADK [Runner] and
    its web server (an oracle), the file system and package installation
    and environment the scripts inspect (oracles), and what the scripts
    print.  Module-level code other than imports and definitions (the
    [LlmAgent] and [NoMatchAnalysisAgent] constructors) is assumed not to
    raise on import.  Identifiers in placeholders
    are ASCII (the templates use no other).  The artifact helpers are
    modelled against the context methods with the signatures the code
    calls them with, not against a particular ADK release. *)

From Stdlib Require Import List ZArith Lia Sorted Permutation.
Import ListNotations.

Declare Scope nm_scope.
Delimit Scope nm_scope with nm.

(** ** Results of fallible Python code

    A Python call either returns a value or raises; [result E A] keeps the
    exception as a value so that error paths are ordinary branches. *)

Inductive result (E A : Type) : Type :=
| Ok (a : A)
| Err (e : E).
Arguments Ok {E A} a.
Arguments Err {E A} e.

Definition rbind {E A B} (r : result E A) (k : A -> result E B) : result E B :=
  match r with
  | Ok a => k a
  | Err e => Err e
  end.

Definition rmap {E A B} (f : A -> B) (r : result E A) : result E B :=
  rbind r (fun a => Ok (f a)).

(** [try: ... except Exception: ...]: the handler turns the exception into a
    value. *)
Definition rcatch {E A} (r : result E A) (h : E -> A) : A :=
  match r with
  | Ok a => a
  | Err e => h e
  end.

Notation "'let!' x := r 'in' k" := (rbind r (fun x => k))
  (at level 10, x name, r at level 100, k at level 200) : nm_scope.

Open Scope nm_scope.

Lemma rbind_ok {E A B} (a : A) (k : A -> result E B) : rbind (Ok a) k = k a.
Proof. reflexivity. Qed.

Lemma rbind_err {E A B} (e : E) (k : A -> result E B) : rbind (Err e) k = Err e.
Proof. reflexivity. Qed.

Lemma rbind_Ok_inv {E A B} (r : result E A) (k : A -> result E B) b :
  rbind r k = Ok b -> exists a, r = Ok a /\ k a = Ok b.
Proof. destruct r; simpl; [eauto | discriminate]. Qed.

(** ** Tactics of the development *)

(** Invert a hypothesis and clean up. *)
Ltac inv H := inversion H; subst; clear H.

(** Case on the scrutinee of the innermost [match] or [if] of the goal,
    remembering the equation. *)
Ltac break_match :=
  match goal with
  | |- context [match ?x with _ => _ end] =>
      let E := fresh "E" in destruct x eqn:E
  end.

Ltac break_match_hyp :=
  match goal with
  | H : context [match ?x with _ => _ end] |- _ =>
      let E := fresh "E" in destruct x eqn:E
  end.

(** ** Generic list lemmas shared by the components *)

Lemma concat_app_singletons {A} (l1 l2 l3 l4 : list A) :
  concat [l1; l2; l3; l4] = l1 ++ l2 ++ l3 ++ l4.
Proof. simpl. now rewrite app_nil_r. Qed.

Lemma last_app_cons {A} (l : list A) (x d : A) : last (l ++ [x]) d = x.
Proof. induction l as [|y l IH]; [reflexivity|]. simpl. rewrite IH. now destruct l. Qed.

Lemma filter_app_last {A} (p : A -> bool) (l : list A) (x : A) :
  filter p (l ++ [x]) = filter p l ++ (if p x then [x] else []).
Proof. rewrite filter_app. simpl. now destruct (p x). Qed.

(** Two lists sorted by an asymmetric relation that are permutations of
    each other are equal: a sorted order is unique. *)
Lemma strongly_sorted_perm_eq {A} (R : A -> A -> Prop) (l1 l2 : list A) :
  (forall x y, R x y -> R y x -> False) ->
  StronglySorted R l1 -> StronglySorted R l2 -> Permutation l1 l2 -> l1 = l2.
Proof.
  intros Hasym. revert l2. induction l1 as [|a l1 IH]; intros l2 S1 S2 P.
  - symmetry. now apply Permutation_nil.
  - destruct l2 as [|b l2]; [apply Permutation_sym, Permutation_nil in P; discriminate|].
    apply StronglySorted_inv in S1 as [S1 H1]. apply StronglySorted_inv in S2 as [S2 H2].
    assert (a = b) as <-.
    { destruct (Permutation_in a P (in_eq _ _)) as [->|Ha]; [reflexivity|].
      destruct (Permutation_in b (Permutation_sym P) (in_eq _ _)) as [->|Hb]; [reflexivity|].
      rewrite Forall_forall in H1, H2. exfalso. exact (Hasym _ _ (H1 b Hb) (H2 a Ha)). }
    f_equal. apply IH; [exact S1|exact S2|]. exact (Permutation_cons_inv P).
Qed.

Lemma Forall_app_iff {A} (P : A -> Prop) (l1 l2 : list A) :
  Forall P (l1 ++ l2) <-> Forall P l1 /\ Forall P l2.
Proof. apply Forall_app. Qed.

(** ** Reflexive-transitive closure of a step relation *)

Section Star.
Context {C : Type} (R : C -> C -> Prop).

Inductive star : C -> C -> Prop :=
| star_refl c : star c c
| star_step c1 c2 c3 : R c1 c2 -> star c2 c3 -> star c1 c3.

Lemma star_one c1 c2 : R c1 c2 -> star c1 c2.
Proof. intros H. eapply star_step; [exact H | apply star_refl]. Qed.

Lemma star_trans c1 c2 c3 : star c1 c2 -> star c2 c3 -> star c1 c3.
Proof. induction 1; intros; [assumption | eapply star_step; eauto]. Qed.

Definition irred (c : C) : Prop := forall c', ~ R c c'.

End Star.

Create HintDb nm discriminated.
Create Rewrite HintDb nm_rw.
#[export] Hint Rewrite @rbind_ok @rbind_err : nm_rw.
#[export] Hint Rewrite @filter_app_last @last_app_cons : nm_rw.
#[export] Hint Resolve Forall_nil star_refl star_one : nm.
