(* ===== verification/Py.v ===== *)
(** * Python values used by the program

    A Python [str] is a sequence of Unicode code points: [pystr] is a list
    of [Z].  String literals of the source are written [lit "..."] (the
    literals of src/ are ASCII).  [pyval] covers the values the program
    stores in the session state and in dicts, [bytes] included; [truthy] is Python's truth
    test ([if not x]), [py_len] is [len()] with its [TypeError], and
    [fstr_opt] is how an f-string renders an optional string (the
    environment lookups of src/tools/initialize_state.py may give
    [None]).  The string predicates are those the source calls:
    [x in s], [s.endswith(x)] and the ordering [sorted()] uses. *)

From Stdlib Require Import List ZArith Lia String Ascii.
From S2P Require Import Prelude.
Import ListNotations.
Open Scope Z_scope.

(** ** Strings *)

Definition pystr := list Z.

Definition lit (s : string) : pystr :=
  map (fun a => Z.of_nat (nat_of_ascii a)) (list_ascii_of_string s).

(** A newline and a double quote character. *)
Definition nl : pystr := [10].
Definition dq : pystr := [34].

Definition pystr_eqb (a b : pystr) : bool :=
  if list_eq_dec Z.eq_dec a b then true else false.

Lemma pystr_eqb_spec (a b : pystr) : pystr_eqb a b = true <-> a = b.
Proof. unfold pystr_eqb. destruct (list_eq_dec Z.eq_dec a b); intuition congruence. Qed.

(** [s.startswith(p)] *)
Fixpoint startswith (s p : pystr) {struct p} : bool :=
  match p, s with
  | [], _ => true
  | c :: p', d :: s' => (c =? d) && startswith s' p'
  | _ :: _, [] => false
  end.

(** [s.endswith(suf)] *)
Definition endswith (s suf : pystr) : bool := startswith (rev s) (rev suf).

(** [needle in hay]: substring test; the empty string is in every string. *)
Fixpoint contains (hay needle : pystr) : bool :=
  startswith hay needle ||
  match hay with
  | [] => false
  | _ :: hay' => contains hay' needle
  end.

(** [a < b] on [str]: lexicographic on code points, a proper prefix is
    smaller.  [sorted()] on a list of names uses it. *)
Fixpoint str_ltb (a b : pystr) : bool :=
  match a, b with
  | [], [] => false
  | [], _ :: _ => true
  | _ :: _, [] => false
  | x :: a', y :: b' => (x <? y) || ((x =? y) && str_ltb a' b')
  end.

Definition str_leb (a b : pystr) : bool := str_ltb a b || pystr_eqb a b.

(** ** Exceptions *)

Inductive py_exc : Type :=
| TypeError
| KeyError (key : pystr)
| ValueError (msg : pystr)
| UnicodeEncodeError (pos : nat)
| IndexError
| KeyboardInterrupt
| ServiceError (msg : pystr).

(** ** Values *)

#[local] Set Warnings "-register-all".
Inductive pyval : Type :=
| VNone
| VBool (b : bool)
| VInt (z : Z)
| VStr (s : pystr)
| VBytes (b : list Z)
| VList (l : list pyval)
| VDict (d : list (pystr * pyval)).

(** Python's truth test, as [if not x:] uses it. *)
Definition truthy (v : pyval) : bool :=
  match v with
  | VNone => false
  | VBool b => b
  | VInt z => negb (z =? 0)
  | VStr s => match s with [] => false | _ => true end
  | VBytes b => match b with [] => false | _ => true end
  | VList l => match l with [] => false | _ => true end
  | VDict d => match d with [] => false | _ => true end
  end.

(** [len(x)]: defined on sized values, [TypeError] on the others. *)
Definition py_len (v : pyval) : result py_exc nat :=
  match v with
  | VStr s => Ok (List.length s)
  | VBytes b => Ok (List.length b)
  | VList l => Ok (List.length l)
  | VDict d => Ok (List.length d)
  | VNone | VBool _ | VInt _ => Err TypeError
  end.

(** [f"{x}"] where [x] is [os.environ.get(...)]: [None] renders as
    ["None"]. *)
Definition fstr_opt (o : option pystr) : pystr :=
  match o with
  | Some s => s
  | None => lit "None"
  end.

Definition opt_val (o : option pystr) : pyval :=
  match o with
  | Some s => VStr s
  | None => VNone
  end.

(** A value is a [str]. *)
Definition is_str (v : pyval) : bool :=
  match v with VStr _ => true | _ => false end.

(** ** Lemmas *)

Lemma truthy_str_nil : truthy (VStr []) = false.
Proof. reflexivity. Qed.

Lemma truthy_VStr (s : pystr) : truthy (VStr s) = true <-> s <> [].
Proof. destruct s; simpl; intuition congruence. Qed.

Lemma is_str_len (v : pyval) : is_str v = true -> exists n, py_len v = Ok n.
Proof. destruct v; simpl; try discriminate. eauto. Qed.

Lemma startswith_app (s p : pystr) : startswith (p ++ s) p = true.
Proof. induction p as [|c p IH]; simpl; [reflexivity|]. now rewrite Z.eqb_refl, IH. Qed.

Lemma startswith_true (s p : pystr) : startswith s p = true -> exists r, s = p ++ r.
Proof.
  revert s. induction p as [|c p IH]; intros s H; simpl in *; [eauto|].
  destruct s as [|d s]; [discriminate|].
  apply andb_prop in H as [Hc H]. apply Z.eqb_eq in Hc. subst.
  destruct (IH s H) as [r ->]. eauto.
Qed.

Lemma endswith_app (s suf : pystr) : endswith (s ++ suf) suf = true.
Proof. unfold endswith. rewrite rev_app_distr. apply startswith_app. Qed.

Lemma contains_startswith (hay needle : pystr) :
  startswith hay needle = true -> contains hay needle = true.
Proof. intros H. destruct hay; simpl; now rewrite H. Qed.

Lemma contains_app (a b c : pystr) : contains (a ++ b ++ c) b = true.
Proof.
  induction a as [|x a IH].
  - cbn [app]. apply contains_startswith, startswith_app.
  - simpl. rewrite IH. apply Bool.orb_true_r.
Qed.

Lemma str_ltb_irrefl (a : pystr) : str_ltb a a = false.
Proof. induction a; simpl; [reflexivity|]. now rewrite Z.ltb_irrefl, Z.eqb_refl, IHa. Qed.

Lemma str_ltb_app_l (p a b : pystr) : str_ltb (p ++ a) (p ++ b) = str_ltb a b.
Proof. induction p; simpl; [reflexivity|]. now rewrite Z.ltb_irrefl, Z.eqb_refl, IHp. Qed.

Lemma str_ltb_trans (a b c : pystr) :
  str_ltb a b = true -> str_ltb b c = true -> str_ltb a c = true.
Proof.
  revert b c. induction a as [|x a IH]; intros [|y b] [|z c]; simpl; try easy.
  rewrite !Bool.orb_true_iff, !Bool.andb_true_iff, !Z.ltb_lt, !Z.eqb_eq.
  intros [Hxy|[-> Hab]] [Hyz|[-> Hbc]]; [left; lia|left; lia|left; lia|].
  right. split; [reflexivity|]. eauto.
Qed.

Lemma str_ltb_total (a b : pystr) : a <> b -> str_ltb a b = true \/ str_ltb b a = true.
Proof.
  revert b. induction a as [|x a IH]; intros [|y b] Hne; simpl; try tauto.
  rewrite !Bool.orb_true_iff, !Bool.andb_true_iff, !Z.ltb_lt, !Z.eqb_eq.
  destruct (Z.lt_total x y) as [Hxy|[<-|Hxy]]; [left; left; lia| |right; left; lia].
  destruct (IH b) as [H|H]; [congruence|left|right]; right; auto.
Qed.

Lemma str_ltb_asym (a b : pystr) : str_ltb a b = true -> str_ltb b a = false.
Proof.
  intros H. destruct (str_ltb b a) eqn:E; [|reflexivity].
  pose proof (str_ltb_trans _ _ _ H E). now rewrite str_ltb_irrefl in H0.
Qed.

Create HintDb py discriminated.
Create Rewrite HintDb py_rw.
#[export] Hint Rewrite startswith_app endswith_app contains_app str_ltb_irrefl str_ltb_app_l : py_rw.
#[export] Hint Resolve startswith_app endswith_app contains_app : py.
