(* ===== verification/Session.v ===== *)
(** * The ADK session state and events

    The agents of src/ share one mutable dict, [ctx.session.state].  The
    ADK runtime changes it in two ways the program relies on: a callback
    writes through [callback_context.state[k] = v], and every event an
    agent yields carries an [actions.state_delta] dict that the runner
    merges into the session when the event is appended (keys with the
    ["temp:"] prefix are not persisted).  The state is a
    [gmap string pyval] (the keys of the program are ASCII identifiers);
    an event keeps the fields the program observes: author, text content,
    whether it is a final response, and its delta as an association list
    (a dict in insertion order, later writes win). *)

From stdpp Require Import gmap strings list.
From S2P Require Import Prelude Py.

(** ** Events *)

Record event : Type := mk_event {
  ev_author : string;
  ev_text : option pystr;     (** [None]: no content parts *)
  ev_final : bool;            (** [event.is_final_response()] *)
  ev_delta : list (string * pyval)
}.

(** ** Applying deltas *)

Definition temp_prefix : string := "temp:".

Definition is_temp_key (k : string) : bool := String.prefix temp_prefix k.

(** [session.state.update(...)] for each persisted key of the delta. *)
Definition apply_delta (st : gmap string pyval) (d : list (string * pyval))
    : gmap string pyval :=
  fold_left (fun m kv => if is_temp_key kv.1 then m else <[kv.1 := kv.2]> m) d st.

(** The runner appends each yielded event to the session in order. *)
Definition apply_events (st : gmap string pyval) (evs : list event) : gmap string pyval :=
  fold_left (fun m e => apply_delta m (ev_delta e)) evs st.

(** [state.get(k, default)] *)
Definition state_get (st : gmap string pyval) (k : string) (default : pyval) : pyval :=
  match st !! k with
  | Some v => v
  | None => default
  end.

(** The value a delta leaves at a key, if it writes the key. *)
Definition delta_lookup (d : list (string * pyval)) (k : string) : option pyval :=
  fold_left (fun acc kv => if is_temp_key kv.1 then acc
                           else if String.eqb kv.1 k then Some kv.2 else acc) d None.

(** The keys an event list writes. *)
Definition delta_keys (evs : list event) : list string :=
  concat (map (fun e => map fst (ev_delta e)) evs).

(** A key holds a [str]. *)
Definition str_at (st : gmap string pyval) (k : string) : Prop :=
  exists s, st !! k = Some (VStr s).

(** The first key of [ks] missing from the state. *)
Definition missing_key (st : gmap string pyval) (ks : list string) : option string :=
  find (fun k => match st !! k with Some _ => false | None => true end) ks.

(** ** Lemmas *)

Lemma apply_events_app st evs1 evs2 :
  apply_events st (evs1 ++ evs2) = apply_events (apply_events st evs1) evs2.
Proof. unfold apply_events. apply fold_left_app. Qed.

Lemma apply_events_nil st : apply_events st [] = st.
Proof. reflexivity. Qed.

Lemma apply_delta_other st d k :
  (forall kv, In kv d -> kv.1 <> k) -> apply_delta st d !! k = st !! k.
Proof.
  unfold apply_delta. revert st. induction d as [|[k' v] d IH]; intros st Hd; [done|].
  simpl. rewrite IH by (intros kv Hin; apply Hd; right; done).
  destruct (is_temp_key k'); [done|].
  apply lookup_insert_ne. intros ->. apply (Hd (k, v)); [left|]; done.
Qed.

Definition delta_lookup_step (k : string) (acc : option pyval) (kv : string * pyval) :=
  if is_temp_key kv.1 then acc else if String.eqb kv.1 k then Some kv.2 else acc.

Lemma delta_lookup_step_fold d k acc :
  fold_left (fun acc kv => if is_temp_key kv.1 then acc
                           else if String.eqb kv.1 k then Some kv.2 else acc) d acc =
  fold_left (delta_lookup_step k) d acc.
Proof. done. Qed.

Lemma delta_lookup_step_Some d k v : exists v', fold_left (delta_lookup_step k) d (Some v) = Some v'.
Proof.
  revert v. induction d as [|kv d IH]; intros v; simpl; [eauto|].
  unfold delta_lookup_step at 2. repeat case_match; apply IH.
Qed.

Lemma apply_delta_lookup_gen d k : forall st acc,
  (forall v, acc = Some v -> st !! k = Some v) ->
  apply_delta st d !! k =
  match fold_left (delta_lookup_step k) d acc with Some v => Some v | None => st !! k end.
Proof.
  unfold apply_delta. induction d as [|[k' v'] d IH]; intros st acc Hacc; simpl.
  - destruct acc as [p|]; [rewrite (Hacc p eq_refl); done|done].
  - unfold delta_lookup_step at 2. simpl. destruct (is_temp_key k'); [by apply IH|].
    destruct (String.eqb_spec k' k) as [->|Hne].
    + rewrite (IH _ (Some v')) by (intros v Hv; inv Hv; apply lookup_insert_eq).
      destruct (delta_lookup_step_Some d k v') as [w ->]. done.
    + rewrite (IH _ acc) by (intros v Hv; rewrite lookup_insert_ne; auto).
      case_match; [done|]. by rewrite lookup_insert_ne.
Qed.

(** A delta's effect on one key: the last persisted write wins. *)
Lemma apply_delta_lookup st d k :
  apply_delta st d !! k =
  match delta_lookup d k with Some v => Some v | None => st !! k end.
Proof. unfold delta_lookup. rewrite delta_lookup_step_fold. by apply apply_delta_lookup_gen. Qed.

Lemma apply_events_other st evs k :
  k ∉ delta_keys evs -> apply_events st evs !! k = st !! k.
Proof.
  unfold apply_events, delta_keys. revert st.
  induction evs as [|e evs IH]; intros st Hk; [done|].
  simpl in Hk. rewrite elem_of_app in Hk. simpl.
  rewrite IH by tauto. apply apply_delta_other.
  intros kv Hin Heq. subst k. apply Hk. left. apply list_elem_of_In, in_map_iff. eauto.
Qed.

(** Writes of [str] values keep a key a [str]. *)
Lemma apply_delta_str_at st d k :
  str_at st k ->
  (forall kv, In kv d -> kv.1 = k -> is_str kv.2 = true) ->
  str_at (apply_delta st d) k.
Proof.
  unfold apply_delta. revert st. induction d as [|[k' v] d IH]; intros st Hst Hd; [done|].
  simpl. apply IH; [|intros kv Hin; apply Hd; right; done].
  destruct (is_temp_key k'); [done|].
  destruct (decide (k' = k)) as [->|Hne].
  - specialize (Hd (k, v) (or_introl eq_refl) eq_refl).
    destruct v; try discriminate. exists s. apply lookup_insert_eq.
  - destruct Hst as [s Hs]. exists s. by rewrite lookup_insert_ne.
Qed.

Lemma apply_events_str_at st evs k :
  str_at st k ->
  (forall e kv, In e evs -> In kv (ev_delta e) -> kv.1 = k -> is_str kv.2 = true) ->
  str_at (apply_events st evs) k.
Proof.
  unfold apply_events. revert st. induction evs as [|e evs IH]; intros st Hst Hw; [done|].
  simpl. apply IH; [|intros e' kv He'; apply Hw; right; done].
  apply apply_delta_str_at; [done|]. intros kv. apply Hw. left. done.
Qed.

Lemma apply_events_defined st evs k :
  is_Some (st !! k) -> is_Some (apply_events st evs !! k).
Proof.
  revert st. induction evs as [|e evs IH]; intros st Hk; [done|].
  simpl. apply IH. unfold apply_delta. clear IH. revert st Hk.
  induction (ev_delta e) as [|kv d IH]; intros st Hk; simpl; [done|].
  apply IH. destruct (is_temp_key kv.1); [done|].
  destruct (decide (kv.1 = k)) as [->|Hne]; [by rewrite lookup_insert_eq|by rewrite lookup_insert_ne].
Qed.

Lemma state_get_Some st k v d : st !! k = Some v -> state_get st k d = v.
Proof. unfold state_get. by intros ->. Qed.

Lemma str_at_get st k d : str_at st k -> is_str (state_get st k d) = true.
Proof. intros [s Hs]. by rewrite (state_get_Some _ _ _ _ Hs). Qed.

Lemma missing_key_None st ks :
  missing_key st ks = None <-> Forall (fun k => is_Some (st !! k)) ks.
Proof.
  unfold missing_key. induction ks as [|k ks IH]; simpl; [split; auto|].
  destruct (st !! k) eqn:E.
  - rewrite IH, Forall_cons. split; [intros; split; eauto|tauto].
  - rewrite Forall_cons, E. split; [discriminate|intros [[? ?] _]; discriminate].
Qed.

Create HintDb session discriminated.
#[export] Hint Resolve apply_events_str_at str_at_get : session.
Create Rewrite HintDb session_rw.
#[export] Hint Rewrite apply_events_app apply_events_nil : session_rw.
