(* ===== verification/Instructions.v ===== *)
(** * Filling a prompt template: the ADK's [inject_session_state]

    Before each model call an [LlmAgent] replaces the placeholders of its
    [instruction] (src/sub_agents/*/prompts.py, Prompts.v) with session
    values.  The ADK does it with [re.finditer(r'{+[^{}]*}+', template)],
    left to right, replacing each match by:

    - for [{artifact.name}], the text of the artifact (an oracle here);
    - for a name that is not a valid state name (an identifier, or
      [app:], [user:] or [temp:] and an identifier), the match itself,
      unchanged: JSON or code in a prompt is left alone;
    - otherwise [str(state[name])], or the empty string when the name ends
      in [?] and is absent, and [KeyError] when it is absent.

    [tokenize] is the match search, written as a scanner over the code
    points ([Lit] for text, [Ph] for a match with its runs of braces);
    [replace_match] and [render] are the replacement; [py_str] is [str()]
    of a session value.  Identifiers are ASCII identifiers here: Python
    also accepts non-ASCII letters, which the templates do not use. *)

From stdpp Require Import gmap strings list.
From Stdlib Require Import ZArith DecimalString Ascii.
From S2P Require Import Prelude Py Session.

Local Open Scope Z_scope.

(** ** The match search *)

Definition lbrace : Z := 123.
Definition rbrace : Z := 125.

Inductive token : Type :=
| Lit (c : Z)
| Ph (opens : nat) (name : pystr) (closes : nat).

(** The scanner's state: in text; after [opens] braces and the name read
    so far (reversed); after the closing braces. *)
Inductive tstate : Type :=
| TText
| TName (opens : nat) (rname : pystr)
| TClose (opens : nat) (name : pystr) (closes : nat).

(** The text of a match. *)
Definition match_text (opens : nat) (name : pystr) (closes : nat) : pystr :=
  repeat lbrace opens ++ name ++ repeat rbrace closes.

(** What the scanner holds at the end of the text, or when a brace run
    with its name is not followed by a closing brace (no match there). *)
Definition flush (q : tstate) : list token :=
  match q with
  | TText => []
  | TName k rnm => map Lit (repeat lbrace k ++ rev rnm)
  | TClose k nm m => [Ph k nm m]
  end.

Fixpoint tokenize_from (q : tstate) (s : pystr) : list token :=
  match s with
  | [] => flush q
  | c :: s' =>
      match q with
      | TText =>
          if c =? lbrace then tokenize_from (TName 1 []) s'
          else Lit c :: tokenize_from TText s'
      | TName k rnm =>
          if c =? lbrace then
            match rnm with
            | [] => tokenize_from (TName (S k) []) s'
            | _ :: _ => flush q ++ tokenize_from (TName 1 []) s'
            end
          else if c =? rbrace then tokenize_from (TClose k (rev rnm) 1) s'
          else tokenize_from (TName k (c :: rnm)) s'
      | TClose k nm m =>
          if c =? rbrace then tokenize_from (TClose k nm (S m)) s'
          else Ph k nm m :: (if c =? lbrace then tokenize_from (TName 1 []) s'
                             else Lit c :: tokenize_from TText s')
      end
  end.

Definition tokenize (s : pystr) : list token := tokenize_from TText s.

Definition token_text (t : token) : pystr :=
  match t with
  | Lit c => [c]
  | Ph k nm m => match_text k nm m
  end.

(** ** Names *)

(** [str.isspace()] *)
Definition py_whitespace (c : Z) : bool :=
  ((9 <=? c) && (c <=? 13)) || ((28 <=? c) && (c <=? 32)) || (c =? 133) || (c =? 160) ||
  (c =? 5760) || ((8192 <=? c) && (c <=? 8202)) || (c =? 8232) || (c =? 8233) ||
  (c =? 8239) || (c =? 8287) || (c =? 12288).

Fixpoint lstrip_ws (s : pystr) : pystr :=
  match s with
  | c :: s' => if py_whitespace c then lstrip_ws s' else s
  | [] => []
  end.

(** [s.strip()] *)
Definition py_strip (s : pystr) : pystr := rev (lstrip_ws (rev (lstrip_ws s))).

Definition is_ident_start (c : Z) : bool :=
  ((65 <=? c) && (c <=? 90)) || ((97 <=? c) && (c <=? 122)) || (c =? 95).
Definition is_ident_char (c : Z) : bool := is_ident_start c || ((48 <=? c) && (c <=? 57)).

(** [s.isidentifier()] on ASCII names. *)
Definition isidentifier (s : pystr) : bool :=
  match s with
  | [] => false
  | c :: s' => is_ident_start c && forallb is_ident_char s'
  end.

(** [s.split(sep)] *)
Fixpoint py_split (sep : Z) (s : pystr) : list pystr :=
  match s with
  | [] => [[]]
  | c :: s' =>
      if c =? sep then [] :: py_split sep s'
      else match py_split sep s' with
           | w :: ws => (c :: w) :: ws
           | [] => [[c]]
           end
  end.

Definition colon : Z := 58.

(** ADK's [_is_valid_state_name] *)
Definition is_valid_state_name (var_name : pystr) : bool :=
  match py_split colon var_name with
  | [_] => isidentifier var_name
  | [p; q] => existsb (pystr_eqb (p ++ [colon])) [lit "app:"; lit "user:"; lit "temp:"] &&
              isidentifier q
  | _ => false
  end.

(** The session key a name denotes (names are ASCII). *)
Definition string_of_pystr (s : pystr) : string :=
  String.string_of_list_ascii (map (fun z => ascii_of_nat (Z.to_nat z)) s).

(** ** [str()] of a session value *)

Definition hex_digit (n : Z) : Z := if n <? 10 then 48 + n else 87 + n.

(** [repr()] of a [str] or [bytes] body: backslash, the quote, tab, newline
    and carriage return escaped, other control characters as [\xhh]. *)
Definition repr_char (q : Z) (c : Z) : pystr :=
  if (c =? 92) || (c =? q) then [92; c]
  else if c =? 9 then [92; 116] else if c =? 10 then [92; 110]
  else if c =? 13 then [92; 114]
  else if (c <? 32) || ((127 <=? c) && (c <? 160))
  then [92; 120; hex_digit (c / 16); hex_digit (c mod 16)]
  else [c].

(** The quote [repr] chooses: double quotes for a text holding a single
    quote and no double quote. *)
Definition repr_quote (s : pystr) : Z :=
  if existsb (Z.eqb 39) s && negb (existsb (Z.eqb 34) s) then 34 else 39.

Definition repr_str (s : pystr) : pystr :=
  let q := repr_quote s in [q] ++ flat_map (repr_char q) s ++ [q].

Definition int_str (z : Z) : pystr := lit (NilZero.string_of_int (Z.to_int z)).

Definition join_sep (sep : pystr) (ls : list pystr) : pystr :=
  match ls with
  | [] => []
  | l :: ls' => l ++ List.concat (map (fun x => sep ++ x) ls')
  end.

Fixpoint py_repr (v : pyval) : pystr :=
  match v with
  | VNone => lit "None"
  | VBool true => lit "True"
  | VBool false => lit "False"
  | VInt z => int_str z
  | VStr s => repr_str s
  | VBytes b => [98] ++ repr_str b
  | VList l => [91] ++ join_sep (lit ", ") (map py_repr l) ++ [93]
  | VDict d => [123] ++ join_sep (lit ", ")
                 (map (fun kv => repr_str (fst kv) ++ lit ": " ++ py_repr (snd kv)) d) ++ [125]
  end.

(** [str(v)]: the text itself for a [str], [repr] otherwise. *)
Definition py_str (v : pyval) : pystr :=
  match v with
  | VStr s => s
  | _ => py_repr v
  end.

(** ** The replacement *)

Definition artifact_prefix : pystr := lit "artifact.".

Section Inject.
Variable st : gmap string pyval.
(** [str()] of the artifact an [{artifact.name}] placeholder loads, or
    the exception loading it raises. *)
Variable artifact_text : pystr -> result py_exc pystr.

(** The name of a match and whether it is optional ([?]). *)
Definition match_var (name : pystr) : bool * pystr :=
  let v := py_strip name in
  if endswith v (lit "?") then (true, removelast v) else (false, v).

Definition replace_match (k : nat) (name : pystr) (m : nat) : result py_exc pystr :=
  let '(optional, var_name) := match_var name in
  if startswith var_name artifact_prefix then
    artifact_text (drop (List.length artifact_prefix) var_name)
  else if negb (is_valid_state_name var_name) then Ok (match_text k name m)
  else match st !! string_of_pystr var_name with
       | Some v => Ok (py_str v)
       | None => if optional then Ok [] else Err (KeyError var_name)
       end.

Fixpoint render (toks : list token) : result py_exc pystr :=
  match toks with
  | [] => Ok []
  | Lit c :: t => let! r := render t in Ok (c :: r)
  | Ph k nm m :: t =>
      let! x := replace_match k nm m in
      let! r := render t in Ok (x ++ r)
  end.

Definition inject_session_state (template : pystr) : result py_exc pystr :=
  render (tokenize template).

End Inject.

(** ** What a template reads *)

(** The state name a match requires, if any: not an artifact, a valid
    state name, not optional. *)
Definition ph_required (name : pystr) : list pystr :=
  let '(optional, v) := match_var name in
  if startswith v artifact_prefix || negb (is_valid_state_name v) || optional
  then [] else [v].

Definition tok_required (t : token) : list pystr :=
  match t with
  | Lit _ => []
  | Ph _ nm _ => ph_required nm
  end.

(** The state names of a template's matches that must be present, in
    order, with repetitions. *)
Definition required_names (toks : list token) : list pystr :=
  List.concat (map tok_required toks).

Definition reads_artifact (toks : list token) : bool :=
  existsb (fun t => match t with
                    | Lit _ => false
                    | Ph _ nm _ => startswith (snd (match_var nm)) artifact_prefix
                    end) toks.

(** First occurrences only. *)
Fixpoint dedup (l : list string) : list string :=
  match l with
  | [] => []
  | x :: l' => x :: List.filter (fun y => negb (String.eqb x y)) (dedup l')
  end.

(** The session keys a template needs, in the order it first reads them. *)
Definition template_keys (template : pystr) : list string :=
  dedup (map string_of_pystr (required_names (tokenize template))).

(** ** The scanner loses nothing *)

(** The text the scanner holds in a state. *)
Definition pending (q : tstate) : pystr :=
  match q with
  | TText => []
  | TName k rnm => repeat lbrace k ++ rev rnm
  | TClose k nm m => match_text k nm m
  end.

Lemma repeat_S_r {A} (x : A) n : repeat x (S n) = repeat x n ++ [x].
Proof. induction n as [|n IH]; [reflexivity|]. simpl. now rewrite <- IH. Qed.

Lemma flush_text q : flat_map token_text (flush q) = pending q.
Proof.
  destruct q as [|k rnm|k nm m]; simpl; [reflexivity| |now rewrite app_nil_r].
  induction (repeat lbrace k ++ rev rnm) as [|c l IH]; [reflexivity|]. simpl. now rewrite IH.
Qed.

Lemma tokenize_from_text q s : flat_map token_text (tokenize_from q s) = pending q ++ s.
Proof.
  revert q. induction s as [|c s IH]; intros q; cbn [tokenize_from].
  { now rewrite flush_text, app_nil_r. }
  destruct q as [|k rnm|k nm m].
  - destruct (Z.eqb_spec c lbrace) as [->|Hc]; cbn; now rewrite IH.
  - destruct (Z.eqb_spec c lbrace) as [->|Hc1].
    + destruct rnm as [|x r].
      * rewrite IH. unfold pending. cbn [rev]. now rewrite !app_nil_r, repeat_S_r, <- app_assoc.
      * rewrite flat_map_app, flush_text, IH. reflexivity.
    + destruct (Z.eqb_spec c rbrace) as [->|Hc2]; rewrite IH; cbn;
        unfold match_text; now rewrite <- !app_assoc.
  - destruct (Z.eqb_spec c rbrace) as [->|Hc2].
    + rewrite IH. unfold pending, match_text. now rewrite repeat_S_r, <- !app_assoc.
    + destruct (Z.eqb_spec c lbrace) as [->|Hc1]; cbn; rewrite IH; reflexivity.
Qed.

(** Concatenating the matches and the text between them gives back the
    template. *)
Lemma tokenize_text s : flat_map token_text (tokenize s) = s.
Proof. apply tokenize_from_text. Qed.

(** ** When injection raises *)

(** The first required name the state does not hold. *)
Definition find_missing (st : gmap string pyval) (vs : list pystr) : option pystr :=
  find (fun v => match st !! string_of_pystr v with Some _ => false | None => true end) vs.

Definition result_err {E A} (r : result E A) : option E :=
  match r with Ok _ => None | Err e => Some e end.

Lemma result_err_bind {E A B} (m : result E A) (k : A -> result E B) :
  result_err (let! x := m in k x) =
  match m with Ok x => result_err (k x) | Err e => Some e end.
Proof. now destruct m. Qed.

Lemma find_missing_app st l1 l2 :
  find_missing st (l1 ++ l2) =
  match find_missing st l1 with Some v => Some v | None => find_missing st l2 end.
Proof. unfold find_missing. induction l1 as [|v l1 IH]; cbn; [reflexivity|]. now destruct (_ !! _). Qed.

(** One match: it raises [KeyError] of its required name when the state
    lacks it, and gives text otherwise. *)
Lemma replace_match_cases st art k nm m :
  startswith (snd (match_var nm)) artifact_prefix = false ->
  (exists v, replace_match st art k nm m = Err (KeyError v) /\
             find_missing st (ph_required nm) = Some v) \/
  (exists x, replace_match st art k nm m = Ok x /\ find_missing st (ph_required nm) = None).
Proof.
  unfold replace_match, ph_required. destruct (match_var nm) as [opt v]. cbn [snd].
  intros Hv. rewrite Hv. cbn [orb].
  destruct (is_valid_state_name v); cbn [negb orb]; [|right; eexists; split; reflexivity].
  unfold find_missing. destruct opt; cbn.
  - right. destruct (st !! string_of_pystr v); eexists; split; reflexivity.
  - destruct (st !! string_of_pystr v); [right|left]; eexists; split; reflexivity.
Qed.

(** A template that reads no artifact raises exactly [KeyError] of its
    first required name that the state lacks, and nothing else. *)
Lemma render_err st art toks :
  reads_artifact toks = false ->
  result_err (render st art toks) = option_map KeyError (find_missing st (required_names toks)).
Proof.
  induction toks as [|[c|k nm m] toks IH]; intros Hart; [reflexivity| |].
  - cbn [render]. rewrite result_err_bind. cbn [reads_artifact existsb orb] in Hart.
    specialize (IH Hart). destruct (render st art toks); exact IH.
  - cbn [reads_artifact existsb] in Hart. apply orb_false_iff in Hart as [Hv Hart].
    specialize (IH Hart). unfold required_names. cbn [map List.concat tok_required].
    fold (required_names toks). rewrite find_missing_app. cbn [render].
    rewrite result_err_bind.
    destruct (replace_match_cases st art k nm m Hv) as [(v & -> & ->)|(x & -> & ->)];
      [reflexivity|].
    rewrite result_err_bind. destruct (render st art toks); exact IH.
Qed.

(** ** Names and session keys *)

Lemma string_of_pystr_lit (k : string) : string_of_pystr (lit k) = k.
Proof.
  unfold string_of_pystr, lit. rewrite map_map.
  rewrite (map_ext_in _ id).
  - now rewrite map_id, String.string_of_list_ascii_of_string.
  - intros a _. unfold id. rewrite Nat2Z.id. apply ascii_nat_embedding.
Qed.

Lemma find_missing_lit st (ks : list string) :
  find_missing st (map lit ks) = option_map lit (missing_key st ks).
Proof.
  induction ks as [|k ks IH]; [reflexivity|]. unfold find_missing, missing_key in *.
  cbn. rewrite string_of_pystr_lit. destruct (st !! k); [exact IH|reflexivity].
Qed.

Lemma find_filter_absent {A} (f g : A -> bool) l :
  (forall y, g y = false -> f y = false) -> find f (List.filter g l) = find f l.
Proof.
  intros Hfg. induction l as [|y l IH]; [reflexivity|]. cbn.
  destruct (g y) eqn:Hg; cbn; [destruct (f y); [reflexivity|exact IH]|]. now rewrite Hfg, IH.
Qed.

(** Keeping first occurrences does not change which key is missing first. *)
Lemma missing_key_dedup st l : missing_key st (dedup l) = missing_key st l.
Proof.
  unfold missing_key. induction l as [|x l IH]; [reflexivity|]. cbn.
  destruct (st !! x) eqn:Hx; [|reflexivity].
  rewrite find_filter_absent; [exact IH|].
  intros y Hy. apply negb_false_iff, String.eqb_eq in Hy as <-. now rewrite Hx.
Qed.

(** ** Text that is not a placeholder *)

(** A match that injection leaves as it is: its name is neither an
    artifact reference nor a valid state name. *)
Definition passthrough (t : token) : bool :=
  match t with
  | Lit _ => true
  | Ph _ nm _ =>
      let v := snd (match_var nm) in
      negb (startswith v artifact_prefix) && negb (is_valid_state_name v)
  end.

Lemma render_passthrough st art toks :
  forallb passthrough toks = true -> render st art toks = Ok (flat_map token_text toks).
Proof.
  induction toks as [|[c|k nm m] toks IH]; cbn [forallb passthrough]; intros Hp;
    [reflexivity| |].
  - cbn. rewrite (IH Hp). reflexivity.
  - apply andb_true_iff in Hp as [Hph Hp]. cbn [render flat_map token_text].
    unfold replace_match. destruct (match_var nm) as [opt v]. cbn [snd] in Hph.
    apply andb_true_iff in Hph as [Ha Hv]. apply negb_true_iff in Ha, Hv.
    rewrite Ha, Hv. cbn. rewrite (IH Hp). reflexivity.
Qed.

(** A template whose brace groups are all neither artifact references
    nor valid state names (JSON objects, code, prose in braces) is
    returned unchanged by [inject_session_state], whatever the session
    state and the artifacts. *)
Lemma inject_session_state_passthrough st art s :
  forallb passthrough (tokenize s) = true -> inject_session_state st art s = Ok s.
Proof.
  intros Hp. unfold inject_session_state. rewrite render_passthrough by exact Hp.
  now rewrite tokenize_text.
Qed.

(** A JSON example of the kind the prompts show the model. *)
Definition json_example : pystr :=
  lit "Return {" ++ dq ++ lit "intent" ++ dq ++ lit ": [{" ++ dq ++ lit "phrase" ++ dq ++
  lit ": 1}]} and {{ a b }}.".

Example inject_session_state_json :
  forallb passthrough (tokenize json_example) = true /\
  inject_session_state ∅ (fun _ => Err IndexError) json_example = Ok json_example.
Proof.
  split; [vm_compute; reflexivity|].
  apply inject_session_state_passthrough. vm_compute. reflexivity.
Qed.
