(* ===== verification/Agents.v ===== *)
(** * The language-model sub-agents and the step interface

    src/sub_agents/*/agent.py each build one [LlmAgent] (name, model,
    tools, [output_key], [instruction]); its instruction is the template
    of prompts.py (Prompts.v), whose placeholders the ADK fills from the
    session state before each model call ([inject_session_state],
    Instructions.v), raising [KeyError] for a key that is not in the
    state.  The keys each template reads are [*_instruction_keys]; the
    theorems below show they are exactly what injection needs, so that
    [llm_run] fails exactly when one of them is missing.

    What the model answers is not the program's code: it is the class
    [LanguageModel], an arbitrary function from the agent and the state to
    the events it streams, possibly ending in an exception.  The ADK rule
    for [output_key] (a final response with content writes its joined text
    to [state[output_key]]) is [save_output].

    The orchestrator only relies on what a step promises, the class
    [StepAgent] with its law [StepAgentOk]: running a step from a state
    yields events (and maybe an exception), and every state write of those
    events goes to the step's own output key and is a [str].  The
    language-model agents are an instance ([llm_step], [llm_step_ok]). *)

From stdpp Require Import gmap strings list.
From S2P Require Import Prelude Py Session Prompts Instructions.

(** ** The step interface *)

Class StepAgent (A : Type) := {
  step_name : A -> string;
  step_output_key : A -> string;
  (** the events the step yields, and the exception that ends it, if any *)
  step_run : A -> gmap string pyval -> list event * option py_exc
}.

Class StepAgentOk (A : Type) `{StepAgent A} : Prop :=
  step_writes_own_key : forall a st e kv,
    In e (step_run a st).1 -> In kv (ev_delta e) ->
    kv.1 = step_output_key a /\ is_str kv.2 = true.

(** ** LlmAgent configurations *)

Record llm_agent : Type := mk_llm_agent {
  llm_name : string;
  llm_model : string;
  llm_tools : list string;
  llm_output_key : string;
  llm_instruction : pystr
}.

(** The keys the template of
    src/sub_agents/conversation_data_retrieval_agent/prompts.py reads:
    [{PROJECT}], [{DATASET}], [{BQ_LOCATION}]. *)
Definition retrieval_instruction_keys : list string :=
  ["PROJECT"; "DATASET"; "BQ_LOCATION"].

Definition conversation_data_retrieval_agent : llm_agent := {|
  llm_name := "conversation_data_retrieval_agent";
  llm_model := "gemini-2.5-flash";
  llm_tools := ["bigquery_execution_tool"];
  llm_output_key := "conversation_data_output";
  llm_instruction := CONVERSATION_DATA_RETRIEVAL_INSTRUCTION_STR |}.

(** The keys of src/sub_agents/no_match_analysis_agent/prompts.py:
    [{conversation_data_output}]. *)
Definition analysis_instruction_keys : list string := ["conversation_data_output"].

Definition no_match_analysis_agent : llm_agent := {|
  llm_name := "no_match_analysis_agent";
  llm_model := "gemini-2.5-flash";
  llm_tools := [];
  llm_output_key := "no_match_analysis_output";
  llm_instruction := NO_MATCH_ANALYSIS_INSTRUCTION_STR |}.

(** The keys of src/sub_agents/dialogflow_cx_parser_agent/prompts.py:
    [{dialogflow_bot_json}]. *)
Definition parser_instruction_keys : list string := ["dialogflow_bot_json"].

Definition dialogflow_cx_parser_agent : llm_agent := {|
  llm_name := "dialogflow_cx_parser_agent";
  llm_model := "gemini-2.5-flash";
  llm_tools := [];
  llm_output_key := "dialogflow_analysis_output";
  llm_instruction := DIALOGFLOW_CX_PARSER_INSTRUCTION_STR |}.

(** The keys of src/sub_agents/csv_generation_agent/prompts.py:
    [{no_match_analysis_output}], [{dialogflow_analysis_output}]; the
    [{datetime.now().strftime(...)}] of its code sample is not an
    identifier, so the ADK leaves it as text. *)
Definition csv_instruction_keys : list string :=
  ["no_match_analysis_output"; "dialogflow_analysis_output"].

Definition csv_generation_agent : llm_agent := {|
  llm_name := "csv_generation_agent";
  llm_model := "gemini-2.5-flash";
  llm_tools := [];
  llm_output_key := "csv_generation_output";
  llm_instruction := CSV_GENERATION_INSTRUCTION_STR |}.

(** ** Running an LlmAgent *)

(** What the model streams: text content (if any) and whether the event is
    a final response. *)
Record model_event : Type := mk_model_event {
  me_text : option pystr;
  me_final : bool
}.

(** What an [LlmAgent]'s run depends on besides the program: the model's
    stream for the agent in a state, and [str()] of the artifact an
    [{artifact.name}] placeholder loads (none of the templates has one). *)
Class LanguageModel := {
  lm_reply : llm_agent -> gmap string pyval -> list model_event * option py_exc;
  lm_artifact : pystr -> result py_exc pystr
}.

(** ADK's output_key rule: a final response with content writes its text. *)
Definition save_output (a : llm_agent) (me : model_event) : event :=
  mk_event (llm_name a) (me_text me) (me_final me)
    (if me_final me then
       match me_text me with
       | Some t => [(llm_output_key a, VStr t)]
       | None => []
       end
     else []).

(** Instruction injection, then the model's stream with [save_output]. *)
Definition llm_run `{LanguageModel} (a : llm_agent) (st : gmap string pyval)
    : list event * option py_exc :=
  match inject_session_state st lm_artifact (llm_instruction a) with
  | Err e => ([], Some e)
  | Ok _ => let '(mes, ex) := lm_reply a st in (map (save_output a) mes, ex)
  end.

#[export] Instance llm_step `{LanguageModel} : StepAgent llm_agent := {
  step_name := llm_name;
  step_output_key := llm_output_key;
  step_run := llm_run
}.

(** ** The LlmAgents keep the step contract *)

Lemma save_output_delta a me kv :
  In kv (ev_delta (save_output a me)) -> kv = (llm_output_key a, VStr (default [] (me_text me))).
Proof.
  unfold save_output. simpl. destruct (me_final me); [|done].
  destruct (me_text me); simpl; [|done]. intros [<-|[]]. done.
Qed.

#[export] Instance llm_step_ok `{LanguageModel} : StepAgentOk llm_agent.
Proof.
  intros a st e kv. simpl. unfold llm_run.
  repeat case_match; simplify_eq/=; try done.
  intros [me [<- _]]%in_map_iff Hkv. apply save_output_delta in Hkv. by subst.
Qed.


(** ** What the templates read *)

(** The session keys an agent's instruction needs, in the order the
    template first reads them. *)
Definition llm_instruction_keys (a : llm_agent) : list string :=
  template_keys (llm_instruction a).

Definition llm_agents : list llm_agent :=
  [conversation_data_retrieval_agent; no_match_analysis_agent;
   dialogflow_cx_parser_agent; csv_generation_agent].

(** For a template that reads no artifact, injection fails exactly with
    [KeyError] of the first needed key the state lacks. *)
Lemma template_injection T st art :
  reads_artifact (tokenize T) = false ->
  (exists L, required_names (tokenize T) = map lit L) ->
  result_err (inject_session_state st art T) =
  option_map (fun k => KeyError (lit k)) (missing_key st (template_keys T)).
Proof.
  intros Hart [L HL]. unfold inject_session_state, template_keys.
  rewrite render_err, HL, find_missing_lit by exact Hart.
  rewrite map_map, (map_ext_in _ id) by (intros k _; apply string_of_pystr_lit).
  rewrite map_id, missing_key_dedup. now destruct (missing_key st L).
Qed.

Lemma llm_agents_templates a :
  a ∈ llm_agents ->
  reads_artifact (tokenize (llm_instruction a)) = false /\
  exists L, required_names (tokenize (llm_instruction a)) = map lit L.
Proof.
  intros Ha. repeat (apply elem_of_cons in Ha as [->|Ha]; [split; [vm_compute; reflexivity|]|]).
  - exists ["PROJECT"; "DATASET"; "PROJECT"; "DATASET"; "PROJECT"; "BQ_LOCATION"; "DATASET"].
    vm_compute. reflexivity.
  - exists ["conversation_data_output"]. vm_compute. reflexivity.
  - exists ["dialogflow_bot_json"]. vm_compute. reflexivity.
  - exists ["no_match_analysis_output"; "dialogflow_analysis_output"]. vm_compute. reflexivity.
  - by apply elem_of_nil in Ha.
Qed.

(** C23: Running one of the four [LlmAgent]s is equivalent to the simple
    model of it: it raises [KeyError] of the first key of its template
    that the state lacks, before the model is called, and otherwise
    relays the model's stream with the [output_key] write. *)
Theorem llm_run_missing_key `{LanguageModel} a st :
  a ∈ llm_agents ->
  llm_run a st =
  match missing_key st (llm_instruction_keys a) with
  | Some k => ([], Some (KeyError (lit k)))
  | None => let '(mes, ex) := lm_reply a st in (map (save_output a) mes, ex)
  end.
Proof.
  intros Ha. destruct (llm_agents_templates a Ha) as [Hart HL].
  pose proof (template_injection (llm_instruction a) st lm_artifact Hart HL) as E.
  unfold llm_run, llm_instruction_keys.
  destruct (inject_session_state st lm_artifact (llm_instruction a)) as [x|e];
    destruct (missing_key st (template_keys (llm_instruction a))); cbn in E; congruence.
Qed.

(** A model that answers every call with one final response. *)
Definition echo_model : LanguageModel := {|
  lm_reply a _ := ([mk_model_event (Some (lit (llm_name a))) true], None);
  lm_artifact name := Err (KeyError name) |}.

Lemma llm_run_missing_key_witness :
  csv_generation_agent ∈ llm_agents /\
  @llm_run echo_model csv_generation_agent
    (<["no_match_analysis_output" := VStr []]> ∅) =
  ([], Some (KeyError (lit "dialogflow_analysis_output"))).
Proof.
  split; [unfold llm_agents; set_solver|].
  rewrite (@llm_run_missing_key echo_model) by (unfold llm_agents; set_solver).
  vm_compute. reflexivity.
Defined.
