(* ===== verification/InitState.v ===== *)
(** * Session initialisation and the BigQuery tools

    [initialize_state_var] (src/tools/initialize_state.py) is the root
    agent's [before_agent_callback]: it reads four environment variables,
    stores them, asks BigQuery for the dataset's column metadata (falling
    back to [[]] when that raises) and resets every workflow output, the
    caller-facing ["dialogflow_bot_json"] and ["user_query"] included, to
    the empty string.  Through [callback_context.state] its writes go to the session
    at once and are recorded as one delta, in this order
    ([initialize_state_delta]).

    src/tools/bigquery_tools.py builds the metadata query as an f-string
    ([metadata_query], [None] rendered as ["None"]) and turns each result
    row into a dict.  The environment and the BigQuery client are
    oracles ([Environ], [BigQueryClient]); the client may raise. *)

From stdpp Require Import gmap strings list.
From S2P Require Import Prelude Py Session Instructions Agents.
Import ListNotations.

Class Environ := {
  (** [os.environ.get(name)] *)
  getenv : string -> option pystr
}.

Class BigQueryClient := {
  (** [bigquery.Client(project=p).query(q)], iterated to its rows
      ([row.items()]) *)
  bq_query : option pystr -> pystr -> result py_exc (list (list (pystr * pyval)))
}.

(** ** src/tools/bigquery_tools.py *)

(** The f-string of [bigquery_metdata_extraction_tool], character for
    character. *)
Definition metadata_query (PROJECT BQ_LOCATION DATASET : option pystr) : pystr :=
  nl ++
  lit "        select table_name, column_name, data_type, description" ++ nl ++
  lit "        from `region-" ++ fstr_opt BQ_LOCATION ++
  lit ".INFORMATION_SCHEMA.COLUMN_FIELD_PATHS`" ++ nl ++
  lit "        where table_catalog = " ++ dq ++ fstr_opt PROJECT ++ dq ++ nl ++
  lit "        and table_schema = " ++ dq ++ fstr_opt DATASET ++ dq ++ nl ++
  lit "    ".

(** [query_list.append(dict(row.items()))] for every row. *)
Definition rows_to_dicts (rows : list (list (pystr * pyval))) : list pyval :=
  map VDict rows.

Definition bigquery_metdata_extraction_tool `{BigQueryClient}
    (PROJECT BQ_LOCATION DATASET : option pystr) : result py_exc (list pyval) :=
  rmap rows_to_dicts (bq_query PROJECT (metadata_query PROJECT BQ_LOCATION DATASET)).

Definition bigquery_execution_tool `{BigQueryClient} (PROJECT query : pystr)
    : result py_exc (list pyval) :=
  rmap rows_to_dicts (bq_query (Some PROJECT) query).

(** ** src/tools/initialize_state.py *)

Section Init.
Context `{Environ} `{BigQueryClient}.

Definition initialize_state_delta : list (string * pyval) :=
  let PROJECT := getenv "PROJECT" in
  let BQ_LOCATION := getenv "BQ_LOCATION" in
  let DATASET := getenv "DATASET" in
  let GCS_BUCKET_NAME := getenv "GCS_BUCKET_NAME" in
  [("PROJECT", opt_val PROJECT);
   ("BQ_LOCATION", opt_val BQ_LOCATION);
   ("DATASET", opt_val DATASET);
   ("GCS_BUCKET_NAME", opt_val GCS_BUCKET_NAME);
   ("bigquery_metadata",
      rcatch (rmap VList (bigquery_metdata_extraction_tool PROJECT BQ_LOCATION DATASET))
             (fun _ => VList []));
   ("conversation_data_output", VStr []);
   ("no_match_analysis_output", VStr []);
   ("dialogflow_bot_json", VStr []);
   ("dialogflow_analysis_output", VStr []);
   ("csv_generation_output", VStr []);
   ("user_query", VStr [])].

Definition initialize_state_var (st : gmap string pyval) : gmap string pyval :=
  apply_delta st initialize_state_delta.

(** ** What the callback leaves in the session *)

Lemma initialize_state_var_lookup st k :
  initialize_state_var st !! k =
  match delta_lookup initialize_state_delta k with Some v => Some v | None => st !! k end.
Proof. apply apply_delta_lookup. Qed.

Lemma initialize_state_var_str st k :
  k ∈ ["conversation_data_output"; "no_match_analysis_output"; "dialogflow_bot_json";
       "dialogflow_analysis_output"; "csv_generation_output"; "user_query"] ->
  initialize_state_var st !! k = Some (VStr []).
Proof.
  rewrite initialize_state_var_lookup.
  intros Hk. repeat (apply elem_of_cons in Hk as [->|Hk]; [reflexivity|]).
  by apply elem_of_nil in Hk.
Qed.

Lemma initialize_state_var_defined st k :
  k ∈ ["PROJECT"; "BQ_LOCATION"; "DATASET"; "GCS_BUCKET_NAME"; "bigquery_metadata";
       "conversation_data_output"; "no_match_analysis_output"; "dialogflow_bot_json";
       "dialogflow_analysis_output"; "csv_generation_output"; "user_query"] ->
  is_Some (initialize_state_var st !! k).
Proof.
  rewrite initialize_state_var_lookup.
  intros Hk. repeat (apply elem_of_cons in Hk as [->|Hk]; [eexists; reflexivity|]).
  by apply elem_of_nil in Hk.
Qed.

(** C22: The schema metadata the callback stores: the dicts of the rows
    BigQuery returns for the metadata query, or [[]] when building the
    client or running the query raises (the [except] branch). *)
Theorem initialize_state_var_metadata st :
  initialize_state_var st !! "bigquery_metadata" =
  Some (VList (match bq_query (getenv "PROJECT")
                       (metadata_query (getenv "PROJECT") (getenv "BQ_LOCATION")
                                       (getenv "DATASET")) with
               | Ok rows => rows_to_dicts rows
               | Err _ => []
               end)).
Proof.
  rewrite initialize_state_var_lookup. simpl.
  unfold bigquery_metdata_extraction_tool, rmap, rbind. by destruct (bq_query _ _).
Qed.
End Init.

(** ** No template placeholder is ever missing *)

(** The keys the callback defines cover the keys of every template. *)
Lemma instruction_keys_initialized a k :
  a ∈ llm_agents -> k ∈ llm_instruction_keys a ->
  k ∈ ["PROJECT"; "BQ_LOCATION"; "DATASET"; "GCS_BUCKET_NAME"; "bigquery_metadata";
       "conversation_data_output"; "no_match_analysis_output"; "dialogflow_bot_json";
       "dialogflow_analysis_output"; "csv_generation_output"; "user_query"].
Proof.
  intros Ha Hk. unfold llm_agents in Ha.
  repeat (apply elem_of_cons in Ha as [->|Ha];
    [match type of Hk with k ∈ ?l => let l' := eval vm_compute in l in
       change (k ∈ l') in Hk end; set_solver|]).
  by apply elem_of_nil in Ha.
Qed.

(** C21: After the callback, filling the instruction template of each of
    the four agents never raises, in every state the invocation reaches
    (events only add keys): every placeholder of the prompts names a key
    the callback defined. *)
Theorem instruction_keys_defined `{Environ} `{BigQueryClient} st0 evs a art :
  a ∈ llm_agents ->
  exists s, inject_session_state (apply_events (initialize_state_var st0) evs) art
              (llm_instruction a) = Ok s.
Proof.
  intros Ha. destruct (llm_agents_templates a Ha) as [Hart HL].
  pose proof (template_injection (llm_instruction a) (apply_events (initialize_state_var st0) evs)
                art Hart HL) as E.
  fold (llm_instruction_keys a) in E.
  replace (missing_key _ (llm_instruction_keys a)) with (@None string) in E.
  - destruct (inject_session_state _ _ _); [eauto|discriminate].
  - symmetry. apply missing_key_None, Forall_forall. intros k Hk.
    apply apply_events_defined, initialize_state_var_defined.
    apply (instruction_keys_initialized a); [exact Ha|]. exact Hk.
Qed.

(** ** A concrete environment: no variable set, BigQuery unreachable *)

Definition demo_env : Environ := {| getenv _ := None |}.

Definition demo_bq : BigQueryClient :=
  {| bq_query _ _ := Err (ServiceError (lit "unreachable")) |}.

Lemma instruction_keys_defined_witness :
  exists s, inject_session_state (apply_events (@initialize_state_var demo_env demo_bq ∅) [])
              (fun _ => Ok []) (llm_instruction csv_generation_agent) = Ok s.
Proof. apply (@instruction_keys_defined demo_env demo_bq). unfold llm_agents. set_solver. Defined.
