(* ===== verification/Orchestrator.v ===== *)
(** * The root agent: [NoMatchAnalysisAgent._run_async_impl]

    src/agent.py runs the four sub-agents in order inside an async
    generator: it re-yields every event of a sub-agent ([async for ...:
    yield event]), the runner applies each event's delta to the session
    before resuming it, and after a sub-agent it reads that sub-agent's
    output with [ctx.session.state.get(key, '')], logs its [len()] and
    returns early when it is empty.

    The generator is modelled by a small workflow monad [wf]: its state
    is the list of events yielded so far and the session state; a
    computation either continues with a value or stops with the exception
    that propagates out of the generator.  [run_agent] relays one
    sub-agent, [get_output] is [state.get(key, '')], [log_len] is the
    [len()] of the logging call.  [_run_async_impl] is written with them
    in the order of the source; [run_async_impl] runs it from a session
    state and reports the events, the final state and how the run ended
    ([exit]: which [return] was taken, or the exception).

    [ostep] is the same control flow as a small-step machine, one step
    per sub-agent, used to state invariants of every intermediate state
    (Sections [Exceptions] and [Typing]); every run of [run_async_impl]
    is a run of the machine ([run_async_impl_star]).
    [invoke] is a whole ADK invocation of the root agent: the
    [before_agent_callback] ([initialize_state_var]), the event that
    records its delta, then [_run_async_impl]. *)

From stdpp Require Import gmap strings list.
From S2P Require Import Prelude Py Session Agents InitState.

(** How a run of the root agent ends. *)
Inductive exit : Type :=
| NoConversationData     (** "No conversation data retrieved. Ending workflow." *)
| NoAnalysisResults      (** "No no-match analysis results. Ending workflow." *)
| NoCsvResults           (** "No CSV generation results." *)
| Completed              (** "No-match analysis workflow completed successfully." *)
| Raised (e : py_exc).   (** an exception propagates out of the generator *)

(** ** The workflow monad *)

Record wstate : Type := mk_wstate {
  w_events : list event;                 (** yielded so far *)
  w_session : gmap string pyval          (** [ctx.session.state] *)
}.

Inductive outcome (X : Type) : Type :=
| Next (x : X)
| Throw (e : py_exc).
Arguments Next {X} x.
Arguments Throw {X} e.

Definition wf (X : Type) : Type := wstate -> wstate * outcome X.

Definition wret {X} (x : X) : wf X := fun s => (s, Next x).

Definition wbind {X Y} (m : wf X) (k : X -> wf Y) : wf Y :=
  fun s => match m s with
           | (s', Next x) => k x s'
           | (s', Throw e) => (s', Throw e)
           end.

Declare Scope wf_scope.
Delimit Scope wf_scope with wf.
Notation "'let*' x := m 'in' k" := (wbind m (fun x => k))
  (at level 10, x name, m at level 100, k at level 200) : wf_scope.
Notation "m ;; k" := (wbind m (fun _ => k)) (at level 100, right associativity) : wf_scope.
Local Open Scope wf_scope.

Section Workflow.
Context {A : Type} `{StepAgent A}.

(** [async for event in agent.run_async(ctx): yield event]; the runner
    applies each event's delta as it is yielded. *)
Definition run_agent (a : A) : wf unit :=
  fun s =>
    let '(evs, ex) := step_run a (w_session s) in
    let s' := mk_wstate (w_events s ++ evs) (apply_events (w_session s) evs) in
    match ex with
    | Some e => (s', Throw e)
    | None => (s', Next tt)
    end.

(** [ctx.session.state.get(key, '')] *)
Definition get_output (k : string) : wf pyval :=
  fun s => (s, Next (state_get (w_session s) k (VStr []))).

(** [logger.info(f"... {len(v)} characters")] *)
Definition log_len (v : pyval) : wf unit :=
  fun s => match py_len v with
           | Ok _ => (s, Next tt)
           | Err e => (s, Throw e)
           end.

(** The four sub-agents, the pydantic fields of the class. *)
Record NoMatchAnalysisAgent : Type := mk_orchestrator {
  conversation_data_retrieval : A;
  no_match_analysis : A;
  dialogflow_cx_parser : A;
  csv_generation : A
}.

Definition _run_async_impl (self : NoMatchAnalysisAgent) : wf exit :=
  (* Step 1 *)
  run_agent (conversation_data_retrieval self) ;;
  let* conversation_data_output := get_output "conversation_data_output" in
  log_len conversation_data_output ;;
  if negb (truthy conversation_data_output) then wret NoConversationData else
  (* Step 2 *)
  run_agent (no_match_analysis self) ;;
  let* no_match_analysis_output := get_output "no_match_analysis_output" in
  log_len no_match_analysis_output ;;
  if negb (truthy no_match_analysis_output) then wret NoAnalysisResults else
  (* Step 3 *)
  let* dialogflow_bot_json := get_output "dialogflow_bot_json" in
  (if truthy dialogflow_bot_json then
     run_agent (dialogflow_cx_parser self) ;;
     let* dialogflow_analysis_output := get_output "dialogflow_analysis_output" in
     log_len dialogflow_analysis_output
   else wret tt) ;;
  (* Step 4 *)
  run_agent (csv_generation self) ;;
  let* csv_generation_output := get_output "csv_generation_output" in
  log_len csv_generation_output ;;
  if negb (truthy csv_generation_output) then wret NoCsvResults else
  wret Completed.

(** Run the generator to its end from a session state. *)
Definition run_async_impl (self : NoMatchAnalysisAgent) (st : gmap string pyval)
    : list event * gmap string pyval * exit :=
  let '(s, o) := _run_async_impl self (mk_wstate [] st) in
  (w_events s, w_session s, match o with Next x => x | Throw e => Raised e end).
End Workflow.

Arguments NoMatchAnalysisAgent A : clear implicits.

(** The root agent of src/agent.py, built from the four LlmAgents. *)
Definition no_match_analysis_orchestrator : NoMatchAnalysisAgent llm_agent := {|
  conversation_data_retrieval := conversation_data_retrieval_agent;
  no_match_analysis := no_match_analysis_agent;
  dialogflow_cx_parser := dialogflow_cx_parser_agent;
  csv_generation := csv_generation_agent |}.

Definition root_agent_name : string := "no_match_analysis_orchestrator".

(** ** A whole invocation: callback, its event, then the workflow *)

Section Invoke.
Context {A : Type} `{StepAgent A} `{Environ} `{BigQueryClient}.

(** The event ADK yields for the callback's state changes. *)
Definition initialize_event : event :=
  mk_event root_agent_name None false initialize_state_delta.

Definition invoke (self : NoMatchAnalysisAgent A) (st0 : gmap string pyval)
    : list event * gmap string pyval * exit :=
  let '(evs, st, x) := run_async_impl self (initialize_state_var st0) in
  (initialize_event :: evs, st, x).
End Invoke.

(** ** The workflow as a small-step machine

    The control flow of [_run_async_impl] (agent.py, lines 49-101) cut
    at the points where a sub-agent runs: one phase per step of the
    method, with the method's own gates (there is no gate after step 3,
    unlike the spec's section 4.1).  It exists to state invariants of
    every intermediate state of a run ([session_typed_reachable],
    [star_raised]); [run_async_impl_star] shows that every run of the
    functional model is a run of it.  From an active phase the
    machine runs that phase's agent ([agent_of]; in [StructureParsing]
    only when "dialogflow_bot_json" is truthy, otherwise it skips to
    [Generating]), then reads the phase's output key, logs its [len()]
    and takes the [gate]: an exception of [len()] ends the run, an empty
    output ends it with the phase's early exit ([phase_stop]; the
    structure-parsing phase has none), anything else moves to
    [phase_next].  An exception of the agent ends the run. *)

Section Machine.
Context {A : Type} `{StepAgent A}.

Inductive phase : Type :=
| Retrieving
| Analyzing
| StructureParsing
| Generating
| Finished (x : exit).

Definition extend (s : wstate) (evs : list event) : wstate :=
  mk_wstate (w_events s ++ evs) (apply_events (w_session s) evs).

Definition output_of (s : wstate) (k : string) : pyval := state_get (w_session s) k (VStr []).

Definition agent_of (self : NoMatchAnalysisAgent A) (ph : phase) (s : wstate) : option A :=
  match ph with
  | Retrieving => Some (conversation_data_retrieval self)
  | Analyzing => Some (no_match_analysis self)
  | StructureParsing =>
      if truthy (output_of s "dialogflow_bot_json") then Some (dialogflow_cx_parser self) else None
  | Generating => Some (csv_generation self)
  | Finished _ => None
  end.

Definition phase_key (ph : phase) : string :=
  match ph with
  | Retrieving => "conversation_data_output"
  | Analyzing => "no_match_analysis_output"
  | StructureParsing => "dialogflow_analysis_output"
  | _ => "csv_generation_output"
  end.

Definition phase_stop (ph : phase) : option exit :=
  match ph with
  | Retrieving => Some NoConversationData
  | Analyzing => Some NoAnalysisResults
  | StructureParsing => None
  | _ => Some NoCsvResults
  end.

Definition phase_next (ph : phase) : phase :=
  match ph with
  | Retrieving => Analyzing
  | Analyzing => StructureParsing
  | StructureParsing => Generating
  | _ => Finished Completed
  end.

Inductive gate (v : pyval) (stop : option exit) (next : phase) : phase -> Prop :=
| gate_raise e :
    py_len v = Err e -> gate v stop next (Finished (Raised e))
| gate_stop n x :
    py_len v = Ok n -> stop = Some x -> truthy v = false -> gate v stop next (Finished x)
| gate_pass n :
    py_len v = Ok n -> truthy v = true \/ stop = None -> gate v stop next next.

Inductive ostep (self : NoMatchAnalysisAgent A) : phase * wstate -> phase * wstate -> Prop :=
| ostep_agent ph s a evs ph' :
    agent_of self ph s = Some a ->
    step_run a (w_session s) = (evs, None) ->
    gate (output_of (extend s evs) (phase_key ph)) (phase_stop ph) (phase_next ph) ph' ->
    ostep self (ph, s) (ph', extend s evs)
| ostep_raise ph s a evs e :
    agent_of self ph s = Some a ->
    step_run a (w_session s) = (evs, Some e) ->
    ostep self (ph, s) (Finished (Raised e), extend s evs)
| ostep_skip s :
    truthy (output_of s "dialogflow_bot_json") = false ->
    ostep self (StructureParsing, s) (Generating, s).

Definition exit_of (o : outcome exit) : exit :=
  match o with Next x => x | Throw e => Raised e end.
End Machine.


(** ** Facts about steps that keep their contract *)

Section StepFacts.
Context {A : Type} `{StepAgent A} `{!StepAgentOk A}.

Lemma step_delta_keys a st k :
  k <> step_output_key a -> k ∉ delta_keys (step_run a st).1.
Proof.
  intros Hk Hin. unfold delta_keys in Hin.
  apply list_elem_of_In, in_concat in Hin as [l [Hl Hkl]].
  apply in_map_iff in Hl as [e [<- He]]. apply in_map_iff in Hkl as [kv [<- Hkv]].
  apply Hk. eapply step_writes_own_key; eauto.
Qed.

(** A step leaves every key but its own output key as it was. *)
Lemma step_other_key a st st' k :
  k <> step_output_key a -> apply_events st' (step_run a st).1 !! k = st' !! k.
Proof. intros Hk. by apply apply_events_other, step_delta_keys. Qed.

(** A step keeps every key that holds a [str] a [str]. *)
Lemma step_str_at a st st' k :
  str_at st' k -> str_at (apply_events st' (step_run a st).1) k.
Proof.
  intros Hs. apply apply_events_str_at; [done|].
  intros e kv He Hkv _. eapply step_writes_own_key; eauto.
Qed.

End StepFacts.

(** ** Theorems about [_run_async_impl] *)

Section Workflow_theorems.
Context {A : Type} `{StepAgent A}.

(** C3: Gate after step 1: when the retrieval agent ends normally and
    leaves "conversation_data_output" empty, the run ends there with the
    warning's [return]: only the retrieval agent's events are relayed
    and no other agent runs. *)
Theorem retrieval_gate (self : NoMatchAnalysisAgent A) st evs :
  step_run (conversation_data_retrieval self) st = (evs, None) ->
  state_get (apply_events st evs) "conversation_data_output" (VStr []) = VStr [] ->
  run_async_impl self st = (evs, apply_events st evs, NoConversationData).
Proof.
  intros Hrun Hget. unfold run_async_impl, _run_async_impl, wbind, run_agent.
  simpl. rewrite Hrun. unfold get_output. simpl. rewrite Hget. reflexivity.
Qed.
End Workflow_theorems.

(** ** Computation rules of the workflow monad *)

Section Rules.
Context {A : Type} `{StepAgent A}.

Lemma wbind_run_agent {X} a (k : unit -> wf X) s :
  wbind (run_agent a) k s =
  match step_run a (w_session s) with
  | (evs, Some e) => (extend s evs, Throw e)
  | (evs, None) => k tt (extend s evs)
  end.
Proof. unfold wbind, run_agent. by destruct (step_run a _) as [? [?|]]. Qed.

Lemma wbind_get_output {X} k (f : pyval -> wf X) s :
  wbind (get_output k) f s = f (output_of s k) s.
Proof. done. Qed.

Lemma wbind_log_len {X} v (k : unit -> wf X) s :
  wbind (log_len v) k s =
  match py_len v with Ok _ => k tt s | Err e => (s, Throw e) end.
Proof. unfold wbind, log_len. by destruct (py_len v). Qed.

Lemma wbind_wret {X Y} (x : X) (k : X -> wf Y) s : wbind (wret x) k s = k x s.
Proof. done. Qed.

Lemma output_of_extend s evs k :
  output_of (extend s evs) k = state_get (apply_events (w_session s) evs) k (VStr []).
Proof. done. Qed.

Lemma wbind_assoc {X Y Z} (m : wf X) (k : X -> wf Y) (k' : Y -> wf Z) s :
  wbind (wbind m k) k' s = wbind m (fun x => wbind (k x) k') s.
Proof. unfold wbind. by destruct (m s) as [s' [x|e]]. Qed.
End Rules.

Create Rewrite HintDb wf_rw.
#[export] Hint Rewrite @wbind_assoc @wbind_run_agent @wbind_get_output @wbind_log_len @wbind_wret : wf_rw.

(** Run the workflow along the branch the hypotheses name: rewrite with
    the known agent results, outputs and truth values. *)
Ltac wf_rewrite :=
  repeat (progress (autorewrite with wf_rw; rewrite ?output_of_extend; simpl) ||
          (match goal with
           | H : step_run ?a ?x = _ |- context [step_run ?a ?x] => rewrite H
           | H : state_get ?x ?k ?d = _ |- context [state_get ?x ?k ?d] => rewrite H
           | H : truthy ?v = _ |- context [truthy ?v] => rewrite H
           end; simpl)).

(** Run the workflow one decision further: the next agent's result, the
    next [len()], or the next emptiness test. *)
Ltac wf_step :=
  autorewrite with wf_rw;
  match goal with
  | |- context [match step_run ?a ?st with _ => _ end] =>
      let R := fresh "R" in destruct (step_run a st) as [?evs [?ex|]] eqn:R
  | |- context [match py_len ?v with _ => _ end] =>
      let L := fresh "L" in destruct (py_len v) eqn:L
  | |- context [if negb (truthy ?v) then _ else _] =>
      let T := fresh "T" in destruct (truthy v) eqn:T
  | |- context [if truthy ?v then _ else _] =>
      let B := fresh "B" in destruct (truthy v) eqn:B
  end; simpl.

(** ** The gates *)

Section Gates.
Context {A : Type} `{StepAgent A}.

(** C4: Gate after step 2: when retrieval produced data and the analysis
    agent ends normally leaving "no_match_analysis_output" empty, the run
    ends there: the events are those of the two agents, steps 3 and 4
    never run. *)
Theorem analysis_gate (self : NoMatchAnalysisAgent A) st e1 e2 c :
  let st1 := apply_events st e1 in
  step_run (conversation_data_retrieval self) st = (e1, None) ->
  state_get st1 "conversation_data_output" (VStr []) = VStr c -> c <> [] ->
  step_run (no_match_analysis self) st1 = (e2, None) ->
  state_get (apply_events st1 e2) "no_match_analysis_output" (VStr []) = VStr [] ->
  run_async_impl self st = (e1 ++ e2, apply_events st1 e2, NoAnalysisResults).
Proof.
  intros st1 R1 Hc Hne R2 Ha. unfold run_async_impl, _run_async_impl. subst st1.
  wf_rewrite. destruct c; [done|]. simpl. by wf_rewrite.
Qed.

(** C8: Step 3 has no gate: when the structure-parsing agent runs and
    leaves "dialogflow_analysis_output" empty, the workflow still goes
    on to the CSV generation agent, whose events follow. *)
Theorem parser_output_not_gated self st e1 e2 e3 c a :
  let st1 := apply_events st e1 in
  let st2 := apply_events st1 e2 in
  let st3 := apply_events st2 e3 in
  step_run (conversation_data_retrieval self) st = (e1, None) ->
  state_get st1 "conversation_data_output" (VStr []) = VStr c -> c <> [] ->
  step_run (no_match_analysis self) st1 = (e2, None) ->
  state_get st2 "no_match_analysis_output" (VStr []) = VStr a -> a <> [] ->
  truthy (state_get st2 "dialogflow_bot_json" (VStr [])) = true ->
  step_run (dialogflow_cx_parser self) st2 = (e3, None) ->
  state_get st3 "dialogflow_analysis_output" (VStr []) = VStr [] ->
  (run_async_impl self st).1.1 = e1 ++ e2 ++ e3 ++ (step_run (csv_generation self) st3).1.
Proof.
  intros st1 st2 st3 R1 Hc Hcne R2 Ha Hane Hb R3 Hp.
  unfold run_async_impl, _run_async_impl. subst st1 st2 st3.
  wf_rewrite. destruct c; [done|]. simpl.
  wf_rewrite. destruct a; [done|]. simpl.
  wf_rewrite. repeat wf_step; by rewrite <- ?app_assoc.
Qed.
End Gates.

(** ** Steps that keep their contract, inside the workflow *)

Section Contract.
Context {A : Type} `{StepAgent A} `{!StepAgentOk A}.

(** The orchestrator's agents write the keys it reads after them. *)
Definition wired (self : NoMatchAnalysisAgent A) : Prop :=
  step_output_key (conversation_data_retrieval self) = "conversation_data_output" /\
  step_output_key (no_match_analysis self) = "no_match_analysis_output" /\
  step_output_key (dialogflow_cx_parser self) = "dialogflow_analysis_output" /\
  step_output_key (csv_generation self) = "csv_generation_output".

Lemma state_get_step_other a st evs ex st' k d :
  step_run a st = (evs, ex) -> k <> step_output_key a ->
  state_get (apply_events st' evs) k d = state_get st' k d.
Proof.
  intros R Hk. unfold state_get.
  replace evs with (step_run a st).1 by (by rewrite R). by rewrite step_other_key.
Qed.

Lemma output_of_step_other a s evs ex k :
  step_run a (w_session s) = (evs, ex) -> k <> step_output_key a ->
  output_of (extend s evs) k = output_of s k.
Proof. apply state_get_step_other. Qed.

(** The same root agent with another structure-parsing agent. *)
Definition with_parser (self : NoMatchAnalysisAgent A) (p : A) : NoMatchAnalysisAgent A :=
  mk_orchestrator (conversation_data_retrieval self) (no_match_analysis self) p
                  (csv_generation self).

(** The gated outputs of the workflow. *)
Definition output_keys : list string :=
  ["conversation_data_output"; "no_match_analysis_output";
   "dialogflow_analysis_output"; "csv_generation_output"].

Definition outputs_str (st : gmap string pyval) : Prop := Forall (str_at st) output_keys.

Lemma outputs_str_step a s evs ex :
  step_run a (w_session s) = (evs, ex) ->
  outputs_str (w_session s) -> outputs_str (w_session (extend s evs)).
Proof.
  intros R Hs. eapply Forall_impl; [exact Hs|]. intros k Hk. simpl.
  replace evs with (step_run a (w_session s)).1 by (by rewrite R). by apply step_str_at.
Qed.

Lemma outputs_str_len s k :
  outputs_str (w_session s) -> k ∈ output_keys -> exists n, py_len (output_of s k) = Ok n.
Proof.
  intros Hs Hk. apply is_str_len. apply str_at_get.
  unfold outputs_str in Hs. rewrite Forall_forall in Hs. by apply Hs.
Qed.

Lemma phase_key_output ph : phase_key ph ∈ output_keys.
Proof. destruct ph; unfold output_keys; simpl; set_solver. Qed.

(** Invariant of the machine: the gated outputs stay strings. *)
Lemma ostep_outputs_str self c c' :
  ostep self c c' -> outputs_str (w_session c.2) -> outputs_str (w_session c'.2).
Proof. intros S Hs. inv S; cbn [snd] in *; eauto using outputs_str_step. Qed.

(** When the outputs are strings, a step that ends the run with an
    exception ran an agent that raised it. *)
Lemma ostep_raised self ph s s' e :
  ostep self (ph, s) (Finished (Raised e), s') -> outputs_str (w_session s) ->
  exists a evs, step_run a (w_session s) = (evs, Some e).
Proof.
  intros S Hs. inv S; eauto.
  match goal with G : gate _ _ _ _ |- _ => inv G end;
    [|destruct ph; discriminate|destruct ph; discriminate].
  edestruct (outputs_str_len (extend s evs) (phase_key ph)) as [n Hn];
    [eauto using outputs_str_step|apply phase_key_output|congruence].
Qed.
End Contract.

(** Move a read of the session back over the steps that do not write
    its key. *)
Ltac transport Hw :=
  unfold output_of, extend in *; simpl in *;
  repeat match goal with
  | R : step_run ?a _ = (?evs, _) |- context [state_get (apply_events ?st' ?evs) ?k ?d] =>
      rewrite (state_get_step_other a _ evs _ st' k d R)
        by (destruct Hw as (?&?&?&?); congruence)
  end.

Section Skip.
Context {A : Type} `{StepAgent A} `{!StepAgentOk A}.

(** With "dialogflow_bot_json" empty on entry, the parser agent does not
    matter: retrieval and analysis do not write it, so step 3 is not
    taken. *)
Lemma run_async_impl_parser_irrelevant self p1 p2 st :
  step_output_key (conversation_data_retrieval self) = "conversation_data_output" ->
  step_output_key (no_match_analysis self) = "no_match_analysis_output" ->
  truthy (state_get st "dialogflow_bot_json" (VStr [])) = false ->
  run_async_impl (with_parser self p1) st = run_async_impl (with_parser self p2) st.
Proof.
  intros Hr Ha Hb. unfold run_async_impl, _run_async_impl, with_parser. simpl.
  do 6 (wf_step; try done).
  rewrite !wbind_get_output.
  erewrite (output_of_step_other _ _ _ _ _ R0) by (rewrite Ha; done).
  erewrite (output_of_step_other _ _ _ _ _ R) by (rewrite Hr; done).
  unfold output_of. simpl. by rewrite Hb.
Qed.

Lemma with_own_parser (self : NoMatchAnalysisAgent A) : with_parser self (dialogflow_cx_parser self) = self.
Proof. by destruct self. Qed.

(** C7: Step 3 is skipped when "dialogflow_bot_json" is empty on entry:
    retrieval and analysis do not write it, so the branch is not taken
    and the run is the same whatever the structure-parsing agent is. *)
Theorem run_async_impl_skips_parser self p st :
  wired self -> truthy (state_get st "dialogflow_bot_json" (VStr [])) = false ->
  run_async_impl self st = run_async_impl (with_parser self p) st.
Proof.
  intros [Hr [Ha _]] Hb. rewrite <- (with_own_parser self) at 1.
  by apply run_async_impl_parser_irrelevant.
Qed.
End Skip.

(** ** Completion *)

Section Completion.
Context {A : Type} `{StepAgent A} `{!StepAgentOk A}.

(** C9: A run reports [Completed] only when, in the final state, the
    retrieval, analysis and CSV outputs are all non-empty: the later
    steps never overwrite an earlier gated output. *)
Theorem run_async_impl_completed self st evs st' :
  wired self -> run_async_impl self st = (evs, st', Completed) ->
  truthy (state_get st' "conversation_data_output" (VStr [])) = true /\
  truthy (state_get st' "no_match_analysis_output" (VStr [])) = true /\
  truthy (state_get st' "csv_generation_output" (VStr [])) = true.
Proof.
  intros Hw. unfold run_async_impl, _run_async_impl.
  repeat (wf_step; try discriminate).
  all: intros Heq; inv Heq; transport Hw; auto.
Qed.
End Completion.

(** ** Runs of the functional model are runs of the machine *)

Section Refinement.
Context {A : Type} `{StepAgent A}.
Variable self : NoMatchAnalysisAgent A.

(** A program suffix [m] started in phase [ph] does what the machine
    does from [ph]. *)
Definition refines (ph : phase) (m : wf exit) : Prop :=
  forall s, star (ostep self) (ph, s) (Finished (exit_of (m s).2), (m s).1).

(** One gated step: the agent, the read, the [len()], the early exit. *)
Lemma refines_gated ph a stop_x rest :
  (forall s, agent_of self ph s = Some a) -> phase_stop ph = Some stop_x ->
  refines (phase_next ph) rest ->
  refines ph (run_agent a ;;
              let* v := get_output (phase_key ph) in
              log_len v ;;
              if negb (truthy v) then wret stop_x else rest).
Proof.
  intros Ha Hstop Hrest s. rewrite wbind_run_agent.
  destruct (step_run a (w_session s)) as [evs [e|]] eqn:R; simpl.
  { apply star_one. eapply ostep_raise; eauto. }
  rewrite wbind_get_output, wbind_log_len.
  destruct (py_len _) as [n|e] eqn:L; simpl.
  - destruct (truthy _) eqn:T; simpl.
    + eapply star_step; [|apply Hrest]. eapply ostep_agent; eauto. eapply gate_pass; eauto.
    + apply star_one. eapply ostep_agent; eauto. eapply gate_stop; eauto.
  - apply star_one. eapply ostep_agent; eauto. by apply gate_raise.
Qed.

Definition generating_prog : wf exit :=
  run_agent (csv_generation self) ;;
  let* csv_generation_output := get_output "csv_generation_output" in
  log_len csv_generation_output ;;
  if negb (truthy csv_generation_output) then wret NoCsvResults else
  wret Completed.

Definition structure_prog : wf exit :=
  let* dialogflow_bot_json := get_output "dialogflow_bot_json" in
  (if truthy dialogflow_bot_json then
     run_agent (dialogflow_cx_parser self) ;;
     let* dialogflow_analysis_output := get_output "dialogflow_analysis_output" in
     log_len dialogflow_analysis_output
   else wret tt) ;;
  generating_prog.

Lemma refines_generating : refines Generating generating_prog.
Proof.
  apply (refines_gated Generating); [done|done|]. intros s. apply star_refl.
Qed.

Lemma refines_structure : refines StructureParsing structure_prog.
Proof.
  intros s. unfold structure_prog. rewrite wbind_get_output.
  destruct (truthy (output_of s "dialogflow_bot_json")) eqn:B.
  - rewrite wbind_assoc, wbind_run_agent.
    destruct (step_run _ (w_session s)) as [evs [e|]] eqn:R; simpl.
    + apply star_one. eapply ostep_raise; [|done]. simpl. by rewrite B.
    + rewrite wbind_assoc, wbind_get_output, wbind_log_len.
      destruct (py_len _) as [n|e] eqn:L; simpl.
      * eapply star_step; [|apply refines_generating].
        eapply ostep_agent; [simpl; by rewrite B|done|]. eapply gate_pass; eauto.
      * apply star_one. eapply ostep_agent; [simpl; by rewrite B|done|]. by apply gate_raise.
  - eapply star_step; [by apply ostep_skip|]. apply refines_generating.
Qed.

Lemma refines_run_async_impl : refines Retrieving (_run_async_impl self).
Proof.
  apply (refines_gated Retrieving); [done|done|].
  apply (refines_gated Analyzing); [done|done|].
  apply refines_structure.
Qed.

Lemma finished_irred x s : irred (ostep self) (Finished x, s).
Proof. intros c Hs. inv Hs; simpl in *; discriminate. Qed.

(** A run of [run_async_impl] is a run of the machine. *)
Lemma run_async_impl_star st evs st' x :
  run_async_impl self st = (evs, st', x) ->
  star (ostep self) (Retrieving, mk_wstate [] st) (Finished x, mk_wstate evs st').
Proof.
  pose proof (refines_run_async_impl (mk_wstate [] st)) as Hstar.
  unfold run_async_impl. destruct (_run_async_impl self (mk_wstate [] st)) as [[evs0 st0] o].
  simpl in Hstar. intros Heq. inv Heq. by destruct o.
Qed.

End Refinement.

(** ** Exceptions come from the sub-agents *)

Section Exceptions.
Context {A : Type} `{StepAgent A} `{!StepAgentOk A}.
Variable self : NoMatchAnalysisAgent A.

Lemma star_raised c c' e :
  star (ostep self) c c' -> c'.1 = Finished (Raised e) ->
  (forall x, c.1 <> Finished x) -> outputs_str (w_session c.2) ->
  exists a st_a evs_a, step_run a st_a = (evs_a, Some e).
Proof.
  induction 1 as [c|c1 [ph2 s2] c3 S12 S23 IH]; intros Hc' Hnf Hs.
  - by destruct (Hnf _ Hc').
  - destruct ph2 as [| | | |x].
    1-4: apply IH; [done|by intros x|exact (ostep_outputs_str _ _ _ S12 Hs)].
    inversion S23 as [|? c2' ? S2 _]; subst.
    + destruct c1 as [ph1 s1]. simpl in Hc'. inv Hc'.
      destruct (ostep_raised _ _ _ _ _ S12 Hs) as [a [evs Ha]]. eauto.
    + by destruct (finished_irred _ _ _ _ S2).
Qed.

(** Run-level form: from a session whose gated outputs are strings,
    every exception that ends the run was raised by a sub-agent. *)
Lemma run_async_impl_raised st evs st' e :
  outputs_str st -> run_async_impl self st = (evs, st', Raised e) ->
  exists a st_a evs_a, step_run a st_a = (evs_a, Some e).
Proof.
  intros Hs Hrun. apply run_async_impl_star in Hrun.
  eapply star_raised; [exact Hrun|done|by intros x|exact Hs].
Qed.
End Exceptions.

(** ** Theorems about whole invocations *)

Section Invocation.
Context {A : Type} `{StepAgent A} `{!StepAgentOk A} `{Environ} `{BigQueryClient}.

Lemma initialize_outputs_str st0 : outputs_str (initialize_state_var st0).
Proof.
  unfold outputs_str, output_keys.
  repeat constructor; eexists; apply initialize_state_var_str; set_solver.
Qed.

Lemma initialize_get_empty st0 k :
  k ∈ ["conversation_data_output"; "no_match_analysis_output"; "dialogflow_bot_json";
       "dialogflow_analysis_output"; "csv_generation_output"; "user_query"] ->
  state_get (initialize_state_var st0) k (VStr []) = VStr [].
Proof. intros Hk. unfold state_get. by rewrite initialize_state_var_str. Qed.

(** C1: The structure-parsing step never runs.  Whatever the session
    held before (a caller-supplied "dialogflow_bot_json" included), the
    callback resets "dialogflow_bot_json" to the empty string and no earlier step
    writes it, so an invocation is the same whatever the
    structure-parsing agent is. *)
Theorem invoke_never_runs_parser self p st0 :
  wired self -> invoke self st0 = invoke (with_parser self p) st0.
Proof.
  intros [Hr [Ha _]]. unfold invoke. rewrite <- (with_own_parser self) at 1.
  rewrite (run_async_impl_parser_irrelevant self _ p); [done|done|done|].
  rewrite initialize_get_empty; [done|set_solver].
Qed.

(** C10: The orchestrator never raises on its own: the callback makes
    every gated output a [str] and every step keeps it one, so the
    [len()] calls of the logging cannot fail, and an invocation that ends
    with an exception ends with one a sub-agent raised. *)
Theorem invoke_raised self st0 evs st e :
  invoke self st0 = (evs, st, Raised e) ->
  exists a st_a evs_a, step_run a st_a = (evs_a, Some e).
Proof.
  unfold invoke. destruct (run_async_impl self _) as [[evs' st'] x] eqn:E.
  intros Heq. inv Heq. eapply run_async_impl_raised; [apply initialize_outputs_str|exact E].
Qed.

(** C20: Outputs of an earlier invocation never open a gate: if the
    retrieval agent of this invocation ends without writing
    "conversation_data_output", the workflow stops after step 1, whatever
    the session held before the invocation. *)
Theorem invoke_stale_output_ignored self st0 evs :
  step_run (conversation_data_retrieval self) (initialize_state_var st0) = (evs, None) ->
  "conversation_data_output" ∉ delta_keys evs ->
  invoke self st0 =
    (initialize_event :: evs, apply_events (initialize_state_var st0) evs, NoConversationData).
Proof.
  intros R Hk. unfold invoke, run_async_impl, _run_async_impl, wbind, run_agent.
  simpl. rewrite R. unfold get_output. simpl.
  replace (state_get _ "conversation_data_output" (VStr [])) with (VStr []); [done|].
  unfold state_get. rewrite apply_events_other by done.
  rewrite initialize_state_var_str; [done|set_solver].
Qed.
End Invocation.

(** ** The types of the session *)

Section Typing.
Context {A : Type} `{StepAgent A} `{!StepAgentOk A} `{Environ} `{BigQueryClient}.

(** The Python type the code expects at each key it relies on: the
    outputs, "dialogflow_bot_json" and "user_query" hold a [str] (the
    gates call [len()] on them); the configuration holds a [str] or
    [None] ([os.environ.get]); "bigquery_metadata" holds a list of
    dicts. *)
Definition key_type (k : string) (v : pyval) : bool :=
  if decide (k ∈ ["PROJECT"; "BQ_LOCATION"; "DATASET"; "GCS_BUCKET_NAME"]) then
    match v with VStr _ | VNone => true | _ => false end
  else if String.eqb k "bigquery_metadata" then
    match v with
    | VList l => forallb (fun x => match x with VDict _ => true | _ => false end) l
    | _ => false
    end
  else is_str v.

Definition str_keys : list string :=
  ["dialogflow_bot_json"; "user_query"] ++ output_keys.

Definition config_keys : list string :=
  ["PROJECT"; "BQ_LOCATION"; "DATASET"; "GCS_BUCKET_NAME"; "bigquery_metadata"].

(** Every key the program relies on is present with its type. *)
Definition session_typed (st : gmap string pyval) : Prop :=
  Forall (fun k => exists v, st !! k = Some v /\ key_type k v = true) (str_keys ++ config_keys).

Lemma key_type_str k v : k ∈ str_keys -> key_type k v = is_str v.
Proof.
  intros Hk. unfold key_type. unfold str_keys, output_keys in Hk.
  repeat (apply elem_of_cons in Hk as [->|Hk]; [reflexivity|]). by apply elem_of_nil in Hk.
Qed.

Lemma agent_of_output_key self ph s a :
  wired self -> agent_of self ph s = Some a -> step_output_key a ∈ output_keys.
Proof.
  intros (Hr & Ha & Hp & Hc) Hag. unfold output_keys.
  destruct ph; cbn in Hag; try destruct (truthy _); inv Hag;
    [rewrite Hr|rewrite Ha|rewrite Hp|rewrite Hc]; set_solver.
Qed.

(** A step of a wired orchestrator keeps the session typed. *)
Lemma ostep_typed self c c' :
  wired self -> ostep self c c' -> session_typed (w_session c.2) -> session_typed (w_session c'.2).
Proof.
  intros Hw S Ht. inv S; cbn [snd] in *; try exact Ht;
    unfold session_typed in *; rewrite Forall_forall in Ht |- *; intros k Hk;
    destruct (Ht k Hk) as (v & Hv & Htv); cbn;
    match goal with R : step_run ?a _ = (?evs, _), G : agent_of _ _ _ = Some ?a |- _ =>
      replace evs with (step_run a (w_session s)).1 by (by rewrite R);
      pose proof (agent_of_output_key _ _ _ _ Hw G) as Ho end;
    (destruct (decide (k ∈ str_keys)) as [Hs|Hs];
     [ destruct (step_str_at a (w_session s) (w_session s) k) as [t Ht'];
       [ rewrite key_type_str in Htv by done; destruct v; try discriminate; by exists s0 |];
       exists (VStr t); split; [done|by rewrite key_type_str]
     | exists v; split; [|done]; rewrite step_other_key; [done|];
       intros ->; apply Hs; unfold str_keys; set_solver ]).
Qed.

Lemma initialize_typed st0 : session_typed (initialize_state_var st0).
Proof.
  unfold session_typed, str_keys, output_keys, config_keys. cbn [app].
  repeat constructor;
    (eexists; split; [rewrite initialize_state_var_lookup; reflexivity|]); cbn;
    try reflexivity; try (destruct (getenv _); reflexivity).
  unfold bigquery_metdata_extraction_tool, rmap, rbind, rows_to_dicts.
  destruct (bq_query _ _) as [rows|e]; cbn; [|reflexivity].
  induction rows; [reflexivity|]. exact IHrows.
Qed.

(** C24: Type invariant of the invocation: in every state the machine
    reaches from the session the callback prepared, every key the
    program relies on is present and holds the type the code expects
    ([str] for the outputs, "dialogflow_bot_json" and "user_query", [str] or
    [None] for the configuration, a list of dicts for
    "bigquery_metadata"). *)
Theorem session_typed_reachable self st0 ph s :
  wired self ->
  star (ostep self) (Retrieving, mk_wstate [] (initialize_state_var st0)) (ph, s) ->
  session_typed (w_session s).
Proof.
  intros Hw Hstar.
  assert (Hgen : forall c c', star (ostep self) c c' ->
            session_typed (w_session c.2) -> session_typed (w_session c'.2)).
  { induction 1; eauto using ostep_typed. }
  apply (Hgen _ _ Hstar). apply initialize_typed.
Qed.
End Typing.

(** ** Concrete runs

    A scripted language model (each agent streams the reply its name is
    given, or nothing, and no artifact exists), an environment with no variables set and a
    BigQuery client that is unreachable: the theorems above applied to
    concrete invocations of the root agent of src/agent.py. *)

Definition scripted_model (script : list (string * (list model_event * option py_exc)))
    : LanguageModel :=
  {| lm_reply a _ :=
       match find (fun p => String.eqb p.1 (llm_name a)) script with
       | Some p => p.2
       | None => ([], None)
       end;
     lm_artifact name := Err (KeyError name) |}.

Definition says (t : string) : list model_event * option py_exc :=
  ([mk_model_event (Some (lit t)) true], None).

(** The session right after the callback. *)
Definition demo_session : gmap string pyval :=
  @initialize_state_var demo_env demo_bq ∅.

Definition all_say : LanguageModel :=
  scripted_model [("conversation_data_retrieval_agent", says "3 conversations");
                  ("no_match_analysis_agent", says "2 patterns");
                  ("dialogflow_cx_parser_agent", says "");
                  ("csv_generation_agent", says "Intent Name,Training Phrase")].

Lemma wired_orchestrator (lm : LanguageModel) :
  @wired _ (@llm_step lm) no_match_analysis_orchestrator.
Proof. done. Qed.

Lemma retrieval_gate_witness :
  exists evs st',
    @run_async_impl _ (@llm_step (scripted_model [("conversation_data_retrieval_agent", says "")]))
      no_match_analysis_orchestrator demo_session = (evs, st', NoConversationData).
Proof. do 2 eexists. eapply retrieval_gate; reflexivity. Defined.

Lemma analysis_gate_witness :
  exists evs st',
    @run_async_impl _ (@llm_step (scripted_model [("conversation_data_retrieval_agent", says "3 conversations");
                                                  ("no_match_analysis_agent", says "")]))
      no_match_analysis_orchestrator demo_session = (evs, st', NoAnalysisResults).
Proof. do 2 eexists. eapply analysis_gate; try reflexivity. discriminate. Defined.

Lemma parser_output_not_gated_witness :
  exists e1 e2 e3 e4,
    (@run_async_impl _ (@llm_step all_say) no_match_analysis_orchestrator
       (<["dialogflow_bot_json" := VStr (lit "{}")]> demo_session)).1.1 = e1 ++ e2 ++ e3 ++ e4.
Proof.
  do 4 eexists. eapply parser_output_not_gated; try reflexivity; discriminate.
Defined.

Lemma run_async_impl_skips_parser_witness :
  @run_async_impl _ (@llm_step all_say) no_match_analysis_orchestrator demo_session =
  @run_async_impl _ (@llm_step all_say)
    (with_parser no_match_analysis_orchestrator csv_generation_agent) demo_session.
Proof.
  apply (@run_async_impl_skips_parser _ (@llm_step all_say) (@llm_step_ok all_say));
    [apply wired_orchestrator|reflexivity].
Defined.

Lemma run_async_impl_completed_witness :
  exists evs st',
    @run_async_impl _ (@llm_step all_say) no_match_analysis_orchestrator demo_session =
      (evs, st', Completed) /\
    (truthy (state_get st' "conversation_data_output" (VStr [])) = true /\
     truthy (state_get st' "no_match_analysis_output" (VStr [])) = true /\
     truthy (state_get st' "csv_generation_output" (VStr [])) = true).
Proof.
  do 2 eexists. split; [reflexivity|].
  eapply (@run_async_impl_completed _ (@llm_step all_say) (@llm_step_ok all_say)
            no_match_analysis_orchestrator demo_session);
    [apply wired_orchestrator|reflexivity].
Defined.

Lemma invoke_never_runs_parser_witness :
  @invoke _ (@llm_step all_say) demo_env demo_bq no_match_analysis_orchestrator
    {["dialogflow_bot_json" := VStr (lit "{}")]} =
  @invoke _ (@llm_step all_say) demo_env demo_bq
    (with_parser no_match_analysis_orchestrator csv_generation_agent)
    {["dialogflow_bot_json" := VStr (lit "{}")]}.
Proof.
  apply (@invoke_never_runs_parser _ (@llm_step all_say) (@llm_step_ok all_say)).
  apply wired_orchestrator.
Defined.

Definition quota_model : LanguageModel :=
  scripted_model [("conversation_data_retrieval_agent", ([], Some (ServiceError (lit "quota"))))].

Lemma invoke_raised_witness :
  exists a st_a evs_a,
    @step_run _ (@llm_step quota_model) a st_a = (evs_a, Some (ServiceError (lit "quota"))).
Proof.
  eapply (@invoke_raised _ (@llm_step quota_model) (@llm_step_ok quota_model) demo_env demo_bq
            no_match_analysis_orchestrator ∅).
  reflexivity.
Defined.

Lemma invoke_stale_output_ignored_witness :
  exists evs st,
    @invoke _ (@llm_step (scripted_model [])) demo_env demo_bq no_match_analysis_orchestrator
      {["conversation_data_output" := VStr (lit "stale rows")]} = (evs, st, NoConversationData).
Proof.
  do 2 eexists.
  eapply (@invoke_stale_output_ignored _ (@llm_step (scripted_model [])) (@llm_step_ok _));
    [reflexivity|].
  apply not_elem_of_nil.
Defined.

Lemma session_typed_reachable_witness :
  session_typed
    (@run_async_impl _ (@llm_step all_say) no_match_analysis_orchestrator demo_session).1.2.
Proof.
  destruct (@run_async_impl _ (@llm_step all_say) no_match_analysis_orchestrator demo_session)
    as [[evs st'] x] eqn:E. cbn [fst snd].
  apply (@session_typed_reachable _ (@llm_step all_say) (@llm_step_ok all_say) demo_env demo_bq
           no_match_analysis_orchestrator ∅ (Finished x) (mk_wstate evs st')).
  - apply wired_orchestrator.
  - exact (run_async_impl_star _ _ _ _ _ E).
Defined.
