(* ===== verification/Csv.v ===== *)
(** * CSV rendering: [create_csv_content_from_data]

    src/artifact_utils.py renders a list of dicts with Python's
    [csv.DictWriter] over an [io.StringIO]: field names are the first
    dict's keys in order, a header row, then one row per dict.  The
    writer's excel dialect is written out here ([writer_writerow]): fields
    joined by [,], rows ended by CR LF, QUOTE_MINIMAL (a field is quoted
    when it holds a comma, a quote character or a line break), a quote
    character inside a field doubled, [None] written as an empty field,
    and a row made of one empty field written as two quote characters so
    that it is not an empty line.  [DictWriter]
    raises [ValueError] for a dict with a key that is not a field name and
    fills missing keys with the empty string ([dictwriter_dict_to_list]).

    Cell values are the Python values the program puts in these dicts:
    [str], [None], [int] and [bool] ([cell], rendered by [str()]).

    [csv_read] and [dict_read] are a reference reader (the state machine
    of Python's [csv.reader] in the same dialect, and [csv.DictReader],
    which skips empty rows); they are not code of the repository but the
    "parsing it back" of the spec's round-trip property. *)

From Stdlib Require Import List ZArith Lia String Ascii DecimalString.
From S2P Require Import Prelude Py.
Import ListNotations.
Open Scope Z_scope.

(** ** Cells and records *)

Inductive cell : Type :=
| CStr (s : pystr)
| CNone
| CInt (z : Z)
| CBool (b : bool).

(** A dict, keys in insertion order. *)
Definition record := list (pystr * cell).

(** [str(v)] as the csv writer applies it ([None] is an empty field). *)
Definition cell_str (v : cell) : pystr :=
  match v with
  | CStr s => s
  | CNone => []
  | CInt z => lit (NilZero.string_of_int (Z.to_int z))
  | CBool b => if b then lit "True" else lit "False"
  end.

(** ** The excel dialect *)

Definition comma : Z := 44.
Definition quote : Z := 34.
Definition cr : Z := 13.
Definition lf : Z := 10.
Definition crlf : pystr := [cr; lf].

(** A character that forces quoting under QUOTE_MINIMAL. *)
Definition special (c : Z) : bool :=
  (c =? comma) || (c =? quote) || (c =? cr) || (c =? lf).

(** [doublequote=True]: every quote character is written twice. *)
Definition double_quotes (s : pystr) : pystr :=
  flat_map (fun c => if c =? quote then [quote; quote] else [c]) s.

(** One field as [join_append] writes it. *)
Definition write_field (s : pystr) : pystr :=
  if existsb special s then [quote] ++ double_quotes s ++ [quote] else s.

Fixpoint join_fields (fs : list pystr) : pystr :=
  match fs with
  | [] => []
  | [f] => write_field f
  | f :: fs' => write_field f ++ [comma] ++ join_fields fs'
  end.

(** [writer.writerow(fields)]: a record of one empty field is written as
    two quote characters; then the line terminator. *)
Definition writer_writerow (fs : list pystr) : pystr :=
  match fs with
  | [f] => match f with
           | [] => [quote; quote]
           | _ => write_field f
           end
  | _ => join_fields fs
  end ++ crlf.

(** ** DictWriter *)

Definition key_eqb (k1 k2 : pystr) : bool := pystr_eqb k1 k2.

(** [rowdict.get(key, restval)] with the empty string as [restval]. *)
Definition dict_get (d : record) (k : pystr) : cell :=
  match find (fun kv => key_eqb (fst kv) k) d with
  | Some kv => (snd kv)
  | None => CStr []
  end.

Definition dict_contains_fields_not_in := lit "dict contains fields not in fieldnames".

(** [DictWriter._dict_to_list] with [extrasaction="raise"].  Python's
    message goes on with the offending keys, in the order of a set
    difference; the model keeps its fixed prefix. *)
Definition dictwriter_dict_to_list (fieldnames : list pystr) (d : record)
    : result py_exc (list pystr) :=
  if existsb (fun kv => negb (existsb (key_eqb (fst kv)) fieldnames)) d
  then Err (ValueError dict_contains_fields_not_in)
  else Ok (map (fun k => cell_str (dict_get d k)) fieldnames).

(** [writer.writeheader()]: the row [dict(zip(fieldnames, fieldnames))]. *)
Definition dictwriter_writeheader (fieldnames : list pystr) : pystr :=
  writer_writerow fieldnames.

(** [writer.writerows(data)]: rows are converted and written in order; the
    first [ValueError] propagates. *)
Fixpoint dictwriter_writerows (fieldnames : list pystr) (data : list record)
    : result py_exc pystr :=
  match data with
  | [] => Ok []
  | d :: data' =>
      let! fs := dictwriter_dict_to_list fieldnames d in
      let! rest := dictwriter_writerows fieldnames data' in
      Ok (writer_writerow fs ++ rest)
  end.

(** ** src/artifact_utils.py *)

Definition create_csv_content_from_data (data : list record) : result py_exc pystr :=
  match data with
  | [] => Ok []
  | d0 :: _ =>
      let fieldnames := map fst d0 in
      let! rows := dictwriter_writerows fieldnames data in
      Ok (dictwriter_writeheader fieldnames ++ rows)
  end.

Definition sample_row (intent phrase priority description : string) : record :=
  [(lit "Intent Name", CStr (lit intent));
   (lit "Training Phrase", CStr (lit phrase));
   (lit "Priority", CStr (lit priority));
   (lit "Category", CStr (lit "New Intent"));
   (lit "Description", CStr (lit description))].

Definition sample_data : list record :=
  [sample_row "AccountSuspensionIntent" "Why is my account suspended?" "High"
              "Handles account suspension queries";
   sample_row "AccountSuspensionIntent" "My account got suspended" "High"
              "Handles account suspension queries";
   sample_row "PaymentIssueIntent" "I can't make a payment" "Medium"
              "Handles payment-related issues"].

Definition generate_sample_csv : result py_exc pystr :=
  create_csv_content_from_data sample_data.

(** ** A reference reader: csv.reader and csv.DictReader, excel dialect *)

Inductive rstate : Type :=
| StartRecord | StartField | InField | InQuoted | QuoteInQuoted | EatLF.

(** The field being read, the fields of the row, the rows: all reversed. *)
Record racc : Type := mk_racc {
  ra_field : pystr;
  ra_row : list pystr;
  ra_rows : list (list pystr)
}.

Definition racc0 : racc := mk_racc [] [] [].

Definition add_char (c : Z) (r : racc) : racc := mk_racc (c :: ra_field r) (ra_row r) (ra_rows r).
Definition save_field (r : racc) : racc := mk_racc [] (rev (ra_field r) :: ra_row r) (ra_rows r).
Definition save_row (r : racc) : racc := mk_racc [] [] (rev (ra_row r) :: ra_rows r).

Definition is_eol (c : Z) : bool := (c =? cr) || (c =? lf).
Definition after_eol (c : Z) : rstate := if c =? cr then EatLF else StartRecord.

Definition start_field (c : Z) (r : racc) : rstate * racc :=
  if is_eol c then (after_eol c, save_row (save_field r))
  else if c =? quote then (InQuoted, r)
  else if c =? comma then (StartField, save_field r)
  else (InField, add_char c r).

(** An empty line is a row with no field. *)
Definition start_record (c : Z) (r : racc) : rstate * racc :=
  if is_eol c then (after_eol c, save_row r) else start_field c r.

Definition rstep (st : rstate) (c : Z) (r : racc) : rstate * racc :=
  match st with
  | StartRecord => start_record c r
  | StartField => start_field c r
  | InField =>
      if is_eol c then (after_eol c, save_row (save_field r))
      else if c =? comma then (StartField, save_field r)
      else (InField, add_char c r)
  | InQuoted => if c =? quote then (QuoteInQuoted, r) else (InQuoted, add_char c r)
  | QuoteInQuoted =>
      if c =? quote then (InQuoted, add_char quote r)
      else if c =? comma then (StartField, save_field r)
      else if is_eol c then (after_eol c, save_row (save_field r))
      else (InField, add_char c r)
  | EatLF => if c =? lf then (StartRecord, r) else start_record c r
  end.

(** End of input: a row in progress is kept. *)
Definition finish (st : rstate) (r : racc) : list (list pystr) :=
  match st with
  | StartRecord | EatLF => rev (ra_rows r)
  | _ => rev (ra_rows (save_row (save_field r)))
  end.

Fixpoint read_from (st : rstate) (r : racc) (s : pystr) : list (list pystr) :=
  match s with
  | [] => finish st r
  | c :: s' => let '(st', r') := rstep st c r in read_from st' r' s'
  end.

Definition csv_read (s : pystr) : list (list pystr) := read_from StartRecord racc0 s.

(** [csv.DictReader]: the first row names the fields, empty rows are
    skipped. *)
Definition dict_read (s : pystr) : list (list (pystr * pystr)) :=
  match csv_read s with
  | [] => []
  | header :: rows =>
      map (fun row => combine header row)
          (filter (fun row => match row with [] => false | _ => true end) rows)
  end.

(** What a record reads back as: every value by [str()]. *)
Definition render_record (d : record) : list (pystr * pystr) :=
  map (fun kv => ((fst kv), cell_str (snd kv))) d.

(** ** The reader on what the writer writes *)

Definition add_chars (f : pystr) (r : racc) : racc :=
  mk_racc (rev f ++ ra_field r) (ra_row r) (ra_rows r).

Lemma special_false c :
  special c = false -> is_eol c = false /\ (c =? quote) = false /\ (c =? comma) = false.
Proof.
  unfold special, is_eol.
  destruct (c =? comma), (c =? quote), (c =? cr), (c =? lf); simpl; intuition discriminate.
Qed.

(** An unquoted run of ordinary characters is read into the field. *)
Lemma read_plain f r s :
  existsb special f = false ->
  read_from InField r (f ++ s) = read_from InField (add_chars f r) s.
Proof.
  revert r. induction f as [|c f IH]; intros r Hf; [destruct r; reflexivity|].
  simpl in Hf. apply Bool.orb_false_iff in Hf as [Hc Hf].
  destruct (special_false c Hc) as (He & Hq & Hm).
  simpl. rewrite He, Hm. rewrite IH by exact Hf.
  unfold add_chars, add_char. simpl. now rewrite <- app_assoc.
Qed.

(** The body of a quoted field, up to its closing quote. *)
Lemma read_quoted f r s :
  read_from InQuoted r (double_quotes f ++ quote :: s) =
  read_from QuoteInQuoted (add_chars f r) s.
Proof.
  revert r. induction f as [|c f IH]; intros r; [destruct r; reflexivity|].
  unfold double_quotes. simpl. fold (double_quotes f).
  destruct (Z.eqb_spec c quote) as [->|Hc]; simpl.
  - rewrite IH. unfold add_chars, add_char. simpl. now rewrite <- app_assoc.
  - apply Z.eqb_neq in Hc. rewrite Hc. rewrite IH.
    unfold add_chars, add_char. simpl. now rewrite <- app_assoc.
Qed.

Lemma rstep_quote_end c r :
  c = comma \/ c = cr -> rstep QuoteInQuoted c r = rstep InField c r.
Proof. intros [-> | ->]; reflexivity. Qed.

(** A written field followed by a comma or a CR, read from the start of a
    field (or of a record, unless the record would be an empty line). *)
Lemma read_field f st r c s :
  st = StartField \/ st = StartRecord ->
  c = comma \/ c = cr ->
  (st = StartRecord -> c = cr -> f <> []) ->
  read_from st r (write_field f ++ c :: s) =
  let '(st', r') := rstep InField c (add_chars f r) in read_from st' r' s.
Proof.
  intros Hst Hc Hne. unfold write_field.
  destruct (existsb special f) eqn:Hs.
  - rewrite <- !app_assoc. simpl.
    replace (rstep st quote r) with (InQuoted, r) by (destruct Hst as [-> | ->]; reflexivity).
    rewrite read_quoted. cbn [read_from]. now rewrite rstep_quote_end.
  - destruct f as [|x f].
    + destruct Hst as [-> | ->], Hc as [-> | ->]; try (destruct r; reflexivity).
      now destruct (Hne eq_refl eq_refl).
    + simpl in Hs. apply Bool.orb_false_iff in Hs as [Hx Hs].
      destruct (special_false x Hx) as (He & Hq & Hm).
      simpl. replace (rstep st x r) with (InField, add_char x r)
        by (destruct Hst as [-> | ->]; simpl; unfold start_record, start_field;
            now rewrite He, Hq, Hm).
      rewrite read_plain by exact Hs. unfold add_chars, add_char. simpl.
      now rewrite <- app_assoc.
Qed.

(** Side conditions of the row lemmas. *)
Ltac row_side :=
  first [ discriminate | reflexivity | now right | now left
        | (intros _ ?H; discriminate) | (intros; discriminate) | easy ].

(** The fields of a row, joined by commas and ended by a CR. *)
Lemma read_join fs st r s :
  fs <> [] -> ra_field r = [] ->
  st = StartField \/ st = StartRecord ->
  (st = StartRecord -> fs <> [[]]) ->
  read_from st r (join_fields fs ++ cr :: s) =
  read_from EatLF (mk_racc [] [] (rev (rev fs ++ ra_row r) :: ra_rows r)) s.
Proof.
  revert st r. induction fs as [|f fs IH]; intros st r Hfs Hr Hst Hne; [congruence|].
  destruct fs as [|f' fs'].
  - simpl. rewrite read_field; auto.
    + simpl. destruct r as [fld row rows]. simpl in *. subst fld.
      unfold add_chars, save_field, save_row. simpl. now rewrite app_nil_r, rev_involutive.
    + intros -> _ ->. exact (Hne eq_refl eq_refl).
  - change (join_fields (f :: f' :: fs')) with (write_field f ++ [comma] ++ join_fields (f' :: fs')).
    rewrite <- app_assoc. simpl. rewrite read_field; auto; [|intros _ Hc; discriminate].
    simpl. rewrite IH; [| discriminate | reflexivity | now left | intros; discriminate].
    destruct r as [fld row rows]. simpl in *. subst fld. simpl.
    now rewrite app_nil_r, rev_involutive, <- !app_assoc.
Qed.

(** A written row is read back as its fields. *)
Lemma read_row fs rows s :
  fs <> [] ->
  read_from StartRecord (mk_racc [] [] rows) (writer_writerow fs ++ s) =
  read_from StartRecord (mk_racc [] [] (fs :: rows)) s.
Proof.
  intros Hfs. unfold writer_writerow.
  destruct fs as [|f [|f' fs']]; [congruence| |].
  - destruct f as [|x f].
    + reflexivity.
    + rewrite <- app_assoc. simpl (crlf ++ s).
      change (write_field (x :: f)) with (join_fields [x :: f]).
      rewrite read_join by row_side. reflexivity.
  - rewrite <- app_assoc. simpl (crlf ++ s).
    rewrite read_join by row_side. simpl. now rewrite app_nil_r, !rev_app_distr, rev_involutive.
Qed.

Lemma read_rows fss rows :
  Forall (fun fs => fs <> []) fss ->
  read_from StartRecord (mk_racc [] [] rows) (List.concat (map writer_writerow fss)) =
  rev rows ++ fss.
Proof.
  revert rows. induction fss as [|fs fss IH]; intros rows Hne.
  - simpl. now rewrite app_nil_r.
  - inversion Hne as [|? ? Hfs Hfss]; subst. simpl.
    rewrite read_row by exact Hfs. rewrite IH by exact Hfss. simpl.
    now rewrite <- app_assoc.
Qed.

(** [csv.reader] reads back the rows [writer.writerow] wrote, as long as
    no row is empty. *)
Lemma csv_read_write fss :
  Forall (fun fs => fs <> []) fss -> csv_read (List.concat (map writer_writerow fss)) = fss.
Proof. intros H. unfold csv_read, racc0. now rewrite read_rows. Qed.

(** ** DictWriter on uniform records *)

Lemma key_eqb_refl k : key_eqb k k = true.
Proof. unfold key_eqb. now apply pystr_eqb_spec. Qed.

Lemma key_eqb_neq k1 k2 : k1 <> k2 -> key_eqb k1 k2 = false.
Proof.
  intros Hne. unfold key_eqb. destruct (pystr_eqb k1 k2) eqn:E; [|reflexivity].
  now apply pystr_eqb_spec in E.
Qed.

(** With distinct keys, reading a dict at its own keys gives its values. *)
Lemma dict_get_own (d : record) :
  NoDup (map fst d) -> map (dict_get d) (map fst d) = map snd d.
Proof.
  induction d as [|[k v] d IH]; intros Hnd; [reflexivity|].
  inversion Hnd as [|? ? Hk Hnd']; subst. simpl.
  unfold dict_get at 1. simpl. rewrite key_eqb_refl. f_equal.
  rewrite <- IH by exact Hnd'. apply map_ext_in. intros k' Hk'.
  unfold dict_get. simpl. rewrite key_eqb_neq; [reflexivity|].
  intros ->. contradiction.
Qed.

(** The cells of a row: [str()] of each value, in key order. *)
Definition row_cells (d : record) : list pystr := map (fun kv => cell_str (snd kv)) d.

Lemma dict_to_list_uniform keys d :
  map fst d = keys -> NoDup keys ->
  dictwriter_dict_to_list keys d = Ok (row_cells d).
Proof.
  intros Hk Hnd. unfold dictwriter_dict_to_list.
  replace (existsb _ d) with false.
  - f_equal. subst keys. unfold row_cells.
    rewrite <- (map_map (dict_get d) cell_str), dict_get_own by exact Hnd.
    now rewrite map_map.
  - symmetry. apply Bool.not_true_iff_false. intros Hex.
    apply existsb_exists in Hex as [kv [Hin Hkv]].
    apply Bool.negb_true_iff, Bool.not_true_iff_false in Hkv. apply Hkv.
    apply existsb_exists. exists (fst kv). split; [|apply key_eqb_refl].
    subst keys. now apply in_map.
Qed.

Lemma writerows_uniform keys data :
  Forall (fun d => map fst d = keys) data -> NoDup keys ->
  dictwriter_writerows keys data = Ok (List.concat (map (fun d => writer_writerow (row_cells d)) data)).
Proof.
  intros Hall Hnd. induction Hall as [|d data Hd Hall IH]; [reflexivity|].
  simpl. rewrite dict_to_list_uniform by assumption. simpl. now rewrite IH.
Qed.

Lemma dict_to_list_err keys d e :
  dictwriter_dict_to_list keys d = Err e -> e = ValueError dict_contains_fields_not_in.
Proof. unfold dictwriter_dict_to_list. destruct (existsb _ d); congruence. Qed.

Lemma row_cells_nonempty keys d : map fst d = keys -> keys <> [] -> row_cells d <> [].
Proof. intros Hk Hne Hr. apply Hne. subst keys. unfold row_cells in Hr. now destruct d. Qed.

Lemma filter_nonempty (rows : list (list pystr)) :
  Forall (fun r => r <> []) rows ->
  filter (fun row => match row with [] => false | _ => true end) rows = rows.
Proof.
  induction 1 as [|r rows Hr _ IH]; [reflexivity|].
  simpl. destruct r; [contradiction|]. now rewrite IH.
Qed.

Lemma combine_row_cells d : combine (map fst d) (row_cells d) = render_record d.
Proof. induction d as [|[k v] d IH]; [reflexivity|]. simpl. now rewrite IH. Qed.

(** ** Theorems *)

(** C2: Round trip of [create_csv_content_from_data]: for a non-empty list
    of dicts that all have the first dict's keys, in its order, and at
    least one key, rendering succeeds; reading the text back gives the
    header row (the first dict's keys in order) and one row per dict, and
    [csv.DictReader] gives back every dict with its values as [str()]
    renders them. *)
Theorem create_csv_roundtrip (d0 : record) (data : list record) :
  map fst d0 <> [] -> NoDup (map fst d0) ->
  Forall (fun d => map fst d = map fst d0) data ->
  exists text,
    create_csv_content_from_data (d0 :: data) = Ok text /\
    csv_read text = map fst d0 :: map row_cells (d0 :: data) /\
    dict_read text = map render_record (d0 :: data).
Proof.
  intros Hne Hnd Hall.
  assert (Hall' : Forall (fun d => map fst d = map fst d0) (d0 :: data)) by (constructor; auto).
  assert (Hrows : Forall (fun r => r <> []) (map row_cells (d0 :: data))).
  { apply Forall_map. eapply Forall_impl; [|exact Hall'].
    intros d Hd. now apply (row_cells_nonempty (map fst d0)). }
  assert (Htext : dictwriter_writeheader (map fst d0) ++
                  List.concat (map (fun d => writer_writerow (row_cells d)) (d0 :: data)) =
                  List.concat (map writer_writerow (map fst d0 :: map row_cells (d0 :: data)))).
  { cbn [map List.concat]. now rewrite map_map. }
  assert (Hread : csv_read (List.concat (map writer_writerow
                    (map fst d0 :: map row_cells (d0 :: data)))) =
                  map fst d0 :: map row_cells (d0 :: data))
    by (apply csv_read_write; constructor; assumption).
  eexists. split; [|split].
  - unfold create_csv_content_from_data. rewrite writerows_uniform by assumption. reflexivity.
  - now rewrite Htext.
  - unfold dict_read. rewrite Htext, Hread, filter_nonempty by exact Hrows.
    rewrite map_map. apply map_ext_in. intros d Hd. rewrite Forall_forall in Hall'.
    rewrite <- (Hall' d Hd). apply combine_row_cells.
Qed.

(** C16: A dict with a key that is not among the first dict's keys makes
    [create_csv_content_from_data] raise [ValueError] ([DictWriter]'s
    [extrasaction="raise"]), whatever the other dicts hold. *)
Theorem create_csv_extra_key (d0 : record) (data : list record) d k :
  In d data -> In k (map fst d) -> ~ In k (map fst d0) ->
  create_csv_content_from_data (d0 :: data) = Err (ValueError dict_contains_fields_not_in).
Proof.
  intros Hd Hk Hk0. unfold create_csv_content_from_data.
  assert (Hbad : dictwriter_dict_to_list (map fst d0) d = Err (ValueError dict_contains_fields_not_in)).
  { unfold dictwriter_dict_to_list. replace (existsb _ d) with true; [reflexivity|].
    symmetry. apply existsb_exists. apply in_map_iff in Hk as [kv [<- Hkv]].
    exists kv. split; [exact Hkv|]. apply Bool.negb_true_iff, Bool.not_true_iff_false.
    intros Hin. apply existsb_exists in Hin as [k' [Hk' Heq]].
    unfold key_eqb in Heq. apply pystr_eqb_spec in Heq. subst. contradiction. }
  assert (Hrows : forall l, In d l ->
            dictwriter_writerows (map fst d0) l = Err (ValueError dict_contains_fields_not_in)).
  { induction l as [|d' l IH]; intros Hin; [contradiction|].
    simpl. destruct Hin as [<- | Hin]; [now rewrite Hbad|].
    destruct (dictwriter_dict_to_list _ d') eqn:E; simpl.
    - now rewrite IH.
    - now rewrite (dict_to_list_err _ _ _ E). }
  simpl. destruct (dictwriter_dict_to_list (map fst d0) d0) eqn:E; simpl.
  - now rewrite Hrows.
  - now rewrite (dict_to_list_err _ _ _ E).
Qed.

(** The rows of a text, each ended by CRLF. *)
Definition crlf_lines (ls : list string) : pystr :=
  List.concat (map (fun l => lit l ++ crlf) ls).

(** [generate_sample_csv] returns, byte for byte, the header of the
    five fixed columns and the three sample rows, each line ended by CRLF
    (the excel dialect's terminator) and no field quoted (none holds a
    comma, a quote or a line break).  Its first line starts with
    ["Intent Name"], which the integration test asserts it contains. *)
Theorem generate_sample_csv_text :
  generate_sample_csv = Ok (crlf_lines
    ["Intent Name,Training Phrase,Priority,Category,Description"%string;
     "AccountSuspensionIntent,Why is my account suspended?,High,New Intent,Handles account suspension queries"%string;
     "AccountSuspensionIntent,My account got suspended,High,New Intent,Handles account suspension queries"%string;
     "PaymentIssueIntent,I can't make a payment,Medium,New Intent,Handles payment-related issues"%string]).
Proof. vm_compute. reflexivity. Qed.

(** ** Concrete runs *)

Lemma create_csv_roundtrip_witness :
  exists text,
    create_csv_content_from_data sample_data = Ok text /\
    csv_read text = map fst (hd [] sample_data) :: map row_cells sample_data /\
    dict_read text = map render_record sample_data.
Proof.
  apply (create_csv_roundtrip (hd [] sample_data) (tl sample_data)).
  - discriminate.
  - repeat constructor; vm_compute; intuition discriminate.
  - repeat constructor.
Defined.

Lemma create_csv_extra_key_witness :
  create_csv_content_from_data
    [[(lit "test", CStr (lit "data"))]; [(lit "other", CNone)]] =
  Err (ValueError dict_contains_fields_not_in).
Proof.
  apply (create_csv_extra_key [(lit "test", CStr (lit "data"))] [[(lit "other", CNone)]]
           [(lit "other", CNone)] (lit "other")).
  - left. reflexivity.
  - left. reflexivity.
  - vm_compute. intuition discriminate.
Defined.
