(* ===== verification/Utf8.v ===== *)
(** * UTF-8 encoding: [str.encode('utf-8')]

    [save_csv_artifact] (src/artifact_utils.py) stores
    [csv_content.encode('utf-8')] and reports its [len] as the artifact's
    size.  A [str] is a sequence of code points in [0, 0x10FFFF]
    ([valid_str]); the codec writes each one as one to four bytes
    ([utf8_char], with the shifts and masks of the standard) and raises
    [UnicodeEncodeError] at the first lone surrogate (U+D800..U+DFFF),
    which a Python [str] may hold but UTF-8 cannot encode.

    [utf8_decode] is a reference decoder, used to state that the stored
    bytes are the text: it is not code of the repository. *)

From Stdlib Require Import List ZArith Lia Bool.
From S2P Require Import Prelude Py.
Import ListNotations.
Open Scope Z_scope.
Open Scope bool_scope.

Definition bytes := list Z.

Definition is_surrogate (c : Z) : bool := (55296 <=? c) && (c <=? 57343).

(** The bytes of one code point. *)
Definition utf8_char (c : Z) : bytes :=
  if c <? 128 then [c]
  else if c <? 2048 then
    [Z.lor 192 (Z.shiftr c 6); Z.lor 128 (Z.land c 63)]
  else if c <? 65536 then
    [Z.lor 224 (Z.shiftr c 12); Z.lor 128 (Z.land (Z.shiftr c 6) 63);
     Z.lor 128 (Z.land c 63)]
  else
    [Z.lor 240 (Z.shiftr c 18); Z.lor 128 (Z.land (Z.shiftr c 12) 63);
     Z.lor 128 (Z.land (Z.shiftr c 6) 63); Z.lor 128 (Z.land c 63)].

(** The encoder; [pos] is the index of the head of [s] in the whole
    string, as the exception reports it. *)
Fixpoint utf8_encode_from (pos : nat) (s : pystr) : result py_exc bytes :=
  match s with
  | [] => Ok []
  | c :: s' =>
      if is_surrogate c then Err (UnicodeEncodeError pos)
      else let! rest := utf8_encode_from (S pos) s' in Ok (utf8_char c ++ rest)
  end.

Definition utf8_encode (s : pystr) : result py_exc bytes := utf8_encode_from 0 s.

(** Code points of a Python [str]; those the codec accepts. *)
Definition valid_str (s : pystr) : Prop := Forall (fun c => 0 <= c <= 1114111) s.
Definition encodable (s : pystr) : Prop :=
  Forall (fun c => 0 <= c <= 1114111 /\ is_surrogate c = false) s.

(** ** Reference decoder *)

Definition is_cont (b : Z) : bool := (128 <=? b) && (b <? 192).

Fixpoint utf8_decode (bs : bytes) : option pystr :=
  match bs with
  | [] => Some []
  | b1 :: r1 =>
      if b1 <? 128 then option_map (cons b1) (utf8_decode r1)
      else if b1 <? 192 then None
      else if b1 <? 224 then
        match r1 with
        | b2 :: r2 =>
            if is_cont b2
            then option_map (cons ((b1 - 192) * 64 + (b2 - 128))) (utf8_decode r2)
            else None
        | _ => None
        end
      else if b1 <? 240 then
        match r1 with
        | b2 :: b3 :: r3 =>
            if is_cont b2 && is_cont b3
            then option_map (cons ((b1 - 224) * 4096 + (b2 - 128) * 64 + (b3 - 128)))
                            (utf8_decode r3)
            else None
        | _ => None
        end
      else if b1 <? 248 then
        match r1 with
        | b2 :: b3 :: b4 :: r4 =>
            if is_cont b2 && is_cont b3 && is_cont b4
            then option_map (cons ((b1 - 240) * 262144 + (b2 - 128) * 4096 +
                                   (b3 - 128) * 64 + (b4 - 128)))
                            (utf8_decode r4)
            else None
        | _ => None
        end
      else None
  end.

(** ** Bit arithmetic *)

Lemma lor_add a k x :
  0 <= a -> 0 <= k -> 0 <= x < 2 ^ k -> Z.lor (a * 2 ^ k) x = a * 2 ^ k + x.
Proof.
  intros Ha Hk Hx. rewrite <- Z.shiftl_mul_pow2 by lia.
  assert (Hland : Z.land (Z.shiftl a k) x = 0).
  { apply Z.bits_inj'. intros n Hn. rewrite Z.land_spec, Z.bits_0.
    destruct (Z.lt_ge_cases n k) as [Hlt|Hge].
    - now rewrite Z.shiftl_spec_low.
    - destruct (Z.eq_dec x 0) as [->|Hx0]; [now rewrite Z.bits_0, andb_false_r|].
      rewrite (Z.bits_above_log2 x n); [now rewrite andb_false_r|lia|].
      assert (Z.log2 x < k) by (apply Z.log2_lt_pow2; lia). lia. }
  rewrite <- Z.lxor_lor by exact Hland. rewrite <- Z.add_nocarry_lxor by exact Hland.
  now rewrite Z.shiftl_mul_pow2 by lia.
Qed.

Lemma land_63 x : Z.land x 63 = x mod 64.
Proof. change 63 with (Z.ones 6). now rewrite Z.land_ones. Qed.

Lemma shiftr_div x n : 0 <= n -> Z.shiftr x n = x / 2 ^ n.
Proof. apply Z.shiftr_div_pow2. Qed.

Lemma cont_byte x : Z.lor 128 (x mod 64) = 128 + x mod 64.
Proof.
  change 128 with (2 * 2 ^ 6). apply lor_add; try lia.
  pose proof (Z.mod_pos_bound x 64). simpl. lia.
Qed.

(** The encoder's bytes, as sums. *)
Lemma utf8_char_arith c :
  0 <= c <= 1114111 ->
  utf8_char c =
  if c <? 128 then [c]
  else if c <? 2048 then [192 + c / 64; 128 + c mod 64]
  else if c <? 65536 then [224 + c / 4096; 128 + (c / 64) mod 64; 128 + c mod 64]
  else [240 + c / 262144; 128 + (c / 4096) mod 64; 128 + (c / 64) mod 64; 128 + c mod 64].
Proof.
  intros Hc. unfold utf8_char.
  rewrite !shiftr_div, !land_63, !cont_byte by lia.
  change (2 ^ 6) with 64. change (2 ^ 12) with 4096. change (2 ^ 18) with 262144.
  destruct (c <? 128) eqn:E1; [reflexivity|].
  destruct (c <? 2048) eqn:E2.
  { change 192 with (3 * 2 ^ 6). rewrite lor_add; [reflexivity|lia|lia|].
    apply Z.ltb_lt in E2. split; [apply Z.div_pos; lia|]. apply Z.div_lt_upper_bound; simpl; lia. }
  destruct (c <? 65536) eqn:E3.
  { change 224 with (7 * 2 ^ 5). rewrite lor_add; [reflexivity|lia|lia|].
    apply Z.ltb_lt in E3. split; [apply Z.div_pos; lia|]. apply Z.div_lt_upper_bound; simpl; lia. }
  change 240 with (15 * 2 ^ 4). rewrite lor_add; [reflexivity|lia|lia|].
  split; [apply Z.div_pos; lia|]. apply Z.div_lt_upper_bound; simpl; lia.
Qed.

(** Linear arithmetic with division and remainder by constants. *)
Ltac zlia := Z.to_euclidean_division_equations; lia.

(** Case analysis on the comparisons of a goal, closing the impossible
    branches by arithmetic. *)
Ltac z_cases :=
  repeat match goal with
         | |- context [?a <? ?b] => destruct (Z.ltb_spec a b); try zlia
         | |- context [?a <=? ?b] => destruct (Z.leb_spec a b); try zlia
         | |- context [?a =? ?b] => destruct (Z.eqb_spec a b); try zlia
         end.

Lemma utf8_decode_char c rest :
  0 <= c <= 1114111 ->
  utf8_decode (utf8_char c ++ rest) = option_map (cons c) (utf8_decode rest).
Proof.
  intros Hc. rewrite utf8_char_arith by exact Hc.
  destruct (Z.ltb_spec c 128); [simpl; z_cases; reflexivity|].
  destruct (Z.ltb_spec c 2048); [|destruct (Z.ltb_spec c 65536)];
    cbn [app utf8_decode]; unfold is_cont; z_cases;
    cbn -[Z.add Z.sub Z.mul Z.div Z.modulo]; f_equal; f_equal; zlia.
Qed.

Lemma utf8_char_length c : (1 <= length (utf8_char c) <= 4)%nat.
Proof. unfold utf8_char. z_cases; simpl; lia. Qed.

Lemma utf8_char_ascii c : c < 128 -> utf8_char c = [c].
Proof. intros Hc. unfold utf8_char. z_cases. reflexivity. Qed.

(** On encodable text the codec is the concatenation of the characters'
    bytes. *)
Lemma utf8_encode_from_ok pos s :
  Forall (fun c => is_surrogate c = false) s ->
  utf8_encode_from pos s = Ok (flat_map utf8_char s).
Proof.
  revert pos. induction s as [|c s IH]; intros pos Hs; [reflexivity|].
  inversion Hs as [|? ? Hc Hs']; subst. simpl. rewrite Hc, IH by exact Hs'. reflexivity.
Qed.

Lemma utf8_decode_flat_map s :
  valid_str s -> utf8_decode (flat_map utf8_char s) = Some s.
Proof.
  induction 1 as [|c s Hc Hs IH]; [reflexivity|].
  simpl. rewrite utf8_decode_char, IH by exact Hc. reflexivity.
Qed.

Lemma flat_map_utf8_length s :
  (length s <= length (flat_map utf8_char s) <= 4 * length s)%nat.
Proof.
  induction s as [|c s IH]; [simpl; lia|].
  simpl. rewrite length_app. pose proof (utf8_char_length c). lia.
Qed.

(** Where the codec stops: the first surrogate. *)
Lemma utf8_encode_from_err pos s e :
  utf8_encode_from pos s = Err e ->
  exists i c, e = UnicodeEncodeError (pos + i) /\ nth_error s i = Some c /\
    is_surrogate c = true /\
    (forall j d, (j < i)%nat -> nth_error s j = Some d -> is_surrogate d = false).
Proof.
  revert pos. induction s as [|c s IH]; intros pos H; [discriminate|].
  simpl in H. destruct (is_surrogate c) eqn:Hc.
  - injection H as <-. exists 0%nat, c. rewrite Nat.add_0_r.
    repeat split; [assumption|]. intros j d Hj. lia.
  - destruct (utf8_encode_from (S pos) s) as [bs|e'] eqn:E; [discriminate|].
    injection H as <-. destruct (IH _ E) as (i & d & -> & Hi & Hd & Hbefore).
    exists (S i), d. rewrite Nat.add_succ_r. repeat split; [assumption..|].
    intros [|j] d' Hj Hj'; [injection Hj' as <-; exact Hc|].
    apply (Hbefore j); [lia|exact Hj'].
Qed.

(** The codec fails exactly at the first surrogate. *)
Lemma utf8_encode_from_first pos s i c :
  nth_error s i = Some c -> is_surrogate c = true ->
  (forall j d, (j < i)%nat -> nth_error s j = Some d -> is_surrogate d = false) ->
  utf8_encode_from pos s = Err (UnicodeEncodeError (pos + i)).
Proof.
  revert pos i. induction s as [|c0 s IH]; intros pos [|i] Hi Hc Hbefore; try discriminate.
  - injection Hi as ->. simpl. rewrite Hc. now rewrite Nat.add_0_r.
  - simpl. rewrite (Hbefore 0%nat c0) by (reflexivity || lia).
    rewrite (IH (S pos) i Hi Hc); [simpl; now rewrite Nat.add_succ_r|].
    intros j d Hj. apply (Hbefore (S j)). lia.
Qed.

Lemma encodable_no_surrogate s :
  encodable s -> Forall (fun c => is_surrogate c = false) s.
Proof. apply Forall_impl. tauto. Qed.

Lemma encodable_valid s : encodable s -> valid_str s.
Proof. apply Forall_impl. tauto. Qed.

Create HintDb utf8 discriminated.
#[export] Hint Resolve encodable_no_surrogate encodable_valid : utf8.
