(* ===== verification/Artifacts.v ===== *)
(** * Artifact helpers: src/artifact_utils.py

    Five helpers read and write CSV artifacts through the invocation
    context: [list_available_artifacts], [get_latest_csv_artifact],
    [get_csv_artifact_by_version], [save_csv_artifact] and
    [get_artifact_metadata].  Each wraps its body in [try]/[except] and
    turns any exception into [None], [[]] or an error dict.

    The context is the class [ArtifactContext]: the three methods the code
    calls, with the signatures it calls them with, each able to raise.
    The store is explicit state ([Store]); the clock [datetime.now()] is a
    function of the number of calls made so far, threaded as a counter;
    [str(e)] of an exception is a parameter.  The dicts the helpers return
    are [pyval] dicts with the source's keys in the source's order.

    [InMemory] is ADK's [InMemoryArtifactService] as the helpers see it:
    a map from file names to the list of saved versions, listed in sorted
    order, loading the last version by default, saving by appending. *)

From Stdlib Require Import List ZArith Lia String Ascii Bool Sorted.
From S2P Require Import Prelude Py Utf8.
Import ListNotations.
Open Scope Z_scope.
Open Scope bool_scope.

(** ** Time stamps *)

Record datetime : Type := mk_datetime {
  dt_year : Z; dt_month : Z; dt_day : Z;
  dt_hour : Z; dt_minute : Z; dt_second : Z; dt_microsecond : Z
}.

(** The range of [datetime.now()]; four-digit years, where [%Y] and
    [isoformat] both write the year on four digits. *)
Definition valid_datetime (d : datetime) : Prop :=
  1000 <= dt_year d <= 9999 /\ 1 <= dt_month d <= 12 /\ 1 <= dt_day d <= 31 /\
  0 <= dt_hour d < 24 /\ 0 <= dt_minute d < 60 /\ 0 <= dt_second d < 60 /\
  0 <= dt_microsecond d < 1000000.

(** [n] decimal digits of [z], zero padded ([%0nd]). *)
Fixpoint zpad (n : nat) (z : Z) : pystr :=
  match n with
  | O => []
  | S n' => zpad n' (z / 10) ++ [48 + z mod 10]
  end.

(** [d.strftime("%Y%m%d_%H%M%S")] *)
Definition strftime_stamp (d : datetime) : pystr :=
  zpad 4 (dt_year d) ++ zpad 2 (dt_month d) ++ zpad 2 (dt_day d) ++ lit "_" ++
  zpad 2 (dt_hour d) ++ zpad 2 (dt_minute d) ++ zpad 2 (dt_second d).

(** [d.isoformat()]: microseconds only when not zero. *)
Definition isoformat (d : datetime) : pystr :=
  zpad 4 (dt_year d) ++ lit "-" ++ zpad 2 (dt_month d) ++ lit "-" ++ zpad 2 (dt_day d) ++
  lit "T" ++ zpad 2 (dt_hour d) ++ lit ":" ++ zpad 2 (dt_minute d) ++ lit ":" ++
  zpad 2 (dt_second d) ++
  (if dt_microsecond d =? 0 then [] else lit "." ++ zpad 6 (dt_microsecond d)).

(** ** The context the helpers call *)

Class ArtifactContext (Store : Type) := {
  (** [ctx.list_artifacts()] *)
  list_artifacts : Store -> result py_exc (list pystr);
  (** [ctx.load_artifact(filename, version=v)]; [None] when absent *)
  load_artifact : Store -> pystr -> option Z -> result py_exc (option bytes);
  (** [ctx.save_artifact(filename, data, mime_type=m)]: the new store and
      the version number *)
  save_artifact : Store -> pystr -> bytes -> pystr -> result py_exc (Store * Z)
}.

Definition opt_bytes (o : option bytes) : pyval :=
  match o with Some b => VBytes b | None => VNone end.

Definition default_pattern : pystr := lit "dialogflow_cx_training_phrases".
Definition csv_suffix : pystr := lit ".csv".
Definition name_prefix : pystr := lit "dialogflow_cx_training_phrases_".

(** The name [save_csv_artifact] makes at time [d]:
    [f"dialogflow_cx_training_phrases_{timestamp}.csv"]. *)
Definition generated_name (d : datetime) : pystr :=
  name_prefix ++ strftime_stamp d ++ csv_suffix.

Definition text_csv : pystr := lit "text/csv".

(** [[art for art in artifacts if filename_pattern in art and
    art.endswith('.csv')]] *)
Definition csv_artifacts (filename_pattern : pystr) (artifacts : list pystr) : list pystr :=
  filter (fun art => contains art filename_pattern && endswith art csv_suffix) artifacts.

Section Helpers.
Context {Store : Type} `{ArtifactContext Store}.
(** [datetime.now()] at its [n]-th call, and [str(e)]. *)
Variable now : nat -> datetime.
Variable exc_str : py_exc -> pystr.

Definition list_available_artifacts (st : Store) : list pystr :=
  match list_artifacts st with
  | Ok artifacts => artifacts
  | Err _ => []
  end.

Definition get_latest_csv_artifact (st : Store) (t : nat) (filename_pattern : pystr)
    : option pyval * nat :=
  match list_artifacts st with
  | Err _ => (None, t)
  | Ok artifacts =>
      match csv_artifacts filename_pattern artifacts with
      | [] => (None, t)
      | arts =>
          let latest_artifact := last arts [] in
          match load_artifact st latest_artifact None with
          | Err _ => (None, t)
          | Ok artifact_data =>
              (Some (VDict [(lit "filename", VStr latest_artifact);
                            (lit "data", opt_bytes artifact_data);
                            (lit "loaded_at", VStr (isoformat (now t)))]), S t)
          end
      end
  end.

Definition get_csv_artifact_by_version (st : Store) (t : nat) (filename : pystr) (version : Z)
    : option pyval * nat :=
  match load_artifact st filename (Some version) with
  | Err _ => (None, t)
  | Ok artifact_data =>
      (Some (VDict [(lit "filename", VStr filename); (lit "version", VInt version);
                    (lit "data", opt_bytes artifact_data);
                    (lit "loaded_at", VStr (isoformat (now t)))]), S t)
  end.

(** [if not filename:] a name from the clock. *)
Definition artifact_filename (t : nat) (filename : option pystr) : pystr * nat :=
  match filename with
  | Some ((_ :: _) as f) => (f, t)
  | _ => (generated_name (now t), S t)
  end.

Definition save_error (e : py_exc) (t : nat) : pyval :=
  VDict [(lit "status", VStr (lit "error")); (lit "error", VStr (exc_str e));
         (lit "saved_at", VStr (isoformat (now t)))].

(** The result dict is built after the save, calling [datetime.now()]
    and encoding the content again (which gives the same bytes). *)
Definition save_csv_artifact (st : Store) (t : nat) (csv_content : pystr)
    (filename : option pystr) : pyval * Store * nat :=
  let '(fname, t1) := artifact_filename t filename in
  match utf8_encode csv_content with
  | Err e => (save_error e t1, st, S t1)
  | Ok data =>
      match save_artifact st fname data text_csv with
      | Err e => (save_error e t1, st, S t1)
      | Ok (st', _) =>
          (VDict [(lit "status", VStr (lit "success")); (lit "filename", VStr fname);
                  (lit "saved_at", VStr (isoformat (now t1)));
                  (lit "size", VInt (Z.of_nat (List.length data)));
                  (lit "mime_type", VStr text_csv)], st', S t1)
      end
  end.

(** [len(artifact_data) if artifact_data else 0], and [0] when loading
    raises (the bare [except]). *)
Definition artifact_size (r : result py_exc (option bytes)) : Z :=
  match r with
  | Ok (Some data) => if truthy (VBytes data) then Z.of_nat (List.length data) else 0
  | _ => 0
  end.

Definition get_artifact_metadata (st : Store) (t : nat) (filename : pystr) : pyval * nat :=
  match list_artifacts st with
  | Err e =>
      (VDict [(lit "status", VStr (lit "error")); (lit "filename", VStr filename);
              (lit "error", VStr (exc_str e));
              (lit "checked_at", VStr (isoformat (now t)))], S t)
  | Ok artifacts =>
      if negb (existsb (pystr_eqb filename) artifacts) then
        (VDict [(lit "status", VStr (lit "not_found")); (lit "filename", VStr filename);
                (lit "message", VStr (lit "Artifact not found"))], t)
      else
        (VDict [(lit "status", VStr (lit "found")); (lit "filename", VStr filename);
                (lit "size", VInt (artifact_size (load_artifact st filename None)));
                (lit "type", VStr (if endswith filename csv_suffix then lit "csv"
                                   else lit "unknown"));
                (lit "checked_at", VStr (isoformat (now t)))], S t)
  end.

End Helpers.

(** ** ADK's in-memory artifact service *)

Module InMemory.

(** File names with their versions, oldest first. *)
Definition store := list (pystr * list bytes).

Fixpoint lookup (st : store) (name : pystr) : option (list bytes) :=
  match st with
  | [] => None
  | (k, vs) :: st' => if pystr_eqb k name then Some vs else lookup st' name
  end.

(** [versions.append(data)] under the name, a new name at its sorted
    place; the version is the number of earlier versions. *)
Fixpoint save (st : store) (name : pystr) (data : bytes) : store * Z :=
  match st with
  | [] => ([(name, [data])], 0)
  | (k, vs) :: st' =>
      if pystr_eqb k name then ((k, vs ++ [data]) :: st', Z.of_nat (List.length vs))
      else if str_ltb name k then ((name, [data]) :: st, 0)
      else let '(st'', v) := save st' name data in ((k, vs) :: st'', v)
  end.

(** [versions[i]], negative indices from the end. *)
Definition py_index (vs : list bytes) (i : Z) : result py_exc bytes :=
  let n := Z.of_nat (List.length vs) in
  let j := if i <? 0 then i + n else i in
  if (0 <=? j) && (j <? n) then
    match nth_error vs (Z.to_nat j) with Some b => Ok b | None => Err IndexError end
  else Err IndexError.

(** [if not versions: return None]; the last version by default. *)
Definition load (st : store) (name : pystr) (version : option Z) : result py_exc (option bytes) :=
  match lookup st name with
  | None | Some [] => Ok None
  | Some vs => rmap Some (py_index vs (match version with Some v => v | None => -1 end))
  end.

#[export] Instance context : ArtifactContext store := {
  list_artifacts st := Ok (map fst st);
  load_artifact := load;
  save_artifact st name data _ := Ok (save st name data)
}.

End InMemory.

(** ** Zero-padded numerals *)

Definition is_digit (c : Z) : bool := (48 <=? c) && (c <=? 57).

Lemma zpad_length n z : List.length (zpad n z) = n.
Proof.
  revert z. induction n as [|n IH]; intros z; [reflexivity|].
  simpl. rewrite length_app, IH. simpl. lia.
Qed.

Lemma zpad_digits n z : forallb is_digit (zpad n z) = true.
Proof.
  revert z. induction n as [|n IH]; intros z; [reflexivity|].
  cbn [zpad]. rewrite forallb_app, IH. cbn [forallb]. unfold is_digit.
  now z_cases.
Qed.

Lemma pow10_succ n : 10 ^ Z.of_nat (S n) = 10 * 10 ^ Z.of_nat n.
Proof. rewrite Nat2Z.inj_succ, Z.pow_succ_r by lia. reflexivity. Qed.

Lemma pow10_pos n : 0 < 10 ^ Z.of_nat n.
Proof. apply Z.pow_pos_nonneg; lia. Qed.

(** Numerals of [n + m] digits split into [n] and [m] digits. *)
Lemma zpad_app n m a b :
  0 <= b < 10 ^ Z.of_nat m ->
  zpad (m + n) (a * 10 ^ Z.of_nat m + b) = zpad n a ++ zpad m b.
Proof.
  revert b. induction m as [|m IH]; intros b Hb.
  - simpl in *. rewrite app_nil_r. f_equal. lia.
  - rewrite pow10_succ in *. pose proof (pow10_pos m).
    replace (S m + n)%nat with (S (m + n)) by lia. cbn [zpad].
    replace ((a * (10 * 10 ^ Z.of_nat m) + b) / 10) with (a * 10 ^ Z.of_nat m + b / 10) by zlia.
    replace ((a * (10 * 10 ^ Z.of_nat m) + b) mod 10) with (b mod 10) by zlia.
    rewrite IH by zlia. now rewrite app_assoc.
Qed.

(** Equal-width numerals compare as the numbers do. *)
Lemma zpad_ltb n a b r1 r2 :
  0 <= a < 10 ^ Z.of_nat n -> 0 <= b < 10 ^ Z.of_nat n ->
  str_ltb (zpad n a ++ r1) (zpad n b ++ r2) = (a <? b) || ((a =? b) && str_ltb r1 r2).
Proof.
  revert a b r1 r2. induction n as [|n IH]; intros a b r1 r2 Ha Hb.
  - simpl in *. replace a with 0 by lia. replace b with 0 by lia. reflexivity.
  - rewrite pow10_succ in *. pose proof (pow10_pos n). cbn [zpad].
    rewrite <- !app_assoc, IH by zlia. cbn [app str_ltb].
    z_cases; reflexivity.
Qed.

(** ** Generated names *)

Definition stamp_date (d : datetime) : Z := (dt_year d * 100 + dt_month d) * 100 + dt_day d.
Definition stamp_time (d : datetime) : Z := (dt_hour d * 100 + dt_minute d) * 100 + dt_second d.

Lemma zpad_app2 n a b :
  0 <= b < 100 -> zpad (2 + n) (a * 100 + b) = zpad n a ++ zpad 2 b.
Proof. intros Hb. apply (zpad_app n 2 a b). exact Hb. Qed.

(** The stamp is eight digits of the date, [_], six digits of the time. *)
Lemma strftime_stamp_split d :
  valid_datetime d ->
  strftime_stamp d = zpad 8 (stamp_date d) ++ lit "_" ++ zpad 6 (stamp_time d).
Proof.
  intros (Hy & Hmo & Hd & Hh & Hmi & Hs & _). unfold stamp_date, stamp_time, strftime_stamp.
  change 8%nat with (2 + (2 + 4))%nat. change 6%nat with (2 + (2 + 2))%nat.
  rewrite !zpad_app2 by lia. now rewrite <- !app_assoc.
Qed.

Lemma stamp_date_bound d : valid_datetime d -> 0 <= stamp_date d < 10 ^ Z.of_nat 8.
Proof. unfold valid_datetime, stamp_date. simpl. lia. Qed.

Lemma stamp_time_bound d : valid_datetime d -> 0 <= stamp_time d < 10 ^ Z.of_nat 6.
Proof. unfold valid_datetime, stamp_time. simpl. lia. Qed.

(** C15: The name [save_csv_artifact] generates when it is given none is
    the fixed prefix, eight digits (the date), an underscore, six digits
    (the time) and [.csv]: not a run of fourteen digits. *)
Theorem generated_name_shape d :
  valid_datetime d ->
  exists date time,
    generated_name d = name_prefix ++ date ++ lit "_" ++ time ++ csv_suffix /\
    List.length date = 8%nat /\ List.length time = 6%nat /\
    forallb is_digit (date ++ time) = true.
Proof.
  intros Hd. exists (zpad 8 (stamp_date d)), (zpad 6 (stamp_time d)).
  unfold generated_name. rewrite strftime_stamp_split by exact Hd.
  rewrite forallb_app, !zpad_length, !zpad_digits. now rewrite <- !app_assoc.
Qed.

(** C14: Generated names sort as their times do: one name is smaller than
    another, in the order [sorted()] and the artifact listing use, exactly
    when its time (to the second) is earlier. *)
Theorem generated_name_chronological d1 d2 :
  valid_datetime d1 -> valid_datetime d2 ->
  str_ltb (generated_name d1) (generated_name d2) =
  (stamp_date d1 * 10 ^ 6 + stamp_time d1 <? stamp_date d2 * 10 ^ 6 + stamp_time d2).
Proof.
  intros H1 H2. unfold generated_name. rewrite str_ltb_app_l.
  rewrite !strftime_stamp_split by assumption. rewrite <- !app_assoc.
  rewrite zpad_ltb by (apply stamp_date_bound; assumption).
  rewrite str_ltb_app_l, zpad_ltb by (apply stamp_time_bound; assumption).
  rewrite str_ltb_irrefl.
  pose proof (stamp_time_bound d1 H1). pose proof (stamp_time_bound d2 H2).
  simpl (10 ^ Z.of_nat 6) in *. now z_cases.
Qed.

(** ** What [save_csv_artifact] does *)

(** The ["status"] entry of a result dict. *)
Definition status (v : pyval) : option pyval :=
  match v with
  | VDict d => option_map snd (find (fun kv => pystr_eqb (fst kv) (lit "status")) d)
  | _ => None
  end.

Section SaveFacts.
Context {Store : Type} `{ArtifactContext Store}.
Variable now : nat -> datetime.
Variable exc_str : py_exc -> pystr.

(** C12: On text UTF-8 can encode, [save_csv_artifact] hands the context
    the text's UTF-8 bytes, which decode back to the text and number
    between one and four per character; when the context's save returns,
    the result is the success dict with that byte count as its size, the
    chosen name and the content type [text/csv], and the store is the one
    the context returned. *)
Theorem save_csv_artifact_success st t csv_content filename :
  encodable csv_content ->
  let '(fname, t1) := artifact_filename now t filename in
  exists data,
    utf8_encode csv_content = Ok data /\
    utf8_decode data = Some csv_content /\
    (List.length csv_content <= List.length data <= 4 * List.length csv_content)%nat /\
    forall st' v, save_artifact st fname data text_csv = Ok (st', v) ->
      save_csv_artifact now exc_str st t csv_content filename =
      (VDict [(lit "status", VStr (lit "success")); (lit "filename", VStr fname);
              (lit "saved_at", VStr (isoformat (now t1)));
              (lit "size", VInt (Z.of_nat (List.length data)));
              (lit "mime_type", VStr text_csv)], st', S t1).
Proof.
  intros Hc. destruct (artifact_filename now t filename) as [fname t1] eqn:Ef.
  exists (flat_map utf8_char csv_content).
  assert (He : utf8_encode csv_content = Ok (flat_map utf8_char csv_content))
    by (apply utf8_encode_from_ok; auto with utf8).
  split; [exact He|]. split; [apply utf8_decode_flat_map; auto with utf8|].
  split; [apply flat_map_utf8_length|].
  intros st' v Hs. unfold save_csv_artifact. rewrite Ef, He, Hs. reflexivity.
Qed.

(** C13: [save_csv_artifact] changes the store at most once, by one call of
    the context's save with the text's UTF-8 bytes under the chosen name,
    and then reports success; otherwise (the text cannot be encoded, or
    the context raises) the store is unchanged and the result is the error
    dict. *)
Theorem save_csv_artifact_store st t csv_content filename :
  let '(fname, _) := artifact_filename now t filename in
  let '(res, st', _) := save_csv_artifact now exc_str st t csv_content filename in
  (st' = st /\ status res = Some (VStr (lit "error"))) \/
  (exists data v, utf8_encode csv_content = Ok data /\
                  save_artifact st fname data text_csv = Ok (st', v) /\
                  status res = Some (VStr (lit "success"))).
Proof.
  unfold save_csv_artifact. destruct (artifact_filename now t filename) as [fname t1].
  destruct (utf8_encode csv_content) as [data|e]; [|left; split; reflexivity].
  destruct (save_artifact st fname data text_csv) as [[st' v]|e] eqn:Es;
    [right; exists data, v; auto|left; split; reflexivity].
Qed.

(** C17: Text with a lone surrogate is not saved: at the first one, at
    index [i], encoding raises [UnicodeEncodeError] at position [i], the
    result is the error dict reporting it, and the store is unchanged. *)
Theorem save_csv_artifact_unencodable st t csv_content filename i c :
  nth_error csv_content i = Some c -> is_surrogate c = true ->
  (forall j d, (j < i)%nat -> nth_error csv_content j = Some d -> is_surrogate d = false) ->
  let '(_, t1) := artifact_filename now t filename in
  save_csv_artifact now exc_str st t csv_content filename =
  (save_error now exc_str (UnicodeEncodeError i) t1, st, S t1).
Proof.
  intros Hi Hc Hbefore. unfold save_csv_artifact.
  destruct (artifact_filename now t filename) as [fname t1].
  unfold utf8_encode. now rewrite (utf8_encode_from_first 0 _ i c).
Qed.

End SaveFacts.

(** ** The in-memory store *)

Module InMemoryFacts.
Import InMemory.

Definition name_lt (a b : pystr) : Prop := str_ltb a b = true.

(** The store's invariant: names strictly sorted (so each appears once),
    and every name has at least one version. *)
Definition wf (st : store) : Prop :=
  StronglySorted name_lt (map fst st) /\ Forall (fun kv => snd kv <> []) st.

Lemma save_names st name data k :
  In k (map fst (fst (save st name data))) -> k = name \/ In k (map fst st).
Proof.
  induction st as [|[k' vs] st IH]; simpl; [intuition congruence|].
  destruct (pystr_eqb k' name) eqn:E.
  - apply pystr_eqb_spec in E as ->. simpl. tauto.
  - destruct (str_ltb name k'); simpl; [intuition congruence|].
    destruct (save st name data) as [st'' v] eqn:Es. simpl in *. intuition.
Qed.

Lemma name_lt_trans a b c : name_lt a b -> name_lt b c -> name_lt a c.
Proof. apply str_ltb_trans. Qed.

Lemma name_lt_neq a b : name_lt a b -> a <> b.
Proof. intros H ->. unfold name_lt in H. now rewrite str_ltb_irrefl in H. Qed.

(** [save] keeps the invariant. *)
Lemma save_wf st name data : wf st -> wf (fst (save st name data)).
Proof.
  intros [Hs Hv]. induction st as [|[k vs] st IH]; cbn [save].
  { split; repeat constructor; discriminate. }
  cbn [map fst] in Hs. inversion Hs as [|? ? Hs' Hk]; subst.
  inversion Hv as [|? ? Hvs Hv']; subst.
  destruct (pystr_eqb k name) eqn:E.
  - split; [exact Hs|]. constructor; [cbn; now destruct vs|exact Hv'].
  - destruct (str_ltb name k) eqn:Hlt.
    + split; [|constructor; [discriminate|now constructor]].
      cbn [fst map]. constructor; [exact Hs|]. constructor; [exact Hlt|].
      eapply Forall_impl; [|exact Hk]. intros x. now apply name_lt_trans.
    + pose proof (save_names st name data) as Hn.
      destruct (save st name data) as [st'' v] eqn:Es. cbn [fst map] in *.
      destruct (IH Hs' Hv') as [IHs IHv]. split; [|now constructor].
      constructor; [exact IHs|]. apply Forall_forall. intros x Hx.
      destruct (Hn x Hx) as [->|Hx'].
      * destruct (str_ltb_total k name) as [H|H]; [|exact H|congruence].
        intros ->. now rewrite (proj2 (pystr_eqb_spec _ _) eq_refl) in E.
      * rewrite Forall_forall in Hk. now apply Hk.
Qed.

Lemma pystr_eqb_refl a : pystr_eqb a a = true.
Proof. now apply pystr_eqb_spec. Qed.

Lemma pystr_eqb_neq a b : a <> b -> pystr_eqb a b = false.
Proof. intros Hne. destruct (pystr_eqb a b) eqn:E; [now apply pystr_eqb_spec in E|reflexivity]. Qed.

Lemma lookup_absent st name : Forall (name_lt name) (map fst st) -> lookup st name = None.
Proof.
  induction st as [|[k vs] st IH]; intros H; [reflexivity|].
  inversion H as [|? ? Hk H']; subst. cbn. apply name_lt_neq in Hk.
  rewrite pystr_eqb_neq by congruence. now apply IH.
Qed.

Lemma lookup_save_other st name data n :
  n <> name -> lookup (fst (save st name data)) n = lookup st n.
Proof.
  intros Hne. induction st as [|[k vs] st IH]; cbn.
  - now rewrite pystr_eqb_neq by congruence.
  - destruct (pystr_eqb k name) eqn:E.
    + apply pystr_eqb_spec in E as ->. cbn. now rewrite pystr_eqb_neq by congruence.
    + destruct (str_ltb name k); cbn; [now rewrite pystr_eqb_neq by congruence|].
      destruct (save st name data) as [st'' v]. cbn in *. now rewrite IH.
Qed.

(** Saving appends a version; the version number is the count of the
    earlier ones. *)
Lemma lookup_save_same st name data :
  StronglySorted name_lt (map fst st) ->
  lookup (fst (save st name data)) name =
    Some (match lookup st name with Some vs => vs | None => [] end ++ [data]) /\
  snd (save st name data) =
    Z.of_nat (List.length (match lookup st name with Some vs => vs | None => [] end)).
Proof.
  induction st as [|[k vs] st IH]; intros Hs; cbn; [now rewrite pystr_eqb_refl|].
  inversion Hs as [|? ? Hs' Hk]; subst.
  destruct (pystr_eqb k name) eqn:E; [cbn; now rewrite E|].
  destruct (str_ltb name k) eqn:Hlt.
  - cbn. rewrite pystr_eqb_refl, lookup_absent; [split; reflexivity|].
    eapply Forall_impl; [|exact Hk]. intros x Hx. exact (name_lt_trans _ _ _ Hlt Hx).
  - destruct (IH Hs') as [IH1 IH2]. destruct (save st name data) as [st'' v].
    cbn in *. now rewrite E.
Qed.

Lemma py_index_last vs d : py_index (vs ++ [d]) (-1) = Ok d.
Proof.
  unfold py_index. rewrite length_app. cbn [List.length].
  change (-1 <? 0) with true. cbv iota.
  replace (Z.to_nat (-1 + Z.of_nat (List.length vs + 1))) with (List.length vs) by lia.
  rewrite nth_error_app2, Nat.sub_diag by lia. cbn [nth_error]. z_cases; reflexivity.
Qed.

Lemma py_index_nat vs i b : nth_error vs i = Some b -> py_index vs (Z.of_nat i) = Ok b.
Proof.
  intros Hi. pose proof (nth_error_Some vs i) as Hlen. rewrite Hi in Hlen.
  assert (i < List.length vs)%nat by (apply Hlen; discriminate).
  unfold py_index. z_cases. now rewrite Nat2Z.id, Hi.
Qed.

Definition versions (st : store) (name : pystr) : list bytes :=
  match lookup st name with Some vs => vs | None => [] end.

Lemma load_nonempty st name vs ver :
  lookup st name = Some vs -> vs <> [] ->
  load st name ver = rmap Some (py_index vs (match ver with Some v => v | None => -1 end)).
Proof. intros Hl Hne. unfold load. rewrite Hl. now destruct vs. Qed.

Lemma py_index_default vs : vs <> [] -> py_index vs (-1) = Ok (last vs []).
Proof.
  intros Hne. rewrite (app_removelast_last [] Hne) at 1. apply py_index_last.
Qed.

(** Loading after saving: the new version is the latest and is at the
    returned version number; the earlier versions stay at theirs; other
    names are untouched. *)
Lemma load_save st name data :
  wf st ->
  let '(st', v) := save st name data in
  load st' name None = Ok (Some data) /\
  load st' name (Some v) = Ok (Some data) /\
  (forall i b, nth_error (versions st name) i = Some b ->
               load st' name (Some (Z.of_nat i)) = Ok (Some b)) /\
  (forall n ver, n <> name -> load st' n ver = load st n ver).
Proof.
  intros [Hs _]. destruct (lookup_save_same st name data Hs) as [Hl Hv].
  pose proof (lookup_save_other st name data) as Ho.
  destruct (save st name data) as [st' v]. cbn in Hl, Hv, Ho. fold (versions st name) in Hl, Hv.
  assert (Hne : versions st name ++ [data] <> []) by (destruct (versions st name); discriminate).
  repeat split.
  - rewrite (load_nonempty _ _ _ _ Hl Hne). cbn. now rewrite py_index_last.
  - rewrite (load_nonempty _ _ _ _ Hl Hne), Hv.
    rewrite (py_index_nat _ _ data); [reflexivity|].
    rewrite nth_error_app2, Nat.sub_diag by lia. reflexivity.
  - intros i b Hi. rewrite (load_nonempty _ _ _ _ Hl Hne).
    rewrite (py_index_nat _ _ b); [reflexivity|]. now rewrite nth_error_app1 by
      (apply nth_error_Some; congruence).
  - intros n ver Hn. unfold load. now rewrite Ho.
Qed.

Lemma pystr_eqb_sym a b : pystr_eqb a b = pystr_eqb b a.
Proof.
  destruct (pystr_eqb b a) eqn:E.
  - apply pystr_eqb_spec in E as ->. apply pystr_eqb_refl.
  - destruct (pystr_eqb a b) eqn:E'; [|reflexivity].
    apply pystr_eqb_spec in E' as ->. now rewrite pystr_eqb_refl in E.
Qed.

Lemma existsb_names st name :
  existsb (pystr_eqb name) (map fst st) =
  match lookup st name with Some _ => true | None => false end.
Proof.
  induction st as [|[k vs] st IH]; [reflexivity|]. cbn.
  rewrite pystr_eqb_sym. now destruct (pystr_eqb k name).
Qed.

Lemma lookup_wf_nonempty st name vs : wf st -> lookup st name = Some vs -> vs <> [].
Proof.
  intros [_ Hv]. induction st as [|[k vs'] st IH]; [discriminate|]. cbn.
  inversion Hv as [|? ? Hk Hv']; subst. destruct (pystr_eqb k name).
  - intros H. injection H as <-. exact Hk.
  - apply IH. exact Hv'.
Qed.

Lemma lookup_names st name : In name (map fst st) -> exists vs, lookup st name = Some vs.
Proof.
  intros H. pose proof (existsb_names st name) as E.
  assert (existsb (pystr_eqb name) (map fst st) = true)
    by (apply existsb_exists; exists name; split; [exact H|apply pystr_eqb_refl]).
  destruct (lookup st name); [eauto|congruence].
Qed.

Lemma sorted_filter (f : pystr -> bool) l :
  StronglySorted name_lt l -> StronglySorted name_lt (filter f l).
Proof.
  induction 1 as [|x l Hl IH Hx]; [constructor|]. cbn. destruct (f x); [|exact IH].
  constructor; [exact IH|]. apply Forall_forall. intros y Hy.
  apply filter_In in Hy as [Hy _]. rewrite Forall_forall in Hx. now apply Hx.
Qed.

Lemma last_in (l : list pystr) d : l <> [] -> In (last l d) l.
Proof.
  intros Hne. rewrite (app_removelast_last d Hne) at 2. apply in_or_app. right. now left.
Qed.

(** The last name of a sorted list is its greatest. *)
Lemma sorted_last l m d :
  StronglySorted name_lt l -> In m l -> m = last l d \/ name_lt m (last l d).
Proof.
  induction 1 as [|x l Hl IH Hx]; [contradiction|]. intros [<-|Hm].
  - destruct l as [|y l]; [now left|]. right.
    rewrite Forall_forall in Hx. apply Hx. change (In (last (y :: l) d) (y :: l)).
    apply last_in. discriminate.
  - destruct l as [|y l]; [contradiction|]. now apply IH.
Qed.

(** A name of a sorted list that no other name exceeds is its last. *)
Lemma sorted_last_max l m d :
  StronglySorted name_lt l -> In m l -> (forall x, In x l -> x = m \/ name_lt x m) ->
  last l d = m.
Proof.
  intros Hs Hm Hmax. assert (Hne : l <> []) by (intros ->; contradiction).
  destruct (Hmax _ (last_in l d Hne)) as [E|Hlt]; [exact E|].
  destruct (sorted_last l m d Hs Hm) as [E|Hlt']; [now subst|].
  destruct (name_lt_neq _ _ (name_lt_trans _ _ _ Hlt Hlt')). reflexivity.
Qed.

End InMemoryFacts.

(** ** The helpers on the in-memory store *)

Import InMemory InMemoryFacts.

Section OnInMemory.
Variable now : nat -> datetime.
Variable exc_str : py_exc -> pystr.

(** [get_latest_csv_artifact] loads [csv_artifacts[-1]], the last
    matching name of the listing, at its latest version. *)
Lemma get_latest_csv_artifact_last st t filename_pattern :
  wf st -> csv_artifacts filename_pattern (map fst st) <> [] ->
  exists vs,
    lookup st (last (csv_artifacts filename_pattern (map fst st)) []) = Some vs /\
    get_latest_csv_artifact now st t filename_pattern =
    (Some (VDict [(lit "filename", VStr (last (csv_artifacts filename_pattern (map fst st)) []));
                  (lit "data", VBytes (last vs []));
                  (lit "loaded_at", VStr (isoformat (now t)))]), S t).
Proof.
  intros Hwf Hne. unfold get_latest_csv_artifact. cbn [list_artifacts context].
  remember (csv_artifacts filename_pattern (map fst st)) as arts eqn:Ea.
  assert (Hnames : In (last arts []) (map fst st)).
  { pose proof (last_in arts [] Hne) as Hin. rewrite Ea in Hin |- *.
    apply filter_In in Hin. tauto. }
  destruct (lookup_names _ _ Hnames) as [vs Hl].
  pose proof (lookup_wf_nonempty _ _ _ Hwf Hl) as Hvs.
  exists vs. split; [exact Hl|].
  destruct arts as [|a l]; [contradiction|]. cbn [load_artifact context].
  rewrite (load_nonempty _ _ _ _ Hl Hvs), py_index_default by exact Hvs. reflexivity.
Qed.

(** C6: On the in-memory store, [get_latest_csv_artifact] returns the
    greatest matching name (names ending in [.csv] that contain the
    pattern) in [str] order, with its latest version, whenever some name
    matches: the listing is sorted, so [csv_artifacts[-1]] is the
    maximum. *)
Theorem get_latest_csv_artifact_greatest st t filename_pattern :
  wf st -> csv_artifacts filename_pattern (map fst st) <> [] ->
  exists latest vs,
    In latest (csv_artifacts filename_pattern (map fst st)) /\
    (forall m, In m (csv_artifacts filename_pattern (map fst st)) ->
               m = latest \/ str_ltb m latest = true) /\
    lookup st latest = Some vs /\
    get_latest_csv_artifact now st t filename_pattern =
    (Some (VDict [(lit "filename", VStr latest); (lit "data", VBytes (last vs []));
                  (lit "loaded_at", VStr (isoformat (now t)))]), S t).
Proof.
  intros Hwf Hne. destruct (get_latest_csv_artifact_last st t filename_pattern Hwf Hne) as (vs & Hl & E).
  exists (last (csv_artifacts filename_pattern (map fst st)) []), vs.
  split; [now apply last_in|]. split; [|now split].
  intros m Hm. apply sorted_last; [|exact Hm]. apply sorted_filter, Hwf.
Qed.

(** C5: Saving then loading on the in-memory store: [save_csv_artifact]
    under a given non-empty name keeps the store's invariant and reports
    success; the bytes it stored decode back to the text, are the latest
    version of the name and are what [get_csv_artifact_by_version]
    returns at the next version number, and the earlier versions are
    still there at theirs. *)
Theorem save_csv_artifact_then_load st t csv_content name :
  wf st -> encodable csv_content -> name <> [] ->
  let '(res, st', t') := save_csv_artifact now exc_str st t csv_content (Some name) in
  wf st' /\ status res = Some (VStr (lit "success")) /\
  exists data,
    utf8_decode data = Some csv_content /\
    load st' name None = Ok (Some data) /\
    fst (get_csv_artifact_by_version now st' t' name
           (Z.of_nat (List.length (versions st name)))) =
      Some (VDict [(lit "filename", VStr name);
                   (lit "version", VInt (Z.of_nat (List.length (versions st name))));
                   (lit "data", VBytes data);
                   (lit "loaded_at", VStr (isoformat (now t')))]) /\
    (forall i b, nth_error (versions st name) i = Some b ->
                 load st' name (Some (Z.of_nat i)) = Ok (Some b)).
Proof.
  intros Hwf Hc Hname. destruct name as [|c name]; [contradiction|].
  unfold save_csv_artifact. cbn [artifact_filename]. unfold utf8_encode.
  rewrite (utf8_encode_from_ok 0 _ (encodable_no_surrogate _ Hc)).
  cbn [save_artifact context].
  pose proof (save_wf st (c :: name) (flat_map utf8_char csv_content) Hwf) as Hwf'.
  pose proof (load_save st (c :: name) (flat_map utf8_char csv_content) Hwf) as Hls.
  pose proof (proj2 (lookup_save_same st (c :: name) (flat_map utf8_char csv_content)
                       (proj1 Hwf))) as Hv.
  destruct (save st (c :: name) (flat_map utf8_char csv_content)) as [st' v].
  cbn in Hwf', Hv. destruct Hls as (H1 & H2 & H3 & _).
  split; [exact Hwf'|]. split; [reflexivity|].
  exists (flat_map utf8_char csv_content).
  split; [apply utf8_decode_flat_map, encodable_valid, Hc|].
  split; [exact H1|]. split; [|exact H3].
  unfold get_csv_artifact_by_version. cbn [load_artifact context].
  fold (versions st (c :: name)) in Hv. rewrite <- Hv, H2. reflexivity.
Qed.

(** C18: [get_artifact_metadata] on the in-memory store: a name that was
    never saved gives the [not_found] dict; a saved one gives the [found]
    dict with the byte length of its latest version as size and type
    [csv] exactly when the name ends in [.csv]. *)
Theorem get_artifact_metadata_spec st t name :
  wf st ->
  get_artifact_metadata now exc_str st t name =
  match lookup st name with
  | None =>
      (VDict [(lit "status", VStr (lit "not_found")); (lit "filename", VStr name);
              (lit "message", VStr (lit "Artifact not found"))], t)
  | Some vs =>
      (VDict [(lit "status", VStr (lit "found")); (lit "filename", VStr name);
              (lit "size", VInt (Z.of_nat (List.length (last vs []))));
              (lit "type", VStr (if endswith name csv_suffix then lit "csv" else lit "unknown"));
              (lit "checked_at", VStr (isoformat (now t)))], S t)
  end.
Proof.
  intros Hwf. unfold get_artifact_metadata. cbn [list_artifacts context].
  rewrite existsb_names. destruct (lookup st name) as [vs|] eqn:Hl; [|reflexivity].
  cbn [negb load_artifact context].
  pose proof (lookup_wf_nonempty _ _ _ Hwf Hl) as Hvs.
  rewrite (load_nonempty _ _ _ _ Hl Hvs), py_index_default by exact Hvs.
  cbn. now destruct (last vs []).
Qed.

End OnInMemory.

(** ** Concrete runs *)

Definition demo_time : datetime := mk_datetime 2025 6 1 12 34 56 0.
Definition demo_clock (_ : nat) : datetime := demo_time.
Definition no_msg (_ : py_exc) : pystr := [].

(** ["a,b\n1,2\n"] *)
Definition scenario_text : pystr := lit "a,b" ++ [10] ++ lit "1,2" ++ [10].

Definition scenario_store : store :=
  [(lit "foo.csv", [[1]]); (lit "training_phrases_1.csv", [[2]]);
   (lit "training_phrases_2.csv", [[3]])].

Lemma demo_time_valid : valid_datetime demo_time.
Proof. unfold valid_datetime. simpl. lia. Qed.

Lemma scenario_store_wf : wf scenario_store.
Proof. split; repeat constructor; try (vm_compute; reflexivity); discriminate. Qed.

Lemma scenario_text_encodable : encodable scenario_text.
Proof. repeat constructor; vm_compute; discriminate. Qed.

Lemma generated_name_shape_witness :
  exists date time,
    generated_name demo_time = name_prefix ++ date ++ lit "_" ++ time ++ csv_suffix /\
    List.length date = 8%nat /\ List.length time = 6%nat /\
    forallb is_digit (date ++ time) = true.
Proof. apply generated_name_shape. exact demo_time_valid. Defined.

Lemma generated_name_chronological_witness :
  str_ltb (generated_name demo_time)
          (generated_name (mk_datetime 2025 6 1 12 35 0 0)) = true.
Proof.
  rewrite generated_name_chronological;
    [vm_compute; reflexivity|exact demo_time_valid|unfold valid_datetime; simpl; lia].
Defined.

Lemma save_csv_artifact_success_witness :
  exists data,
    utf8_encode scenario_text = Ok data /\
    utf8_decode data = Some scenario_text /\
    (List.length scenario_text <= List.length data <= 4 * List.length scenario_text)%nat /\
    forall st' v, save_artifact (Store := store) [] (generated_name demo_time) data text_csv =
                  Ok (st', v) ->
      save_csv_artifact demo_clock no_msg [] 0 scenario_text None =
      (VDict [(lit "status", VStr (lit "success"));
              (lit "filename", VStr (generated_name demo_time));
              (lit "saved_at", VStr (isoformat demo_time));
              (lit "size", VInt (Z.of_nat (List.length data)));
              (lit "mime_type", VStr text_csv)], st', 2%nat).
Proof.
  exact (save_csv_artifact_success demo_clock no_msg [] 0 scenario_text None
           scenario_text_encodable).
Defined.

Lemma save_csv_artifact_unencodable_witness :
  save_csv_artifact demo_clock no_msg scenario_store 0 (lit "ok" ++ [55296]) None =
  (save_error demo_clock no_msg (UnicodeEncodeError 2) 1, scenario_store, 2%nat).
Proof.
  apply (save_csv_artifact_unencodable demo_clock no_msg scenario_store 0
           (lit "ok" ++ [55296]) None 2 55296); [reflexivity|reflexivity|].
  intros [|[|j]] d Hj Hd; try lia; injection Hd as <-; reflexivity.
Defined.

Lemma get_latest_csv_artifact_greatest_witness :
  exists latest vs,
    In latest (csv_artifacts (lit "training_phrases") (map fst scenario_store)) /\
    (forall m, In m (csv_artifacts (lit "training_phrases") (map fst scenario_store)) ->
               m = latest \/ str_ltb m latest = true) /\
    lookup scenario_store latest = Some vs /\
    get_latest_csv_artifact demo_clock scenario_store 0 (lit "training_phrases") =
    (Some (VDict [(lit "filename", VStr latest); (lit "data", VBytes (last vs []));
                  (lit "loaded_at", VStr (isoformat demo_time))]), 1%nat).
Proof.
  apply get_latest_csv_artifact_greatest;
    [exact scenario_store_wf|vm_compute; discriminate].
Defined.

Lemma save_csv_artifact_then_load_witness :
  let '(res, st', t') :=
    save_csv_artifact demo_clock no_msg scenario_store 0 scenario_text
                      (Some (lit "training_phrases_2.csv")) in
  wf st' /\ status res = Some (VStr (lit "success")) /\
  exists data,
    utf8_decode data = Some scenario_text /\
    load st' (lit "training_phrases_2.csv") None = Ok (Some data) /\
    fst (get_csv_artifact_by_version demo_clock st' t' (lit "training_phrases_2.csv")
           (Z.of_nat (List.length (versions scenario_store (lit "training_phrases_2.csv"))))) =
      Some (VDict [(lit "filename", VStr (lit "training_phrases_2.csv"));
                   (lit "version", VInt (Z.of_nat (List.length
                      (versions scenario_store (lit "training_phrases_2.csv")))));
                   (lit "data", VBytes data);
                   (lit "loaded_at", VStr (isoformat (demo_clock t')))]) /\
    (forall i b, nth_error (versions scenario_store (lit "training_phrases_2.csv")) i = Some b ->
                 load st' (lit "training_phrases_2.csv") (Some (Z.of_nat i)) = Ok (Some b)).
Proof.
  apply save_csv_artifact_then_load;
    [exact scenario_store_wf|exact scenario_text_encodable|discriminate].
Defined.

Lemma get_artifact_metadata_spec_witness :
  get_artifact_metadata demo_clock no_msg scenario_store 0 (lit "foo.csv") =
  (VDict [(lit "status", VStr (lit "found")); (lit "filename", VStr (lit "foo.csv"));
          (lit "size", VInt 1); (lit "type", VStr (lit "csv"));
          (lit "checked_at", VStr (isoformat demo_time))], 1%nat).
Proof.
  rewrite get_artifact_metadata_spec by exact scenario_store_wf. vm_compute. reflexivity.
Defined.

(** The scenarios of the specification: saving ["a,b\n1,2\n"] without a
    name at 2025-06-01 12:34:56 stores eight bytes under
    [dialogflow_cx_training_phrases_20250601_123456.csv]; the latest of
    [foo.csv], [training_phrases_1.csv], [training_phrases_2.csv] matching
    [training_phrases] is [training_phrases_2.csv]. *)
Example scenario_save :
  fst (fst (save_csv_artifact demo_clock no_msg [] 0 scenario_text None)) =
  VDict [(lit "status", VStr (lit "success"));
         (lit "filename", VStr (lit "dialogflow_cx_training_phrases_20250601_123456.csv"));
         (lit "saved_at", VStr (lit "2025-06-01T12:34:56"));
         (lit "size", VInt 8); (lit "mime_type", VStr (lit "text/csv"))].
Proof. vm_compute. reflexivity. Qed.

Example scenario_latest :
  fst (get_latest_csv_artifact demo_clock scenario_store 0 (lit "training_phrases")) =
  Some (VDict [(lit "filename", VStr (lit "training_phrases_2.csv")); (lit "data", VBytes [3]);
               (lit "loaded_at", VStr (lit "2025-06-01T12:34:56"))]).
Proof. vm_compute. reflexivity. Qed.
