(* ===== verification/ArtifactService.v ===== *)
(** * ADK's in-memory artifact service, across sessions

    The helpers of src/artifact_utils.py reach artifacts through the
    invocation context, which forwards to the artifact service with the
    session's [app_name], [user_id] and [session_id].  When
    [get_artifact_service] (ArtifactConfig.v) chooses
    [InMemoryArtifactService], that service keeps one dict for every
    application, user and session: [artifacts[path]] is the list of
    versions saved under [path], and

    - [path] is [app/user/session/filename], or [app/user/user/filename]
      for a name starting with [user:] (a name the user's sessions share);
    - [save_artifact] appends a version and returns its index;
    - [load_artifact] returns the last version, or [versions[version]],
      and [None] for a path with no version;
    - [list_artifact_keys] lists the file names under the session's
      prefix and the user's prefix, [sorted()].

    [Service] models it (spec_modelled: it is google-adk's code, which the
    program only calls); [scoped_context] is the context one session sees.
    Artifacts.v proves the helpers against the single-session store
    [InMemory]; [helpers_refine] shows that a session's [view] of the
    service is such a store on which the helpers give the same results,
    so those theorems hold of the real service.  It needs scopes whose
    parts contain no [/] and sessions not named [user] (ADK session ids
    are UUIDs): otherwise two scopes can share a path.  The theorem of
    the file is about the program's [get_latest_csv_artifact] on the
    service: a [user:] CSV saved in another session of the same user
    passes the helper's filter ([in], not a prefix test) and is returned
    when its name sorts last. *)

From Stdlib Require Import List ZArith Lia String Bool Sorted Permutation Mergesort Orders.
From S2P Require Import Prelude Py Utf8 Artifacts.
Import ListNotations.
Open Scope Z_scope.

(** ** [sorted()] on [str] *)

Module StrOrder <: TotalLeBool.
Definition t := pystr.
Definition leb := str_leb.
Theorem leb_total : forall a1 a2, leb a1 a2 = true \/ leb a2 a1 = true.
Proof.
  intros a1 a2. unfold leb, str_leb.
  destruct (list_eq_dec Z.eq_dec a1 a2) as [->|Hne].
  - left. now rewrite (proj2 (pystr_eqb_spec _ _) eq_refl), orb_true_r.
  - destruct (str_ltb_total _ _ Hne) as [H|H]; [left|right]; now rewrite H.
Qed.
End StrOrder.

Module StrSort := Sort StrOrder.

(** [sorted(names)]: a stable merge sort, as CPython's. *)
Definition py_sorted (names : list pystr) : list pystr := StrSort.sort names.

Module Service.

Record scope : Type := mk_scope {
  app_name : pystr;
  user_id : pystr;
  session_id : pystr
}.

Definition slash : Z := 47.

Definition file_has_user_namespace (filename : pystr) : bool :=
  startswith filename (lit "user:").

Definition session_prefix (sc : scope) : pystr :=
  app_name sc ++ slash :: user_id sc ++ slash :: session_id sc ++ [slash].

Definition usernamespace_prefix (sc : scope) : pystr :=
  app_name sc ++ slash :: user_id sc ++ slash :: lit "user" ++ [slash].

Definition artifact_path (sc : scope) (filename : pystr) : pystr :=
  if file_has_user_namespace filename then usernamespace_prefix sc ++ filename
  else session_prefix sc ++ filename.

(** [self.artifacts]: paths with their versions, in insertion order. *)
Definition service := list (pystr * list bytes).

(** [self.artifacts.get(path)] *)
Fixpoint dict_get (svc : service) (path : pystr) : option (list bytes) :=
  match svc with
  | [] => None
  | (k, vs) :: svc' => if pystr_eqb k path then Some vs else dict_get svc' path
  end.

(** [self.artifacts[path] = vs]: in place, or a new key at the end. *)
Fixpoint dict_set (svc : service) (path : pystr) (vs : list bytes) : service :=
  match svc with
  | [] => [(path, vs)]
  | (k, vs') :: svc' =>
      if pystr_eqb k path then (k, vs) :: svc' else (k, vs') :: dict_set svc' path vs
  end.

Definition save_artifact (sc : scope) (svc : service) (filename : pystr) (artifact : bytes)
    : service * Z :=
  let path := artifact_path sc filename in
  let versions := match dict_get svc path with Some vs => vs | None => [] end in
  (dict_set svc path (versions ++ [artifact]), Z.of_nat (List.length versions)).

Definition load_artifact (sc : scope) (svc : service) (filename : pystr) (version : option Z)
    : result py_exc (option bytes) :=
  match dict_get svc (artifact_path sc filename) with
  | None | Some [] => Ok None
  | Some versions =>
      rmap Some (InMemory.py_index versions (match version with Some v => v | None => -1 end))
  end.

(** One path of the loop of [list_artifact_keys]: its file name when it
    is under the session's or the user's prefix. *)
Definition strip (sc : scope) (path : pystr) : option pystr :=
  if startswith path (session_prefix sc) then
    Some (skipn (List.length (session_prefix sc)) path)
  else if startswith path (usernamespace_prefix sc) then
    Some (skipn (List.length (usernamespace_prefix sc)) path)
  else None.

Definition list_artifact_keys (sc : scope) (svc : service) : list pystr :=
  py_sorted (flat_map (fun kv => match strip sc (fst kv) with
                                 | Some f => [f]
                                 | None => []
                                 end) svc).

(** [self.artifacts.pop(path, None)] *)
Fixpoint dict_pop (svc : service) (path : pystr) : service :=
  match svc with
  | [] => []
  | (k, vs) :: svc' => if pystr_eqb k path then svc' else (k, vs) :: dict_pop svc' path
  end.

(** [delete_artifact]: nothing when the path has no version. *)
Definition delete_artifact (sc : scope) (svc : service) (filename : pystr) : service :=
  let path := artifact_path sc filename in
  match dict_get svc path with
  | None | Some [] => svc
  | Some _ => dict_pop svc path
  end.

(** [list_versions]: [list(range(len(versions)))]. *)
Definition list_versions (sc : scope) (svc : service) (filename : pystr) : list Z :=
  match dict_get svc (artifact_path sc filename) with
  | None | Some [] => []
  | Some versions => map Z.of_nat (seq 0 (List.length versions))
  end.

(** The context of an invocation in session [sc]. *)
#[export] Instance scoped_context (sc : scope) : ArtifactContext service := {
  list_artifacts svc := Ok (list_artifact_keys sc svc);
  load_artifact := load_artifact sc;
  save_artifact svc name data _ := Ok (save_artifact sc svc name data)
}.

(** ** The session's view *)

(** What session [sc] sees: its file names in sorted order, each with
    its versions. *)
Definition view (sc : scope) (svc : service) : InMemory.store :=
  map (fun f => (f, match dict_get svc (artifact_path sc f) with Some vs => vs | None => [] end))
      (list_artifact_keys sc svc).

Definition no_slash (s : pystr) : bool := forallb (fun c => negb (c =? slash)) s.

Definition valid_scope (sc : scope) : bool :=
  no_slash (app_name sc) && no_slash (user_id sc) && no_slash (session_id sc) &&
  negb (pystr_eqb (session_id sc) (lit "user")).

(** The service's invariant: a dict (each path once), every path saved
    by a valid scope, every list of versions non-empty. *)
Definition wf_service (svc : service) : Prop :=
  NoDup (map fst svc) /\
  Forall (fun kv => snd kv <> [] /\
                    exists sc f, valid_scope sc = true /\ fst kv = artifact_path sc f) svc.

End Service.

(** ** Paths *)

Module ServiceFacts.
Import Service.

Lemma pystr_eqb_cons c d a b : pystr_eqb (c :: a) (d :: b) = (c =? d) && pystr_eqb a b.
Proof.
  apply Bool.eq_iff_eq_true. rewrite pystr_eqb_spec, andb_true_iff, Z.eqb_eq, pystr_eqb_spec.
  split; [intros [= -> ->]; auto|intros [-> ->]; reflexivity].
Qed.

(** A prefix test over segments without [/] compares them one by one. *)
Lemma startswith_seg a b r q :
  no_slash a = true -> no_slash b = true ->
  startswith (a ++ slash :: r) (b ++ slash :: q) = pystr_eqb a b && startswith r q.
Proof.
  revert b. induction a as [|c a IH]; intros [|d b] Ha Hb; cbn [app startswith].
  - now rewrite Z.eqb_refl.
  - apply andb_prop in Hb as [Hd _]. apply negb_true_iff in Hd. now rewrite Hd.
  - apply andb_prop in Ha as [Hc _]. apply negb_true_iff in Hc. now rewrite Z.eqb_sym, Hc.
  - apply andb_prop in Ha as [_ Ha]. apply andb_prop in Hb as [_ Hb].
    rewrite IH by assumption. now rewrite pystr_eqb_cons, Z.eqb_sym, andb_assoc.
Qed.

Lemma prefix_app (a u s f : pystr) :
  (a ++ slash :: u ++ slash :: s ++ [slash]) ++ f = a ++ slash :: u ++ slash :: s ++ slash :: f.
Proof. repeat (rewrite <- app_assoc; cbn [app]). reflexivity. Qed.

Lemma skipn_prefix (p f : pystr) : skipn (List.length p) (p ++ f) = f.
Proof. induction p as [|c p IH]; [reflexivity|exact IH]. Qed.

Lemma valid_scope_spec sc :
  valid_scope sc = true ->
  no_slash (app_name sc) = true /\ no_slash (user_id sc) = true /\
  no_slash (session_id sc) = true /\ pystr_eqb (session_id sc) (lit "user") = false.
Proof.
  unfold valid_scope. intros H. repeat (apply andb_prop in H as [H ?]).
  repeat split; auto. now apply negb_true_iff.
Qed.

(** Which sessions see a path under a session prefix, and under a
    user-namespace prefix. *)
Lemma strip_session_path sc sc' f :
  valid_scope sc = true -> valid_scope sc' = true ->
  strip sc (session_prefix sc' ++ f) =
  if pystr_eqb (app_name sc') (app_name sc) && pystr_eqb (user_id sc') (user_id sc) &&
     pystr_eqb (session_id sc') (session_id sc) then Some f else None.
Proof.
  intros Hv Hv'.
  destruct (valid_scope_spec sc Hv) as (Ha & Hu & Hs & Hsu).
  destruct (valid_scope_spec sc' Hv') as (Ha' & Hu' & Hs' & Hsu').
  assert (Hus : no_slash (lit "user") = true) by reflexivity.
  unfold strip, session_prefix, usernamespace_prefix.
  rewrite !prefix_app, !startswith_seg by assumption. cbn [startswith].
  rewrite ?andb_true_r, Hsu', !andb_false_r.
  destruct (pystr_eqb (app_name sc') (app_name sc)) eqn:E1; [|reflexivity].
  destruct (pystr_eqb (user_id sc') (user_id sc)) eqn:E2; [|reflexivity].
  destruct (pystr_eqb (session_id sc') (session_id sc)) eqn:E3; [|reflexivity].
  apply pystr_eqb_spec in E1, E2, E3. rewrite E1, E2, E3. cbn [andb]. f_equal.
  rewrite <- (prefix_app _ _ _ f). apply skipn_prefix.
Qed.

Lemma strip_user_path sc sc' f :
  valid_scope sc = true -> valid_scope sc' = true ->
  strip sc (usernamespace_prefix sc' ++ f) =
  if pystr_eqb (app_name sc') (app_name sc) && pystr_eqb (user_id sc') (user_id sc)
  then Some f else None.
Proof.
  intros Hv Hv'.
  destruct (valid_scope_spec sc Hv) as (Ha & Hu & Hs & Hsu).
  destruct (valid_scope_spec sc' Hv') as (Ha' & Hu' & Hs' & Hsu').
  assert (Hus : no_slash (lit "user") = true) by reflexivity.
  unfold strip, session_prefix, usernamespace_prefix.
  rewrite !prefix_app, !startswith_seg by assumption. cbn [startswith].
  rewrite ?andb_true_r, (InMemoryFacts.pystr_eqb_sym (lit "user")), Hsu, !andb_false_r.
  destruct (pystr_eqb (app_name sc') (app_name sc)) eqn:E1; [|reflexivity].
  destruct (pystr_eqb (user_id sc') (user_id sc)) eqn:E2; [|reflexivity].
  apply pystr_eqb_spec in E1, E2. rewrite E1, E2. cbn [andb]. f_equal.
  rewrite <- (prefix_app _ _ _ f). apply skipn_prefix.
Qed.

Lemma strip_self sc f : valid_scope sc = true -> strip sc (artifact_path sc f) = Some f.
Proof.
  intros Hv. unfold artifact_path. destruct (file_has_user_namespace f);
    rewrite ?strip_user_path, ?strip_session_path by exact Hv;
    now rewrite !InMemoryFacts.pystr_eqb_refl.
Qed.

(** A path the session lists is the path the session gives its name. *)
Lemma strip_key sc sc' f' f :
  valid_scope sc = true -> valid_scope sc' = true ->
  strip sc (artifact_path sc' f') = Some f ->
  f = f' /\ artifact_path sc f = artifact_path sc' f'.
Proof.
  intros Hv Hv'. unfold artifact_path at 1.
  destruct (file_has_user_namespace f') eqn:Hf;
    rewrite ?strip_user_path, ?strip_session_path by assumption;
    destruct (pystr_eqb (app_name sc') (app_name sc)) eqn:E1, (pystr_eqb (user_id sc') (user_id sc)) eqn:E2;
    cbn [andb]; try discriminate;
    try (destruct (pystr_eqb (session_id sc') (session_id sc)) eqn:E3; [|discriminate]);
    repeat match goal with H : pystr_eqb _ _ = true |- _ => apply pystr_eqb_spec in H end;
    intros [= E]; subst; split; try reflexivity;
    unfold artifact_path, usernamespace_prefix, session_prefix; rewrite ?Hf; congruence.
Qed.

Lemma artifact_path_inj sc f g :
  valid_scope sc = true -> artifact_path sc f = artifact_path sc g -> f = g.
Proof.
  intros Hv E. pose proof (strip_self sc f Hv) as Hf. rewrite E, strip_self in Hf by exact Hv.
  congruence.
Qed.

(** ** The dict *)

Lemma dict_get_In svc k v : dict_get svc k = Some v -> In (k, v) svc.
Proof.
  induction svc as [|[k' v'] svc IH]; cbn; [discriminate|].
  destruct (pystr_eqb k' k) eqn:E; [apply pystr_eqb_spec in E as ->; intros [= ->]; now left|].
  intros H. right. exact (IH H).
Qed.

Lemma In_dict_get svc k v : NoDup (map fst svc) -> In (k, v) svc -> dict_get svc k = Some v.
Proof.
  induction svc as [|[k' v'] svc IH]; cbn; [contradiction|].
  intros Hnd [[= -> ->]|Hin]; inversion Hnd as [|? ? Hk Hnd']; subst.
  - now rewrite InMemoryFacts.pystr_eqb_refl.
  - destruct (pystr_eqb k' k) eqn:E; [|exact (IH Hnd' Hin)].
    apply pystr_eqb_spec in E as ->. exfalso. apply Hk. now apply (in_map fst) in Hin.
Qed.

Lemma dict_get_set svc k v n :
  dict_get (dict_set svc k v) n = if pystr_eqb k n then Some v else dict_get svc n.
Proof.
  induction svc as [|[k' v'] svc IH]; cbn; [now destruct (pystr_eqb k n)|].
  destruct (pystr_eqb k' k) eqn:E; cbn.
  - apply pystr_eqb_spec in E as ->. now destruct (pystr_eqb k n).
  - rewrite IH. destruct (pystr_eqb k' n) eqn:E'; [|reflexivity].
    apply pystr_eqb_spec in E' as ->. rewrite InMemoryFacts.pystr_eqb_sym, E. reflexivity.
Qed.

Lemma dict_set_keys svc k v :
  map fst (dict_set svc k v) =
  match dict_get svc k with Some _ => map fst svc | None => map fst svc ++ [k] end.
Proof.
  induction svc as [|[k' v'] svc IH]; cbn; [reflexivity|].
  destruct (pystr_eqb k' k) eqn:E; cbn; [now apply pystr_eqb_spec in E as ->|].
  rewrite IH. now destruct (dict_get svc k).
Qed.

Lemma dict_set_In svc k v kv : In kv (dict_set svc k v) -> In kv svc \/ kv = (k, v).
Proof.
  induction svc as [|[k' v'] svc IH]; cbn; [intuition|].
  destruct (pystr_eqb k' k) eqn:E; cbn.
  - apply pystr_eqb_spec in E as ->. intuition.
  - intros [<-|H]; [auto|]. destruct (IH H); auto.
Qed.

Lemma dict_get_None_notin svc k : dict_get svc k = None -> ~ In k (map fst svc).
Proof.
  induction svc as [|[k' v'] svc IH]; cbn; [auto|].
  destruct (pystr_eqb k' k) eqn:E; [discriminate|].
  intros H [->|Hin]; [now rewrite InMemoryFacts.pystr_eqb_refl in E|exact (IH H Hin)].
Qed.

(** ** What a session sees *)

(** The names of the loop of [list_artifact_keys], before sorting. *)
Definition visible (sc : scope) (svc : service) : list pystr :=
  flat_map (fun kv => match strip sc (fst kv) with Some f => [f] | None => [] end) svc.

Definition entry_ok (kv : pystr * list bytes) : Prop :=
  snd kv <> [] /\ exists sc f, valid_scope sc = true /\ fst kv = artifact_path sc f.

Lemma strip_entry sc kv f :
  valid_scope sc = true -> entry_ok kv -> strip sc (fst kv) = Some f ->
  fst kv = artifact_path sc f.
Proof.
  intros Hv [_ (sc' & f' & Hv' & ->)] Hs. now destruct (strip_key _ _ _ _ Hv Hv' Hs) as [-> ->].
Qed.

Lemma in_visible sc svc f :
  wf_service svc -> valid_scope sc = true ->
  In f (visible sc svc) <-> exists vs, dict_get svc (artifact_path sc f) = Some vs.
Proof.
  intros [Hnd Hok] Hv. unfold visible. rewrite in_flat_map. split.
  - intros [kv [Hin Hf]]. destruct (strip sc (fst kv)) as [g|] eqn:Hs; [|contradiction].
    destruct Hf as [<-|[]]. rewrite Forall_forall in Hok.
    rewrite <- (strip_entry sc kv g Hv (Hok _ Hin) Hs). exists (snd kv).
    apply In_dict_get; [exact Hnd|]. now destruct kv.
  - intros [vs Hg]. exists (artifact_path sc f, vs). split; [now apply dict_get_In|].
    cbn. rewrite strip_self by exact Hv. now left.
Qed.

Lemma visible_NoDup sc svc : wf_service svc -> valid_scope sc = true -> NoDup (visible sc svc).
Proof.
  intros [Hnd Hok] Hv. induction svc as [|kv svc IH]; [constructor|].
  inversion Hnd as [|? ? Hk Hnd']; subst. inversion Hok as [|? ? Hkv Hok']; subst.
  specialize (IH Hnd' Hok'). cbn [visible flat_map]. fold (visible sc svc).
  destruct (strip sc (fst kv)) as [f|] eqn:Hs; [|exact IH].
  cbn [app]. constructor; [|exact IH]. intros Hin. apply Hk.
  unfold visible in Hin. apply in_flat_map in Hin as [kv' [Hin' Hf]].
  destruct (strip sc (fst kv')) as [g|] eqn:Hs'; [|contradiction]. destruct Hf as [->|[]].
  rewrite Forall_forall in Hok'.
  rewrite (strip_entry sc kv f Hv Hkv Hs), <- (strip_entry sc kv' f Hv (Hok' _ Hin') Hs').
  now apply in_map.
Qed.

Lemma str_leb_trans : Transitive (fun a b => str_leb a b = true).
Proof.
  intros a b c. unfold str_leb. rewrite !orb_true_iff, !pystr_eqb_spec.
  intros [Hab| ->] [Hbc| ->]; auto. left. exact (str_ltb_trans _ _ _ Hab Hbc).
Qed.

Lemma sorted_leb_ltb l :
  StronglySorted (fun a b => str_leb a b = true) l -> NoDup l -> StronglySorted InMemoryFacts.name_lt l.
Proof.
  induction 1 as [|a l Hs IH Ha]; intros Hnd; [constructor|].
  inversion Hnd as [|? ? Hnin Hnd']; subst. constructor; [exact (IH Hnd')|].
  rewrite Forall_forall in *. intros b Hb. specialize (Ha b Hb). unfold str_leb in Ha.
  apply orb_true_iff in Ha as [Ha|Ha]; [exact Ha|]. apply pystr_eqb_spec in Ha as ->. contradiction.
Qed.

(** The listing holds the visible names. *)
Lemma list_artifact_keys_in sc svc f :
  In f (list_artifact_keys sc svc) <-> In f (visible sc svc).
Proof.
  assert (Hp : Permutation (visible sc svc) (list_artifact_keys sc svc))
    by first [apply StrSort.Permuted_sort|reflexivity].
  split; apply Permutation_in; [apply Permutation_sym|]; exact Hp.
Qed.

(** The listing is sorted, each name once. *)
Lemma list_artifact_keys_sorted sc svc :
  wf_service svc -> valid_scope sc = true ->
  StronglySorted InMemoryFacts.name_lt (list_artifact_keys sc svc).
Proof.
  intros Hwf Hv. pose proof (StrSort.Permuted_sort (visible sc svc)) as Hp.
  apply sorted_leb_ltb.
  - apply (StrSort.StronglySorted_sort (visible sc svc) str_leb_trans).
  - exact (Permutation_NoDup Hp (visible_NoDup sc svc Hwf Hv)).
Qed.

Lemma lookup_map_in (g : pystr -> list bytes) ks n :
  In n ks -> InMemory.lookup (map (fun f => (f, g f)) ks) n = Some (g n).
Proof.
  induction ks as [|k ks IH]; [contradiction|]. cbn.
  destruct (pystr_eqb k n) eqn:E; [now apply pystr_eqb_spec in E as ->|].
  intros [->|Hin]; [now rewrite InMemoryFacts.pystr_eqb_refl in E|exact (IH Hin)].
Qed.

Lemma lookup_map_notin (g : pystr -> list bytes) ks n :
  ~ In n ks -> InMemory.lookup (map (fun f => (f, g f)) ks) n = None.
Proof.
  induction ks as [|k ks IH]; [reflexivity|]. cbn. intros Hn.
  destruct (pystr_eqb k n) eqn:E; [apply pystr_eqb_spec in E as ->; now destruct Hn; left|].
  apply IH. intros Hin. apply Hn. now right.
Qed.

(** A name in the session's view holds the versions of its path. *)
Lemma lookup_view sc svc n :
  wf_service svc -> valid_scope sc = true ->
  InMemory.lookup (view sc svc) n = dict_get svc (artifact_path sc n).
Proof.
  intros Hwf Hv. pose proof (list_artifact_keys_in sc svc) as Hin. unfold view.
  destruct (in_dec (list_eq_dec Z.eq_dec) n (list_artifact_keys sc svc)) as [H|H].
  - rewrite lookup_map_in by exact H. apply Hin, (in_visible sc svc n Hwf Hv) in H as [vs ->].
    reflexivity.
  - rewrite lookup_map_notin by exact H.
    destruct (dict_get svc (artifact_path sc n)) eqn:E; [|reflexivity].
    exfalso. apply H, Hin, (in_visible sc svc n Hwf Hv). eauto.
Qed.

Lemma view_wf sc svc :
  wf_service svc -> valid_scope sc = true -> InMemoryFacts.wf (view sc svc).
Proof.
  intros Hwf Hv. pose proof (list_artifact_keys_in sc svc) as Hin.
  pose proof (list_artifact_keys_sorted sc svc Hwf Hv) as Hs. split.
  - unfold view. rewrite map_map. cbn. now rewrite map_id.
  - apply Forall_forall. intros [f vs] Hf. unfold view in Hf. apply in_map_iff in Hf as [g [[= <- <-] Hg]].
    apply Hin, (in_visible sc svc g Hwf Hv) in Hg as [vs' E]. rewrite E.
    destruct Hwf as [_ Hok]. rewrite Forall_forall in Hok.
    exact (proj1 (Hok _ (dict_get_In _ _ _ E))).
Qed.

Lemma wf_save sc svc f d :
  wf_service svc -> valid_scope sc = true -> wf_service (fst (save_artifact sc svc f d)).
Proof.
  intros [Hnd Hok] Hv. unfold save_artifact. cbn [fst]. split.
  - rewrite dict_set_keys. destruct (dict_get svc (artifact_path sc f)) eqn:E; [exact Hnd|].
    apply (Permutation_NoDup (Permutation_cons_append _ _)).
    constructor; [exact (dict_get_None_notin _ _ E)|exact Hnd].
  - apply Forall_forall. intros kv Hkv. apply dict_set_In in Hkv as [Hkv| ->].
    + rewrite Forall_forall in Hok. exact (Hok _ Hkv).
    + split; [cbn; now destruct (match _ with Some vs => vs | None => [] end)|].
      exists sc, f. split; [exact Hv|reflexivity].
Qed.

Lemma lookup_Some_in st n vs : InMemory.lookup st n = Some vs -> In n (map fst st).
Proof.
  induction st as [|[k v] st IH]; cbn; [discriminate|].
  destruct (pystr_eqb k n) eqn:E; [apply pystr_eqb_spec in E as ->; auto|].
  intros H. right. exact (IH H).
Qed.

(** Two sorted stores with the same lookups are equal. *)
Lemma store_ext s1 s2 :
  StronglySorted InMemoryFacts.name_lt (map fst s1) ->
  StronglySorted InMemoryFacts.name_lt (map fst s2) ->
  (forall n, InMemory.lookup s1 n = InMemory.lookup s2 n) -> s1 = s2.
Proof.
  revert s2. induction s1 as [|[k1 v1] r1 IH]; intros [|[k2 v2] r2] S1 S2 H; [reflexivity| | |].
  - specialize (H k2). cbn in H. now rewrite InMemoryFacts.pystr_eqb_refl in H.
  - specialize (H k1). cbn in H. now rewrite InMemoryFacts.pystr_eqb_refl in H.
  - cbn [map] in S1, S2. inversion S1 as [|? ? S1' F1]; inversion S2 as [|? ? S2' F2]; subst.
    rewrite Forall_forall in F1, F2.
    assert (k1 = k2) as <-.
    { destruct (list_eq_dec Z.eq_dec k1 k2) as [E|Hne]; [exact E|exfalso].
      pose proof (H k1) as H1. pose proof (H k2) as H2. cbn in H1, H2.
      rewrite InMemoryFacts.pystr_eqb_refl, InMemoryFacts.pystr_eqb_neq in H1 by congruence.
      rewrite InMemoryFacts.pystr_eqb_refl, InMemoryFacts.pystr_eqb_neq in H2 by congruence.
      symmetry in H1. apply lookup_Some_in, F2 in H1. apply lookup_Some_in, F1 in H2.
      unfold InMemoryFacts.name_lt in *. rewrite (str_ltb_asym _ _ H1) in H2. discriminate. }
    pose proof (H k1) as Hv. cbn in Hv. rewrite InMemoryFacts.pystr_eqb_refl in Hv. injection Hv as <-.
    f_equal. apply IH; [exact S1'|exact S2'|]. intros n.
    destruct (list_eq_dec Z.eq_dec k1 n) as [<-|Hne].
    + rewrite !InMemoryFacts.lookup_absent; [reflexivity| |];
        apply Forall_forall; intros; [apply F2|apply F1]; assumption.
    + specialize (H n). cbn in H. now rewrite InMemoryFacts.pystr_eqb_neq in H.
Qed.

Lemma dict_get_pop svc k n :
  NoDup (map fst svc) ->
  dict_get (dict_pop svc k) n = if pystr_eqb k n then None else dict_get svc n.
Proof.
  induction svc as [|[k' v'] svc IH]; intros Hnd; cbn; [now destruct (pystr_eqb k n)|].
  inversion Hnd as [|? ? Hk Hnd']; subst.
  destruct (pystr_eqb k' k) eqn:E; cbn.
  - apply pystr_eqb_spec in E as ->. destruct (pystr_eqb k n) eqn:E'; [|reflexivity].
    apply pystr_eqb_spec in E' as ->. destruct (dict_get svc n) eqn:G; [|reflexivity].
    exfalso. apply Hk. apply dict_get_In in G. now apply (in_map fst) in G.
  - rewrite IH by exact Hnd'. destruct (pystr_eqb k' n) eqn:E'; [|reflexivity].
    apply pystr_eqb_spec in E' as ->. now rewrite InMemoryFacts.pystr_eqb_sym, E.
Qed.

(** After [delete_artifact] the name has no version left, and every other
    name of the session keeps its versions. *)
Lemma delete_artifact_load sc svc f g v :
  NoDup (map fst svc) -> valid_scope sc = true ->
  load_artifact sc (delete_artifact sc svc f) g v =
  if pystr_eqb f g then Ok None else load_artifact sc svc g v.
Proof.
  intros Hnd Hv. unfold delete_artifact.
  destruct (pystr_eqb f g) eqn:E.
  - apply pystr_eqb_spec in E as <-. unfold load_artifact.
    destruct (dict_get svc (artifact_path sc f)) as [[|b vs]|] eqn:G; rewrite ?G; try reflexivity.
    now rewrite dict_get_pop, InMemoryFacts.pystr_eqb_refl.
  - destruct (dict_get svc (artifact_path sc f)) as [[|b vs]|]; try reflexivity.
    unfold load_artifact. rewrite dict_get_pop by exact Hnd.
    rewrite InMemoryFacts.pystr_eqb_neq; [reflexivity|]. intros Ep.
    apply artifact_path_inj in Ep; [|exact Hv]. subst. now rewrite InMemoryFacts.pystr_eqb_refl in E.
Qed.

(** [list_versions] numbers the versions [load_artifact] returns. *)
Lemma list_versions_load sc svc f i :
  In i (list_versions sc svc f) ->
  exists b, load_artifact sc svc f (Some i) = Ok (Some b).
Proof.
  unfold list_versions, load_artifact.
  destruct (dict_get svc (artifact_path sc f)) as [[|b0 vs]|]; try contradiction.
  intros Hi. apply in_map_iff in Hi as [j [<- Hj]]. apply in_seq in Hj.
  destruct (nth_error (b0 :: vs) j) as [b|] eqn:N.
  - exists b. now rewrite (InMemoryFacts.py_index_nat _ _ _ N).
  - apply nth_error_None in N. lia.
Qed.

Lemma keys_view sc svc : list_artifact_keys sc svc = map fst (view sc svc).
Proof. unfold view. rewrite map_map. cbn. now rewrite map_id. Qed.

End ServiceFacts.

(** ** Refinement *)

Section Refinement.
Import Service ServiceFacts.

(** Saving in the service saves in the session's view. *)
Lemma view_save sc svc f d :
  wf_service svc -> valid_scope sc = true ->
  view sc (fst (save_artifact sc svc f d)) = fst (InMemory.save (view sc svc) f d) /\
  snd (save_artifact sc svc f d) = snd (InMemory.save (view sc svc) f d).
Proof.
  intros Hwf Hv. pose proof (wf_save sc svc f d Hwf Hv) as Hwf'.
  pose proof (view_wf sc svc Hwf Hv) as Hw. destruct Hw as [Hs Hne].
  destruct (InMemoryFacts.lookup_save_same (view sc svc) f d Hs) as [Hl Hver].
  rewrite lookup_view in Hl, Hver by assumption. split.
  - apply store_ext; [apply (view_wf _ _ Hwf' Hv)|apply (InMemoryFacts.save_wf _ _ _ (conj Hs Hne))|].
    intros n. rewrite lookup_view by assumption. unfold save_artifact. cbn [fst].
    rewrite dict_get_set. destruct (list_eq_dec Z.eq_dec n f) as [->|Hnf].
    + now rewrite InMemoryFacts.pystr_eqb_refl, Hl.
    + rewrite InMemoryFacts.lookup_save_other, lookup_view by assumption.
      rewrite InMemoryFacts.pystr_eqb_neq; [reflexivity|].
      intros E. apply Hnf. symmetry. exact (artifact_path_inj sc f n Hv E).
  - rewrite Hver. reflexivity.
Qed.

(** The helpers of artifact_utils.py give the same results on the
    service as on the session's view, and a save leaves the service with
    the view the store would have. *)
Lemma helpers_refine sc svc (now : nat -> datetime) (exc_str : py_exc -> pystr) :
  valid_scope sc = true -> wf_service svc ->
  @list_available_artifacts _ (scoped_context sc) svc =
    @list_available_artifacts _ InMemory.context (view sc svc) /\
  (forall t p, @get_latest_csv_artifact _ (scoped_context sc) now svc t p =
               @get_latest_csv_artifact _ InMemory.context now (view sc svc) t p) /\
  (forall t f v, @get_csv_artifact_by_version _ (scoped_context sc) now svc t f v =
                 @get_csv_artifact_by_version _ InMemory.context now (view sc svc) t f v) /\
  (forall t f, @get_artifact_metadata _ (scoped_context sc) now exc_str svc t f =
               @get_artifact_metadata _ InMemory.context now exc_str (view sc svc) t f) /\
  (forall t c fn,
     let '(r1, svc', t1) := @save_csv_artifact _ (scoped_context sc) now exc_str svc t c fn in
     let '(r2, st', t2) := @save_csv_artifact _ InMemory.context now exc_str (view sc svc) t c fn in
     r1 = r2 /\ t1 = t2 /\ wf_service svc' /\ view sc svc' = st').
Proof.
  intros Hv Hwf.
  pose proof (keys_view sc svc) as Hk.
  assert (Hl : forall f v, Service.load_artifact sc svc f v = InMemory.load (view sc svc) f v)
    by (intros f v; unfold Service.load_artifact, InMemory.load; now rewrite lookup_view).
  unfold list_available_artifacts, get_latest_csv_artifact, get_csv_artifact_by_version,
    get_artifact_metadata, save_csv_artifact;
    cbn [Artifacts.list_artifacts Artifacts.load_artifact Artifacts.save_artifact
         scoped_context InMemory.context].
  rewrite Hk. cbv beta iota zeta.
  split; [reflexivity|]. split.
  { intros t p. destruct (csv_artifacts p (map fst (view sc svc))); [reflexivity|].
    now rewrite Hl. }
  split; [intros t f v; now rewrite Hl|]. split.
  { intros t f. destruct (negb _); [reflexivity|]. now rewrite Hl. }
  intros t c fn. destruct (artifact_filename now t fn) as [fname t1].
  destruct (utf8_encode c) as [data|e]; cbv beta iota zeta; [|now split; [|split; [|split]]].
  destruct (view_save sc svc fname data Hwf Hv) as [E1 E2].
  destruct (InMemory.save (view sc svc) fname data) as [st' v] eqn:Es. cbn in E1.
  split; [reflexivity|]. split; [reflexivity|].
  split; [exact (wf_save sc svc fname data Hwf Hv)|exact E1].
Qed.

(** A [user:] name lives under the user's prefix, so a save of it in
    one session is a save in the view of every session of the user. *)
Lemma view_user_save sc1 sc2 svc f d :
  valid_scope sc2 = true -> wf_service svc ->
  app_name sc1 = app_name sc2 -> user_id sc1 = user_id sc2 -> file_has_user_namespace f = true ->
  view sc2 (fst (save_artifact sc1 svc f d)) = fst (InMemory.save (view sc2 svc) f d).
Proof.
  intros Hv2 Hwf Ha Hu Hf.
  replace (save_artifact sc1 svc f d) with (save_artifact sc2 svc f d)
    by (unfold save_artifact, artifact_path, usernamespace_prefix; now rewrite Hf, Ha, Hu).
  exact (proj1 (view_save sc2 svc f d Hwf Hv2)).
Qed.

(** C19: [get_latest_csv_artifact] run in session [sc2] returns a [user:]
    CSV that a session [sc1] of the same user saved (another session, or
    [sc2] itself), with the data just saved, whenever its name contains
    the pattern, ends in [.csv] and no matching name [sc2] already sees
    sorts after it: the helper filters the merged listing of the
    session's and the user's names with [in], and [csv_artifacts[-1]] is
    the greatest of them. *)
Theorem get_latest_cross_session sc1 sc2 svc f d now t p :
  valid_scope sc1 = true -> valid_scope sc2 = true -> wf_service svc ->
  app_name sc1 = app_name sc2 -> user_id sc1 = user_id sc2 ->
  file_has_user_namespace f = true -> contains f p = true -> endswith f csv_suffix = true ->
  (forall g, In g (csv_artifacts p (list_artifact_keys sc2 svc)) -> g = f \/ str_ltb g f = true) ->
  @get_latest_csv_artifact _ (scoped_context sc2) now (fst (save_artifact sc1 svc f d)) t p =
  (Some (VDict [(lit "filename", VStr f); (lit "data", VBytes d);
                (lit "loaded_at", VStr (isoformat (now t)))]), S t).
Proof.
  intros Hv1 Hv2 Hwf Ha Hu Hf Hc He Hmax.
  destruct (helpers_refine sc2 _ now (fun _ => []) Hv2 (wf_save sc1 svc f d Hwf Hv1)) as (_ & Hg & _).
  rewrite Hg, (view_user_save sc1 sc2 svc f d Hv2 Hwf Ha Hu Hf).
  pose proof (view_wf sc2 svc Hwf Hv2) as Hw.
  destruct (InMemoryFacts.lookup_save_same (view sc2 svc) f d (proj1 Hw)) as [Hl _].
  pose proof (InMemoryFacts.save_wf _ f d Hw) as Hw'.
  set (st := fst (InMemory.save (view sc2 svc) f d)) in *.
  assert (Hin : In f (csv_artifacts p (map fst st)))
    by (apply filter_In; split; [exact (lookup_Some_in _ _ _ Hl)|now rewrite Hc, He]).
  assert (Hlast : last (csv_artifacts p (map fst st)) [] = f).
  { apply InMemoryFacts.sorted_last_max; [apply InMemoryFacts.sorted_filter, Hw'|exact Hin|].
    intros x Hx. apply filter_In in Hx as [Hx Hm].
    apply InMemoryFacts.save_names in Hx as [->|Hx]; [now left|].
    apply Hmax. apply filter_In. rewrite keys_view. now split. }
  destruct (get_latest_csv_artifact_last now st t p Hw' ltac:(intros E; now rewrite E in Hin))
    as (vs & Hl' & E).
  rewrite E, Hlast. rewrite Hlast, Hl in Hl'. injection Hl' as <-. now rewrite last_last.
Qed.

End Refinement.

(** ** Two sessions of one user *)

Definition demo_scope (session : string) : Service.scope :=
  Service.mk_scope (lit "no_match_agent") (lit "analyst") (lit session).

Definition shared_name : pystr := lit "user:dialogflow_cx_training_phrases_20250101_000000.csv".

Definition own_name : pystr := lit "dialogflow_cx_training_phrases_20250601_120000.csv".

(** Session [s2] saved a later file of its own; session [s1] then saves
    a [user:] file dated earlier, which [s2]'s helper returns. *)
Lemma get_latest_cross_session_witness :
  @get_latest_csv_artifact _ (Service.scoped_context (demo_scope "s2")) demo_clock
    (fst (Service.save_artifact (demo_scope "s1")
            (fst (Service.save_artifact (demo_scope "s2") [] own_name [98])) shared_name [97]))
    0 default_pattern =
  (Some (VDict [(lit "filename", VStr shared_name); (lit "data", VBytes [97]);
                (lit "loaded_at", VStr (isoformat (demo_clock 0)))]), 1%nat).
Proof.
  apply get_latest_cross_session; try (vm_compute; reflexivity).
  - apply ServiceFacts.wf_save; [split; constructor|vm_compute; reflexivity].
  - intros g Hg. vm_compute in Hg. destruct Hg as [<-|[]]. right. vm_compute. reflexivity.
Defined.

(** [get_latest_csv_artifact] takes the greatest name in [str] order: a
    [user:] name saved in an earlier session sorts after every session
    name ('u' > 'd'), so it is returned although session [s2] saved a
    later file. *)
Example get_latest_prefers_user_namespace :
  let svc1 := fst (Service.save_artifact (demo_scope "s1") [] shared_name [97]) in
  let svc2 := fst (Service.save_artifact (demo_scope "s2") svc1 own_name [98]) in
  fst (@get_latest_csv_artifact _ (Service.scoped_context (demo_scope "s2")) demo_clock svc2 0
         default_pattern) =
  Some (VDict [(lit "filename", VStr shared_name); (lit "data", VBytes [97]);
               (lit "loaded_at", VStr (isoformat demo_time))]).
Proof. vm_compute. reflexivity. Qed.
