(* ===== verification/ArtifactConfig.v ===== *)
(** * Choosing the artifact service: src/artifact_config.py

    [get_artifact_service] reads [GCS_BUCKET_NAME] from the environment:
    a set, non-empty name other than the placeholder of the sample
    configuration selects [GcsArtifactService(bucket_name=...)], whose
    constructor may raise (then the in-memory service is used); anything
    else selects [InMemoryArtifactService].
    [configure_artifact_service_for_runner] stores the choice in the
    runner.  The constructor of the cloud service is the class
    [GcsConstructor]; the environment is [Environ] of InitState.v. *)

From stdpp Require Import strings list.
From S2P Require Import Prelude Py InitState.

Inductive artifact_service : Type :=
| GcsArtifactService (bucket_name : pystr)
| InMemoryArtifactService.

Class GcsConstructor := {
  (** the exception [GcsArtifactService(bucket_name=b)] raises, if any *)
  gcs_init : pystr -> option py_exc
}.

Definition placeholder_bucket : pystr := lit "your-no-match-analysis-artifacts".

Definition get_artifact_service `{Environ} `{GcsConstructor} : artifact_service :=
  match getenv "GCS_BUCKET_NAME" with
  | Some bucket_name =>
      if truthy (VStr bucket_name) && negb (pystr_eqb bucket_name placeholder_bucket) then
        match gcs_init bucket_name with
        | None => GcsArtifactService bucket_name
        | Some _ => InMemoryArtifactService
        end
      else InMemoryArtifactService
  | None => InMemoryArtifactService
  end.

(** The part of an ADK [Runner] the configuration touches. *)
Record runner : Type := mk_runner {
  runner_agent : string;
  runner_artifact_service : option artifact_service
}.

Definition configure_artifact_service_for_runner `{Environ} `{GcsConstructor}
    (r : runner) : runner :=
  {| runner_agent := runner_agent r;
     runner_artifact_service := Some get_artifact_service |}.

(** C11: The decision table of [get_artifact_service]: the cloud service
    is used, with the environment's bucket, exactly when [GCS_BUCKET_NAME]
    is set, non-empty, not the placeholder, and the service's constructor
    does not raise; in every other case the in-memory service is used. *)
Theorem get_artifact_service_table `{Environ} `{GcsConstructor} :
  (forall b, get_artifact_service = GcsArtifactService b <->
     getenv "GCS_BUCKET_NAME" = Some b /\ b <> [] /\ b <> placeholder_bucket /\
     gcs_init b = None) /\
  (get_artifact_service = InMemoryArtifactService <->
     match getenv "GCS_BUCKET_NAME" with
     | None => True
     | Some b => b = [] \/ b = placeholder_bucket \/ gcs_init b <> None
     end).
Proof.
  unfold get_artifact_service.
  destruct (getenv "GCS_BUCKET_NAME") as [b|].
  2: { split; [intros b; split; [discriminate|intros [[=] _]]|tauto]. }
  destruct b as [|c b]; cbn [truthy andb].
  { split; [intros b'; split; [discriminate|intros ([=<-] & Hne & _); congruence]|tauto]. }
  destruct (pystr_eqb (c :: b) placeholder_bucket) eqn:Ep; cbn [negb].
  { apply pystr_eqb_spec in Ep. split; [|tauto].
    intros b'. split; [discriminate|intros ([=<-] & _ & Hne & _); congruence]. }
  assert (Hnp : c :: b <> placeholder_bucket) by (intros Heq; apply pystr_eqb_spec in Heq; congruence).
  destruct (gcs_init (c :: b)) as [e|] eqn:Eg.
  - split; [intros b'; split; [discriminate|intros ([=<-] & _ & _ & Hg); congruence]|].
    split; [intros _; right; right; congruence|reflexivity].
  - split.
    + intros b'. split; [intros [=<-]; repeat split; congruence|intros ([=<-] & _); reflexivity].
    + split; [discriminate|intros [|[|]]; congruence].
Qed.

(** ** The scenarios of the specification *)

Definition env_with_bucket (b : option pystr) : Environ :=
  {| getenv k := if String.eqb k "GCS_BUCKET_NAME" then b else None |}.

Definition gcs_ok : GcsConstructor := {| gcs_init _ := None |}.

Example scenario_bucket_unset :
  @get_artifact_service (env_with_bucket None) gcs_ok = InMemoryArtifactService.
Proof. reflexivity. Qed.

Example scenario_bucket_placeholder :
  @get_artifact_service (env_with_bucket (Some placeholder_bucket)) gcs_ok =
  InMemoryArtifactService.
Proof. vm_compute. reflexivity. Qed.

Example scenario_bucket_set :
  @get_artifact_service (env_with_bucket (Some (lit "prod-artifacts"))) gcs_ok =
  GcsArtifactService (lit "prod-artifacts").
Proof. vm_compute. reflexivity. Qed.
