(* ===== verification/Imports.v ===== *)
(** * Importing the program's modules

    The scripts (src/verify_implementation.py, src/test_agent.py,
    src/test_integration.py) check the installation by importing the
    program's modules inside [try] blocks.  Whether an import succeeds is
    decided by the import statements at the top of each module of src/:
    an import of a module of the repository runs that module's imports in
    turn and then looks up the names asked for among the names the module
    defines; a module of Python's standard library always imports; any
    other module comes from a third-party distribution, which must be
    installed.  The installed distributions are the class [Packages]
    ([pkg_installed], the oracle [__import__(name)] asks).

    [module_table] is the repository: every module under src/ with its
    import statements, as written, and its top-level names.  [import_ok]
    runs the imports with fuel (one unit per nested import), and
    [importable] gives it one unit per module, more than the longest
    chain of nested imports (four), since the import graph has no cycle.  [packages_needed] is a
    reference: the distributions a module's imports reach. *)

From Stdlib Require Import List String Bool Arith Lia.
From S2P Require Import Prelude.
Import ListNotations.
Local Open Scope string_scope.

Inductive import_stmt : Type :=
| Import (m : string)
| FromImport (m : string) (names : list string).

Record py_module : Type := mk_module {
  mod_imports : list import_stmt;
  mod_names : list string
}.

(** ** The modules of src/ *)

(** The top-level names each module defines (its [def] statements and
    module-level assignments), as far as other modules import them. *)
Definition agent_names : list string := ["no_match_analysis_orchestrator"; "root_agent"].
Definition retrieval_agent_names : list string := ["conversation_data_retrieval_agent"].
Definition analysis_agent_names : list string := ["no_match_analysis_agent"].
Definition parser_agent_names : list string := ["dialogflow_cx_parser_agent"].
Definition csv_agent_names : list string := ["csv_generation_agent"].
Definition retrieval_prompts_names : list string := ["CONVERSATION_DATA_RETRIEVAL_INSTRUCTION_STR"].
Definition analysis_prompts_names : list string := ["NO_MATCH_ANALYSIS_INSTRUCTION_STR"].
Definition parser_prompts_names : list string := ["DIALOGFLOW_CX_PARSER_INSTRUCTION_STR"].
Definition csv_prompts_names : list string := ["CSV_GENERATION_INSTRUCTION_STR"].
Definition bigquery_tools_names : list string :=
  ["bigquery_metdata_extraction_tool"; "bigquery_execution_tool"].
Definition initialize_state_names : list string := ["initialize_state_var"].
Definition artifact_config_names : list string :=
  ["get_artifact_service"; "configure_artifact_service_for_runner"].
Definition artifact_utils_names : list string :=
  ["list_available_artifacts"; "get_latest_csv_artifact"; "get_csv_artifact_by_version";
   "save_csv_artifact"; "get_artifact_metadata"; "create_csv_content_from_data";
   "generate_sample_csv"].
Definition run_agent_names : list string := ["main"].

(** The import statements at the top of each module. *)
Definition agent_imports : list import_stmt :=
  [FromImport "google.adk.agents" ["BaseAgent"; "LlmAgent"];
   FromImport "sub_agents.conversation_data_retrieval_agent.agent" ["conversation_data_retrieval_agent"];
   FromImport "sub_agents.no_match_analysis_agent.agent" ["no_match_analysis_agent"];
   FromImport "sub_agents.dialogflow_cx_parser_agent.agent" ["dialogflow_cx_parser_agent"];
   FromImport "sub_agents.csv_generation_agent.agent" ["csv_generation_agent"];
   FromImport "tools.initialize_state" ["initialize_state_var"];
   FromImport "typing" ["Dict"; "Any"; "List"];
   FromImport "typing" ["AsyncGenerator"];
   FromImport "typing_extensions" ["override"];
   FromImport "google.adk.events" ["Event"; "EventActions"];
   FromImport "google.adk.agents.invocation_context" ["InvocationContext"];
   FromImport "google.adk.tools" ["ToolContext"];
   Import "logging"].

Definition run_agent_imports : list import_stmt :=
  [Import "os"; Import "sys";
   FromImport "google.adk" ["Runner"];
   FromImport "agent" ["no_match_analysis_orchestrator"];
   FromImport "artifact_config" ["configure_artifact_service_for_runner"]].

Definition artifact_config_imports : list import_stmt :=
  [Import "os";
   FromImport "google.adk.artifacts" ["GcsArtifactService"; "InMemoryArtifactService"]].

Definition artifact_utils_imports : list import_stmt :=
  [Import "os";
   FromImport "datetime" ["datetime"];
   FromImport "typing" ["List"; "Dict"; "Any"; "Optional"];
   FromImport "google.adk.agents.invocation_context" ["InvocationContext"]].

Definition bigquery_tools_imports : list import_stmt :=
  [FromImport "google.cloud" ["bigquery"];
   FromImport "typing" ["List"; "Dict"; "Any"]].

Definition initialize_state_imports : list import_stmt :=
  [FromImport "google.adk.agents.callback_context" ["CallbackContext"];
   FromImport "google.adk.sessions.state" ["State"];
   FromImport "google.adk.tools" ["ToolContext"];
   Import "os";
   FromImport "tools.bigquery_tools" ["bigquery_metdata_extraction_tool"]].

Definition retrieval_agent_imports : list import_stmt :=
  [FromImport "google.adk.agents" ["LlmAgent"];
   FromImport "sub_agents.conversation_data_retrieval_agent.prompts"
     ["CONVERSATION_DATA_RETRIEVAL_INSTRUCTION_STR"];
   FromImport "tools.bigquery_tools" ["bigquery_execution_tool"]].

Definition analysis_agent_imports : list import_stmt :=
  [FromImport "google.adk.agents" ["LlmAgent"];
   FromImport "sub_agents.no_match_analysis_agent.prompts" ["NO_MATCH_ANALYSIS_INSTRUCTION_STR"]].

Definition parser_agent_imports : list import_stmt :=
  [FromImport "google.adk.agents" ["LlmAgent"];
   FromImport "sub_agents.dialogflow_cx_parser_agent.prompts" ["DIALOGFLOW_CX_PARSER_INSTRUCTION_STR"]].

Definition csv_agent_imports : list import_stmt :=
  [FromImport "google.adk.agents" ["LlmAgent"];
   FromImport "sub_agents.csv_generation_agent.prompts" ["CSV_GENERATION_INSTRUCTION_STR"]].

(** The repository's modules by dotted name; the prompts modules import
    nothing. *)
Definition modules : list (string * py_module) :=
  [("agent", mk_module agent_imports agent_names);
   ("run_agent", mk_module run_agent_imports run_agent_names);
   ("artifact_config", mk_module artifact_config_imports artifact_config_names);
   ("artifact_utils", mk_module artifact_utils_imports artifact_utils_names);
   ("tools.bigquery_tools", mk_module bigquery_tools_imports bigquery_tools_names);
   ("tools.initialize_state", mk_module initialize_state_imports initialize_state_names);
   ("sub_agents.conversation_data_retrieval_agent.agent",
      mk_module retrieval_agent_imports retrieval_agent_names);
   ("sub_agents.no_match_analysis_agent.agent", mk_module analysis_agent_imports analysis_agent_names);
   ("sub_agents.dialogflow_cx_parser_agent.agent", mk_module parser_agent_imports parser_agent_names);
   ("sub_agents.csv_generation_agent.agent", mk_module csv_agent_imports csv_agent_names);
   ("sub_agents.conversation_data_retrieval_agent.prompts", mk_module [] retrieval_prompts_names);
   ("sub_agents.no_match_analysis_agent.prompts", mk_module [] analysis_prompts_names);
   ("sub_agents.dialogflow_cx_parser_agent.prompts", mk_module [] parser_prompts_names);
   ("sub_agents.csv_generation_agent.prompts", mk_module [] csv_prompts_names)].

Definition module_table (m : string) : option py_module :=
  option_map snd (find (fun e => String.eqb (fst e) m) modules).

(** ** Modules that are not the repository's *)

Definition stdlib_modules : list string := ["os"; "sys"; "typing"; "logging"; "datetime"; "asyncio"].

Definition is_stdlib (m : string) : bool := existsb (String.eqb m) stdlib_modules.

(** The third-party distributions the program and its scripts name. *)
Definition distributions : list string :=
  ["google.adk"; "google.cloud.bigquery"; "google.cloud.storage"; "google.genai";
   "typing_extensions"].

(** The distribution a dotted module path comes from. *)
Definition distribution (path : string) : string :=
  match find (fun d => String.eqb d path || String.prefix (d ++ ".") path) distributions with
  | Some d => d
  | None => path
  end.

Class Packages := {
  (** the distribution is installed: [__import__(name)] succeeds *)
  pkg_installed : string -> bool
}.

Section Resolve.
Context `{Packages}.

(** One import statement, [ok] deciding the imports of the repository's
    modules: the module imports and defines every name asked for.
    [from m import x] of a third-party module loads [m.x] when [x] is a
    submodule ([from google.cloud import bigquery]). *)
Definition stmt_ok (ok : string -> bool) (s : import_stmt) : bool :=
  match s with
  | Import m =>
      match module_table m with
      | Some _ => ok m
      | None => is_stdlib m || pkg_installed (distribution m)
      end
  | FromImport m xs =>
      match module_table m with
      | Some md => ok m && forallb (fun x => existsb (String.eqb x) (mod_names md)) xs
      | None => is_stdlib m || forallb (fun x => pkg_installed (distribution (m ++ "." ++ x))) xs
      end
  end.

(** Executing a module: its import statements in order, each nested
    import costing one unit of fuel. *)
Fixpoint import_ok (fuel : nat) (m : string) : bool :=
  match fuel with
  | 0 => false
  | S f =>
      match module_table m with
      | Some md => forallb (stmt_ok (import_ok f)) (mod_imports md)
      | None => false
      end
  end.

Definition importable (m : string) : bool := import_ok (List.length modules) m.

(** [from m import x1, ..., xn] run by a script. *)
Definition from_import (m : string) (xs : list string) : bool :=
  stmt_ok importable (FromImport m xs).

(** The reference: the distributions a module's imports reach. *)
Fixpoint packages_needed (fuel : nat) (m : string) : list string :=
  match fuel with
  | 0 => []
  | S f =>
      match module_table m with
      | Some md =>
          flat_map (fun s =>
            match s with
            | Import n =>
                match module_table n with
                | Some _ => packages_needed f n
                | None => if is_stdlib n then [] else [distribution n]
                end
            | FromImport n xs =>
                match module_table n with
                | Some _ => packages_needed f n
                | None => if is_stdlib n then [] else map (fun x => distribution (n ++ "." ++ x)) xs
                end
            end) (mod_imports md)
      | None => []
      end
  end.

Definition is_module (m : string) : bool :=
  match module_table m with Some _ => true | None => false end.

(** The longest chain of nested imports: [run_agent], [agent], a
    sub-agent, [tools.bigquery_tools]. *)
Definition import_depth : nat := 4.

End Resolve.

(** ** The repository table *)

Lemma module_table_in m md : module_table m = Some md -> In (m, md) modules.
Proof.
  unfold module_table. destruct (find _ modules) as [[m' md']|] eqn:E; [|discriminate].
  intros [= <-]. apply find_some in E as [Hin Heq]. apply String.eqb_eq in Heq. now subst.
Qed.

(** Case analysis on what the oracle answers for each distribution a goal
    asks about. *)
Ltac pkg_cases :=
  repeat match goal with
         | |- context [?p ?d] => is_var p; destruct (p d)
         end.

Section Closure.
Context `{Packages}.

(** C27: Importing a module of the repository succeeds exactly when every
    third-party distribution its imports reach is installed: every name a
    module imports from another module of src/ is defined there, so only
    the installed packages decide; anything that is not a module of the
    repository does not import as one. *)
Theorem importable_packages m :
  importable m = is_module m && forallb pkg_installed (packages_needed import_depth m).
Proof.
  destruct (module_table m) as [md|] eqn:E.
  - apply module_table_in in E. unfold modules in E. destruct H as [pk].
    repeat destruct E as [E|E]; try contradiction; injection E as <- <-;
      vm_compute; pkg_cases; reflexivity.
  - unfold importable, is_module. cbn. now rewrite E.
Qed.

End Closure.

Definition all_installed : Packages := {| pkg_installed _ := true |}.

