(* ===== verification/Scripts.v ===== *)
(** * The command-line scripts: src/verify_implementation.py and src/run_agent.py

    [verify_implementation.py] runs six checks, each a function that
    returns [True] or [False] (an exception raised inside it, a failed
    [assert] included, is caught and gives [False]), counts those that
    pass and calls [sys.exit(1)] unless all six do.  Four of them inspect
    values that are in the model: the CSV helpers of artifact_utils.py
    (Csv.v), the configuration of [csv_generation_agent] (Agents.v), the
    text of the CSV prompt (Prompts.v) and the root agent (Orchestrator.v);
    the names each import statement asks a module for are checked against
    the top-level names the module defines, and a module imports when the
    third-party distributions its imports reach are installed (Imports.v,
    the class [Packages]).  Whether a path exists is the class [Machine]
    ([path_exists]).

    [run_agent.py] builds an ADK [Runner] for the root agent, stores the
    artifact service in it (ArtifactConfig.v) and starts its web interface;
    [KeyboardInterrupt] ends it normally and any other exception with
    [sys.exit(1)].  The [Runner] class is the class [AdkRunner]. *)

From stdpp Require Import strings list.
From Stdlib Require Import ZArith.
From S2P Require Import Prelude Py Prompts Agents InitState Orchestrator Csv ArtifactConfig Imports.

(** How a script ends: by returning from [main], by [sys.exit(code)], or
    with an exception no [except] clause catches. *)
Inductive script_exit : Type :=
| Returned
| SysExit (code : Z)
| Uncaught (e : py_exc).

Class Machine := {
  (** [os.path.exists(path)], relative to the working directory *)
  path_exists : string -> bool;
  (** [open(path).read()], or the exception opening or reading raises *)
  read_text : string -> result py_exc pystr
}.

Section Checks.
Context `{Machine} `{Packages} `{Environ} `{GcsConstructor}.

(** [verify_adk_artifact_compliance]: [get_artifact_service()] never
    raises (ArtifactConfig.v), so the check is the imports and the four
    substring assertions on the two CSV texts. *)
Definition compliance_sample : list record :=
  [[(lit "test", CStr (lit "data")); (lit "value", CStr (lit "example"))]].

Definition verify_adk_artifact_compliance : bool :=
  from_import "artifact_config" ["get_artifact_service"] &&
  from_import "artifact_utils"
    ["create_csv_content_from_data"; "generate_sample_csv"; "save_csv_artifact";
     "get_artifact_metadata"] &&
  match create_csv_content_from_data compliance_sample with
  | Ok csv_content =>
      contains csv_content (lit "test") && contains csv_content (lit "data") &&
      match generate_sample_csv with
      | Ok sample_csv =>
          contains sample_csv (lit "Intent Name") &&
          contains sample_csv (lit "AccountSuspensionIntent")
      | Err _ => false
      end
  | Err _ => false
  end.

(** [verify_agent_structure]: the root agent's name; the four sub-agent
    attributes are fields of [NoMatchAnalysisAgent] and each [LlmAgent]
    has a [name], so the [hasattr] assertions hold by typing. *)
Definition verify_agent_structure : bool :=
  from_import "agent" ["no_match_analysis_orchestrator"] &&
  String.eqb root_agent_name "no_match_analysis_orchestrator".

Definition verify_csv_generation_agent : bool :=
  from_import "sub_agents.csv_generation_agent.agent" ["csv_generation_agent"] &&
  String.eqb (llm_name csv_generation_agent) "csv_generation_agent" &&
  String.eqb (llm_model csv_generation_agent) "gemini-2.5-flash" &&
  String.eqb (llm_output_key csv_generation_agent) "csv_generation_output".

(** The prompts module imports nothing: this check needs no package. *)
Definition verify_prompt_instructions : bool :=
  from_import "sub_agents.csv_generation_agent.prompts" ["CSV_GENERATION_INSTRUCTION_STR"] &&
  contains CSV_GENERATION_INSTRUCTION_STR (lit "ctx.save_artifact") &&
  contains CSV_GENERATION_INSTRUCTION_STR (lit "mime_type=" ++ dq ++ lit "text/csv" ++ dq) &&
  contains CSV_GENERATION_INSTRUCTION_STR (lit "ADK context") &&
  negb (contains CSV_GENERATION_INSTRUCTION_STR (lit "gcs_csv_artifact_tool")).

Definition required_files : list string :=
  ["agent.py"; "artifact_config.py"; "artifact_utils.py"; "run_agent.py";
   "test_agent.py"; "test_integration.py"; "requirements.txt"; "README.md";
   "QUICKSTART.md"; "FINAL_SETUP.md";
   "sub_agents/csv_generation_agent/agent.py";
   "sub_agents/csv_generation_agent/prompts.py";
   "tools/bigquery_tools.py"; "tools/initialize_state.py"].

Definition incorrect_file : string := "tools/gcs_csv_artifact_tool.py".

Definition verify_file_structure : bool :=
  let missing_files := List.filter (fun p => negb (path_exists p)) required_files in
  if path_exists incorrect_file then false
  else match missing_files with
       | [] => true
       | _ :: _ => false
       end.

Definition import_statements : list (string * list string) :=
  [("agent", ["no_match_analysis_orchestrator"; "root_agent"]);
   ("sub_agents.conversation_data_retrieval_agent.agent", ["conversation_data_retrieval_agent"]);
   ("sub_agents.no_match_analysis_agent.agent", ["no_match_analysis_agent"]);
   ("sub_agents.dialogflow_cx_parser_agent.agent", ["dialogflow_cx_parser_agent"]);
   ("sub_agents.csv_generation_agent.agent", ["csv_generation_agent"]);
   ("tools.bigquery_tools", ["bigquery_execution_tool"; "bigquery_metdata_extraction_tool"]);
   ("tools.initialize_state", ["initialize_state_var"]);
   ("artifact_config", ["get_artifact_service"; "configure_artifact_service_for_runner"]);
   ("artifact_utils", ["save_csv_artifact"; "create_csv_content_from_data"; "generate_sample_csv"])].

Definition verify_imports : bool :=
  forallb (fun '(m, xs) => from_import m xs) import_statements.

Definition verifications : list bool :=
  [verify_file_structure; verify_imports; verify_agent_structure;
   verify_csv_generation_agent; verify_prompt_instructions;
   verify_adk_artifact_compliance].

(** [main]: the number of checks that passed, and how the script ends. *)
Definition verify_main : nat * script_exit :=
  let passed := List.fold_left (fun n (ok : bool) => if ok then S n else n) verifications 0%nat in
  let total := length verifications in
  (passed, if Nat.eqb passed total then Returned else SysExit 1).

End Checks.

(** ** src/run_agent.py *)

Class AdkRunner := {
  (** [Runner(agent=a)] for the agent named [a] *)
  Runner_new : string -> result py_exc runner;
  (** [runner.web()] *)
  runner_web : runner -> result py_exc unit
}.

(** The [except] clauses of [main]. *)
Definition run_agent_handler (e : py_exc) : script_exit :=
  match e with
  | KeyboardInterrupt => Returned
  | _ => SysExit 1
  end.

(** [main]: the runner whose web interface was started, if any, and how
    the script ends. *)
Definition run_agent_main `{Environ} `{GcsConstructor} `{AdkRunner}
    : option runner * script_exit :=
  match Runner_new root_agent_name with
  | Err e => (None, run_agent_handler e)
  | Ok r0 =>
      let r := configure_artifact_service_for_runner r0 in
      match runner_web r with
      | Ok _ => (Some r, Returned)
      | Err e => (Some r, run_agent_handler e)
      end
  end.

(** ** What the scripts do *)

Section Verdict.
Context `{Machine} `{Packages} `{Environ} `{GcsConstructor}.

(** C25: The verdict of [main]: all six checks pass, and the script
    returns, exactly when the file structure is right and google-adk,
    typing_extensions and google-cloud-bigquery are installed; otherwise
    it exits with status 1, having counted the file check, the import and
    agent checks (all three packages), the CSV-agent and artifact checks
    (google-adk) and the prompt check. *)
Theorem verify_main_spec :
  let core := pkg_installed "google.adk" && pkg_installed "typing_extensions" &&
              pkg_installed "google.cloud.bigquery" in
  verify_main =
  if verify_file_structure && core then (6%nat, Returned)
  else ((if verify_file_structure then 1 else 0) + (if core then 2 else 0) +
        (if pkg_installed "google.adk" then 2 else 0) + 1, SysExit 1)%nat.
Proof.
  unfold verify_main, verifications. cbv zeta.
  destruct verify_file_structure; destruct H0 as [pk]; vm_compute; pkg_cases; reflexivity.
Qed.

End Verdict.

Lemma run_agent_handler_exit1 e : run_agent_handler e = SysExit 1 <-> e <> KeyboardInterrupt.
Proof. destruct e; cbn; split; congruence. Qed.

Lemma run_agent_handler_cases e : run_agent_handler e = Returned \/ run_agent_handler e = SysExit 1.
Proof. destruct e; cbn; auto. Qed.

Section RunAgent.
Context `{Environ} `{GcsConstructor} `{AdkRunner}.

(** C26: [run_agent.main] exits with status 1 exactly when building the
    runner or running its web interface raises an exception other than
    [KeyboardInterrupt], and otherwise returns; when the web interface is
    started, it is started on the runner built for the root agent, with
    the artifact service of [get_artifact_service] stored in it. *)
Theorem run_agent_main_spec :
  (run_agent_main.2 = SysExit 1 <->
   exists e, e <> KeyboardInterrupt /\
     (Runner_new root_agent_name = Err e \/
      exists r0, Runner_new root_agent_name = Ok r0 /\
        runner_web (configure_artifact_service_for_runner r0) = Err e)) /\
  (run_agent_main.2 = Returned \/ run_agent_main.2 = SysExit 1) /\
  (forall r, run_agent_main.1 = Some r ->
   exists r0, Runner_new root_agent_name = Ok r0 /\
     runner_agent r = runner_agent r0 /\
     runner_artifact_service r = Some get_artifact_service).
Proof.
  unfold run_agent_main.
  destruct (Runner_new root_agent_name) as [r0|e0] eqn:Hn; cbn.
  - destruct (runner_web (configure_artifact_service_for_runner r0)) as [u|e0] eqn:Hw; cbn.
    + split; [split; [discriminate|]|split; [auto|]].
      * intros (e & _ & [[=]|(r1 & [= <-] & Hw')]). congruence.
      * intros r [= <-]. eauto.
    + split; [rewrite run_agent_handler_exit1; split|split; [apply run_agent_handler_cases|]].
      * intros He. exists e0. eauto.
      * intros (e & He & [[=]|(r1 & [= <-] & Hw')]). congruence.
      * intros r [= <-]. eauto.
  - split; [rewrite run_agent_handler_exit1; split|split; [apply run_agent_handler_cases|]].
    + intros He. exists e0. auto.
    + intros (e & He & [[= <-]|(r1 & [=] & _)]). exact He.
    + intros r [=].
Qed.

End RunAgent.

(** With the [Runner] of google-adk, whose constructor requires the
    keyword arguments [app_name] and [session_service], [Runner(agent=...)]
    raises [TypeError]: the script exits with status 1 before any web
    interface is started. *)
Definition adk_runner : AdkRunner := {|
  Runner_new _ := Err TypeError;
  runner_web _ := Err TypeError |}.

Example run_agent_main_adk :
  @run_agent_main (env_with_bucket None) gcs_ok adk_runner = (None, SysExit 1).
Proof. reflexivity. Qed.
