(* ===== verification/Tests.v ===== *)
(** * The test scripts: src/test_agent.py and src/test_integration.py

    Both scripts run a list of test functions, each returning [True] or
    [False] (their [try] blocks turn an exception into [False]), count the
    ones that return [True] and call [sys.exit(1)] unless all do.  The
    tests import modules of the program (Imports.v), call the CSV helpers
    (Csv.v) and the artifact service choice (ArtifactConfig.v), and ask
    the machine: paths ([path_exists], relative to the working
    directory), the text of the [.env] file beside the script
    ([read_text]), the installed distributions ([pkg_installed]) and the
    environment ([getenv]).

    [test_agent.test_environment] reads [.env] outside any [try]: an error
    opening it ends [main] with that exception ([run_tests]).  Its other
    lines only print; it returns [True]. *)

From stdpp Require Import strings list.
From Stdlib Require Import ZArith.
From S2P Require Import Prelude Py InitState Csv ArtifactConfig Imports Scripts.

(** Running the tests in order: how many returned [True], and the
    exception that escaped one of them, if any (the later ones do not
    run). *)
Fixpoint run_tests (tests : list (result py_exc bool)) : nat * option py_exc :=
  match tests with
  | [] => (0%nat, None)
  | Ok b :: ts => let '(n, e) := run_tests ts in ((if b then 1 else 0) + n, e)%nat
  | Err e :: _ => (0%nat, Some e)
  end.

(** [main]: the count, and how the script ends. *)
Definition tests_main (tests : list (result py_exc bool)) : nat * script_exit :=
  match run_tests tests with
  | (passed, Some e) => (passed, Uncaught e)
  | (passed, None) => (passed, if Nat.eqb passed (length tests) then Returned else SysExit 1)
  end.

Section TestAgent.
Context `{Machine} `{Packages}.
(** The directory of the script ([os.path.dirname(os.path.abspath(__file__))]). *)
Variable script_dir : string.

Definition test_imports : bool :=
  from_import "agent" ["no_match_analysis_orchestrator"; "root_agent"] &&
  from_import "sub_agents.conversation_data_retrieval_agent.agent" ["conversation_data_retrieval_agent"] &&
  from_import "sub_agents.no_match_analysis_agent.agent" ["no_match_analysis_agent"] &&
  from_import "sub_agents.dialogflow_cx_parser_agent.agent" ["dialogflow_cx_parser_agent"] &&
  from_import "sub_agents.csv_generation_agent.agent" ["csv_generation_agent"] &&
  from_import "tools.bigquery_tools" ["bigquery_execution_tool"; "bigquery_metdata_extraction_tool"] &&
  from_import "artifact_utils" ["save_csv_artifact"; "create_csv_content_from_data"] &&
  from_import "tools.initialize_state" ["initialize_state_var"].

(** The four [hasattr] assertions hold by the fields of
    [NoMatchAnalysisAgent]. *)
Definition test_agent_structure : bool :=
  from_import "agent" ["no_match_analysis_orchestrator"].

Definition test_tools : bool :=
  from_import "artifact_utils" ["generate_sample_csv"] &&
  match generate_sample_csv with
  | Ok sample_csv =>
      contains sample_csv (lit "Intent Name") && contains sample_csv (lit "AccountSuspensionIntent")
  | Err _ => false
  end.

Definition env_file : string := script_dir +:+ "/.env".

Definition test_environment : result py_exc bool :=
  if path_exists env_file then
    match read_text env_file with
    | Ok _ => Ok true
    | Err e => Err e
    end
  else Ok true.

Definition test_agent_required_files : list string :=
  ["agent.py"; "requirements.txt"; "README.md"; "QUICKSTART.md";
   "sub_agents/__init__.py";
   "sub_agents/conversation_data_retrieval_agent/agent.py";
   "sub_agents/conversation_data_retrieval_agent/prompts.py";
   "sub_agents/no_match_analysis_agent/agent.py";
   "sub_agents/no_match_analysis_agent/prompts.py";
   "sub_agents/dialogflow_cx_parser_agent/agent.py";
   "sub_agents/dialogflow_cx_parser_agent/prompts.py";
   "sub_agents/csv_generation_agent/agent.py";
   "sub_agents/csv_generation_agent/prompts.py";
   "tools/__init__.py"; "tools/bigquery_tools.py"; "tools/initialize_state.py";
   "artifact_config.py"; "artifact_utils.py"].

Definition test_file_structure : bool :=
  match List.filter (fun p => negb (path_exists p)) test_agent_required_files with
  | [] => true
  | _ :: _ => false
  end.

Definition test_sample_data : list record := [[(lit "test", CStr (lit "data"))]].

Definition test_artifact_implementation : bool :=
  from_import "artifact_config" ["get_artifact_service"] &&
  from_import "artifact_utils" ["create_csv_content_from_data"; "generate_sample_csv"] &&
  match create_csv_content_from_data test_sample_data, generate_sample_csv with
  | Ok csv_content, Ok sample_csv =>
      contains csv_content (lit "test") && contains sample_csv (lit "Intent Name")
  | _, _ => false
  end.

Definition test_agent_tests : list (result py_exc bool) :=
  [Ok test_file_structure; Ok test_imports; Ok test_agent_structure; Ok test_tools;
   Ok test_artifact_implementation; test_environment].

Definition test_agent_main : nat * script_exit := tests_main test_agent_tests.

End TestAgent.

Section TestIntegration.
Context `{Packages} `{Environ} `{GcsConstructor}.

Definition required_packages : list string :=
  ["google.adk"; "google.cloud.bigquery"; "google.cloud.storage"; "google.genai"].

(** [__import__(package)] for each package, all attempted. *)
Definition test_dependencies : bool :=
  match List.filter (fun p => negb (pkg_installed p)) required_packages with
  | [] => true
  | _ :: _ => false
  end.

(** [get_artifact_service()] never raises (ArtifactConfig.v). *)
Definition test_artifact_config : bool :=
  from_import "artifact_config" ["get_artifact_service"].

Definition test_artifact_utils : bool :=
  from_import "artifact_utils"
    ["list_available_artifacts"; "get_latest_csv_artifact"; "save_csv_artifact";
     "get_artifact_metadata"; "create_csv_content_from_data"; "generate_sample_csv"] &&
  match create_csv_content_from_data test_sample_data, generate_sample_csv with
  | Ok csv_content, Ok sample_csv =>
      contains csv_content (lit "test") && contains sample_csv (lit "Intent Name")
  | _, _ => false
  end.

Definition test_runner_config : bool := from_import "run_agent" ["main"].

(** The [hasattr] tests hold by the fields of [NoMatchAnalysisAgent]. *)
Definition test_complete_agent_setup : bool :=
  from_import "agent" ["no_match_analysis_orchestrator"] &&
  from_import "artifact_config" ["get_artifact_service"].

Definition required_vars : list string := ["PROJECT"; "BQ_LOCATION"; "DATASET"; "GCS_BUCKET_NAME"].

(** [value and value != "your-no-match-analysis-artifacts"] *)
Definition var_configured (var : string) : bool :=
  match getenv var with
  | Some value => truthy (VStr value) && negb (pystr_eqb value placeholder_bucket)
  | None => false
  end.

Definition test_environment_setup : bool :=
  match List.filter (fun v => negb (var_configured v)) required_vars with
  | [] => true
  | _ :: _ => false
  end.

Definition test_adk_artifact_compliance : bool :=
  from_import "artifact_utils" ["save_csv_artifact"] &&
  from_import "artifact_utils" ["create_csv_content_from_data"] &&
  match create_csv_content_from_data test_sample_data with
  | Ok _ => from_import "artifact_utils" ["get_artifact_metadata"]
  | Err _ => false
  end.

Definition test_integration_tests : list (result py_exc bool) :=
  [Ok test_dependencies; Ok test_artifact_config; Ok test_artifact_utils; Ok test_runner_config;
   Ok test_complete_agent_setup; Ok test_environment_setup; Ok test_adk_artifact_compliance].

Definition test_integration_main : nat * script_exit := tests_main test_integration_tests.

End TestIntegration.

(** ** What the test scripts report *)

Lemma missing_file_check (exists_ : string -> bool) (l : list string) p :
  In p l -> exists_ p = false -> List.filter (fun p => negb (exists_ p)) l <> [].
Proof.
  intros Hin Hp. induction l as [|q l IH]; [contradiction|].
  destruct Hin as [<-|Hin]; cbn.
  - rewrite Hp. discriminate.
  - destruct (negb (exists_ q)); [discriminate|]. exact (IH Hin).
Qed.

Section TestAgentVerdict.
Context `{Machine} `{Packages}.
Variable script_dir : string.

(** C28: The verdict of test_agent.py: the file check, two import checks
    that need google-adk, typing_extensions and google-cloud-bigquery, two
    CSV checks that need google-adk, then the [.env] check, which passes
    unless reading an existing [.env] raises, in which case that exception
    ends the script; it returns exactly when the files are present and
    the three packages are installed, and exits with status 1
    otherwise. *)
Theorem test_agent_main_spec :
  let core := pkg_installed "google.adk" && pkg_installed "typing_extensions" &&
              pkg_installed "google.cloud.bigquery" in
  let passed := ((if test_file_structure then 1 else 0) + (if core then 2 else 0) +
                 (if pkg_installed "google.adk" then 2 else 0))%nat in
  test_agent_main script_dir =
  match test_environment script_dir with
  | Err e => (passed, Uncaught e)
  | Ok _ => (S passed, if test_file_structure && core then Returned else SysExit 1)
  end.
Proof.
  cbv zeta. unfold test_agent_main, tests_main, test_agent_tests, test_environment.
  destruct (path_exists (env_file script_dir)); [destruct (read_text (env_file script_dir))|];
    destruct test_file_structure; destruct H0 as [pk]; vm_compute; pkg_cases; reflexivity.
Qed.

(** C29: Without [tools/__init__.py] (src/ ships no [__init__.py]: its
    packages are namespace packages, which import without one),
    test_agent.py never succeeds: at most five of its six tests pass and
    it does not return normally, whatever is installed. *)
Theorem test_agent_needs_init_files :
  path_exists "tools/__init__.py" = false ->
  ((test_agent_main script_dir).1 <= 5)%nat /\ (test_agent_main script_dir).2 <> Returned.
Proof.
  intros Hp.
  assert (Hfs : test_file_structure = false).
  { unfold test_file_structure. destruct (List.filter _ _) eqn:E; [|reflexivity].
    exfalso. refine (missing_file_check _ _ _ _ Hp E).
    unfold test_agent_required_files. cbn. repeat (first [left; reflexivity | right]). }
  unfold test_agent_main, tests_main, test_agent_tests. rewrite Hfs. unfold test_environment.
  destruct (path_exists (env_file script_dir)); [destruct (read_text (env_file script_dir))|];
    destruct H0 as [pk]; vm_compute; pkg_cases; split; (lia || discriminate).
Qed.

End TestAgentVerdict.

Section TestIntegrationVerdict.
Context `{Packages} `{Environ} `{GcsConstructor}.

(** C30: The verdict of test_integration.py: it returns exactly when
    google-adk, google-cloud-bigquery, google-cloud-storage, google-genai
    and typing_extensions are installed and the four variables are set to
    real values, and exits with status 1 otherwise; the count is the
    dependency check, the four checks that need google-adk only, the
    runner and agent checks (google-adk, typing_extensions,
    google-cloud-bigquery) and the environment check. *)
Theorem test_integration_main_spec :
  let adk := pkg_installed "google.adk" in
  let core := adk && pkg_installed "typing_extensions" && pkg_installed "google.cloud.bigquery" in
  let deps := adk && pkg_installed "google.cloud.bigquery" &&
              pkg_installed "google.cloud.storage" && pkg_installed "google.genai" in
  test_integration_main =
  (((if deps then 1 else 0) + (if adk then 3 else 0) + (if core then 2 else 0) +
    (if test_environment_setup then 1 else 0))%nat,
   if deps && pkg_installed "typing_extensions" && test_environment_setup
   then Returned else SysExit 1).
Proof.
  cbv zeta. unfold test_integration_main, tests_main, test_integration_tests.
  destruct test_environment_setup; destruct H as [pk]; vm_compute; pkg_cases; reflexivity.
Qed.

(** C31: When the integration test's environment check passes, the
    program's own choice of artifact service follows it: the bucket it
    names is set, non-empty and not the placeholder, so
    [get_artifact_service] selects the Cloud Storage service on that
    bucket unless the service's constructor raises. *)
Theorem test_environment_setup_gcs :
  test_environment_setup = true ->
  exists b, getenv "GCS_BUCKET_NAME" = Some b /\ b <> [] /\ b <> placeholder_bucket /\
    (get_artifact_service = GcsArtifactService b \/ gcs_init b <> None).
Proof.
  intros Hs.
  assert (Hg : var_configured "GCS_BUCKET_NAME" = true).
  { unfold test_environment_setup, required_vars in Hs. cbn [List.filter] in Hs.
    destruct (var_configured "GCS_BUCKET_NAME"); [reflexivity|]. cbn [negb] in Hs.
    repeat destruct (negb (var_configured _)); discriminate. }
  unfold var_configured in Hg. destruct (getenv "GCS_BUCKET_NAME") as [b|] eqn:Eb; [|discriminate].
  apply andb_true_iff in Hg as [Ht Hp]. apply negb_true_iff in Hp.
  exists b. split; [reflexivity|]. split; [now apply truthy_VStr|].
  split; [intros ->; rewrite (proj2 (pystr_eqb_spec _ _) eq_refl) in Hp; discriminate|].
  unfold get_artifact_service. rewrite Eb, Ht, Hp. cbn.
  destruct (gcs_init b); [right; discriminate|left; reflexivity].
Qed.

End TestIntegrationVerdict.

(** ** The repository as shipped *)

(** The files of src/, as the scripts see them when run from it. *)
Definition src_files : list string :=
  ["agent.py"; "artifact_config.py"; "artifact_utils.py"; "run_agent.py"; "test_agent.py";
   "test_integration.py"; "verify_implementation.py";
   "tools/bigquery_tools.py"; "tools/initialize_state.py";
   "sub_agents/conversation_data_retrieval_agent/agent.py";
   "sub_agents/conversation_data_retrieval_agent/prompts.py";
   "sub_agents/no_match_analysis_agent/agent.py";
   "sub_agents/no_match_analysis_agent/prompts.py";
   "sub_agents/dialogflow_cx_parser_agent/agent.py";
   "sub_agents/dialogflow_cx_parser_agent/prompts.py";
   "sub_agents/csv_generation_agent/agent.py";
   "sub_agents/csv_generation_agent/prompts.py"].

Definition src_tree : Machine := {|
  path_exists p := existsb (String.eqb p) src_files;
  read_text p := Err (KeyError (lit p)) |}.

Lemma test_agent_needs_init_files_witness :
  @path_exists src_tree "tools/__init__.py" = false /\
  ((@test_agent_main src_tree all_installed ".").1 <= 5)%nat /\
  (@test_agent_main src_tree all_installed ".").2 <> Returned.
Proof.
  split; [reflexivity|]. apply (@test_agent_needs_init_files src_tree all_installed). reflexivity.
Defined.

(** A deployment with the four variables set. *)
Definition configured_env : Environ := {|
  getenv v := if String.eqb v "GCS_BUCKET_NAME" then Some (lit "no-match-artifacts")
              else Some (lit "my-project") |}.

Lemma test_environment_setup_gcs_witness :
  @test_environment_setup configured_env = true /\
  exists b, @getenv configured_env "GCS_BUCKET_NAME" = Some b /\ b <> [] /\
    b <> placeholder_bucket /\
    (@get_artifact_service configured_env gcs_ok = GcsArtifactService b \/ @gcs_init gcs_ok b <> None).
Proof.
  split; [reflexivity|]. apply (@test_environment_setup_gcs configured_env gcs_ok). reflexivity.
Defined.
